(** * CustomerCareAI_Ecosystem: pipeline coordinator, verified model

    A shallow embedding of the orchestration core of the repository:
    - [api/schemas.py]                      the pydantic records,
    - [orchestrator/aggregator.py]          the escalation gate and the merge,
    - [agents/emotional_intelligence/escalation_policy.py],
    - [orchestrator/context_manager.py]     the conversation store,
    - [agents/base_agent.py]                the [safe_process] wrapper,
    - [orchestrator/main.py]                [run_pipeline],
    - [api/middleware.py]                   the rate limiter,
    - [api/endpoints.py]                    the escalation queue,
    - [agents/proactive_issue/alert_builder.py],
    - [agents/emotional_intelligence/eia_agent.py]  the tone table,
    - [agents/omni_channel_support]         the support agent,
    - [agents/knowledge_base/kfo_agent.py]  the knowledge agent.

    Python [float] is IEEE binary64 and is modelled by Rocq's primitive
    floats; Python [int] is [Z]; [str] is [string]; [dict] tables keyed by
    strings are [gmap string _]; [Optional[T]] is [option T]. *)

From Stdlib Require Import ZArith List String Bool Lia.
From Stdlib Require Import PrimFloat Uint63 FloatOps SpecFloat FloatAxioms DecimalString.
From Stdlib Require QArith.
From stdpp Require Import gmap strings list fin_maps.

Set Warnings "-register-all,-inexact-float".
Local Open Scope Z_scope.
Local Open Scope string_scope.

(** ** Python helpers *)

(** [l[-n:]] for a positive literal [n]: the last [n] items of [l]. *)
Definition py_tail {A : Type} (n : nat) (l : list A) : list A :=
  drop (length l - n)%nat l.

(** [l.append(x)], as the new value of [l]. *)
Definition py_append {A : Type} (l : list A) (x : A) : list A := (l ++ [x])%list.

(** [sep.join(parts)]. *)
Definition py_join (sep : string) (parts : list string) : string :=
  String.concat sep parts.

(** [str(i)] for an [int]. *)
Definition str_int (i : Z) : string :=
  NilZero.string_of_int (Z.to_int i).

(** [len(l)] as a Python [int]. *)
Definition len {A : Type} (l : list A) : Z := Z.of_nat (length l).

(** [x in coll] for a collection of strings held as a finite set. *)
Definition str_in (x : string) (coll : gset string) : bool :=
  bool_decide (x ∈ coll).

(** Truthiness of a [str]: only the empty string is falsy. *)
Definition truthy (s : string) : bool :=
  match s with EmptyString => false | String _ _ => true end.

(** Rendering of floats inside f-strings.  [format_2f x] is [f"{x:.2f}"]
    and [str_float x] is [f"{x}"]; both are builtins of the interpreter and
    are taken as parameters of the development. *)
Class PyFormat := {
  format_2f : float -> string;
  str_float : float -> string
}.

(** Values of [model_dump()] and of structlog fields: JSON-like trees, with
    dictionaries as association lists in insertion order. *)
Inductive json : Type :=
| JNull
| JBool (b : bool)
| JInt (z : Z)
| JFloat (f : float)
| JStr (s : string)
| JList (items : list json)
| JDict (fields : list (string * json)).

Definition JOpt {A : Type} (f : A -> json) (o : option A) : json :=
  match o with Some a => f a | None => JNull end.

(** ** api/schemas.py *)

Inductive ChannelType := CHAT | EMAIL | SOCIAL.
Inductive SeverityLevel := LOW | MEDIUM | HIGH | CRITICAL.
Inductive SupportedLanguage := EN | AR.

Definition ChannelType_value (c : ChannelType) : string :=
  match c with CHAT => "chat" | EMAIL => "email" | SOCIAL => "social" end.

Definition SeverityLevel_value (s : SeverityLevel) : string :=
  match s with LOW => "low" | MEDIUM => "medium" | HIGH => "high" | CRITICAL => "critical" end.

Definition SupportedLanguage_value (l : SupportedLanguage) : string :=
  match l with EN => "en" | AR => "ar" end.

Definition SeverityLevel_eqb (a b : SeverityLevel) : bool :=
  match a, b with
  | LOW, LOW | MEDIUM, MEDIUM | HIGH, HIGH | CRITICAL, CRITICAL => true
  | _, _ => false
  end.

Module OCSOutput.
Record t := mk {
  response_text : string;
  intent : string;
  suggested_faq_ids : list string;
  escalation_flag : bool;
  language : SupportedLanguage
}.
Definition model_dump (o : t) : json :=
  JDict [("response_text", JStr (response_text o));
         ("intent", JStr (intent o));
         ("suggested_faq_ids", JList (map JStr (suggested_faq_ids o)));
         ("escalation_flag", JBool (escalation_flag o));
         ("language", JStr (SupportedLanguage_value (language o)))].
End OCSOutput.

Module FAQArticle.
Record t := mk {
  article_id : string;
  title : string;
  content_snippet : string;
  confidence_score : float
}.
Definition model_dump (a : t) : json :=
  JDict [("article_id", JStr (article_id a));
         ("title", JStr (title a));
         ("content_snippet", JStr (content_snippet a));
         ("confidence_score", JFloat (confidence_score a))].
End FAQArticle.

Module KFOOutput.
Record t := mk {
  suggested_faq_articles : list FAQArticle.t;
  updated_knowledge : bool
}.
Definition model_dump (o : t) : json :=
  JDict [("suggested_faq_articles",
          JList (map FAQArticle.model_dump (suggested_faq_articles o)));
         ("updated_knowledge", JBool (updated_knowledge o))].
End KFOOutput.

Module EIAOutput.
Record t := mk {
  sentiment_score : float;
  dominant_emotion : string;
  escalation_flag : bool;
  tone_recommendation : string
}.
Definition model_dump (o : t) : json :=
  JDict [("sentiment_score", JFloat (sentiment_score o));
         ("dominant_emotion", JStr (dominant_emotion o));
         ("escalation_flag", JBool (escalation_flag o));
         ("tone_recommendation", JStr (tone_recommendation o))].
End EIAOutput.

Module ProactiveAlert.
Record t := mk {
  alert_type : string;
  severity : SeverityLevel;
  recommended_action : string;
  timestamp : string
}.
Definition model_dump (a : t) : json :=
  JDict [("alert_type", JStr (alert_type a));
         ("severity", JStr (SeverityLevel_value (severity a)));
         ("recommended_action", JStr (recommended_action a));
         ("timestamp", JStr (timestamp a))].
End ProactiveAlert.

Module PIROutput.
Record t := mk { proactive_alerts : list ProactiveAlert.t }.
Definition model_dump (o : t) : json :=
  JDict [("proactive_alerts",
          JList (map ProactiveAlert.model_dump (proactive_alerts o)))].
End PIROutput.

Module FeedbackAnalysis.
Record t := mk {
  csat_score : option float;
  sentiment_trend : option string;
  top_issues : list string;
  knowledge_gap_flags : list string
}.
(** [FeedbackAnalysis()]: every field at its default. *)
Definition default : t :=
  {| csat_score := None; sentiment_trend := None;
     top_issues := []; knowledge_gap_flags := [] |}.
Definition model_dump (a : t) : json :=
  JDict [("csat_score", JOpt JFloat (csat_score a));
         ("sentiment_trend", JOpt JStr (sentiment_trend a));
         ("top_issues", JList (map JStr (top_issues a)));
         ("knowledge_gap_flags", JList (map JStr (knowledge_gap_flags a)))].
End FeedbackAnalysis.

Module KnowledgeBaseUpdate.
Record t := mk {
  article_id : string;
  update_type : string;
  content : string
}.
Definition model_dump (u : t) : json :=
  JDict [("article_id", JStr (article_id u));
         ("update_type", JStr (update_type u));
         ("content", JStr (content u))].
End KnowledgeBaseUpdate.

Module FANOutput.
Record t := mk {
  feedback_analysis : FeedbackAnalysis.t;
  knowledge_base_update : list KnowledgeBaseUpdate.t
}.
Definition model_dump (o : t) : json :=
  JDict [("feedback_analysis", FeedbackAnalysis.model_dump (feedback_analysis o));
         ("knowledge_base_update",
          JList (map KnowledgeBaseUpdate.model_dump (knowledge_base_update o)))].
End FANOutput.

Module AgentLogs.
Record t := mk { ocs : json; kfo : json; eia : json; pir : json; fan : json }.
End AgentLogs.

Module OrchestratorResponse.
Record t := mk {
  interaction_id : string;
  timestamp : string;
  customer_id : string;
  channel : ChannelType;
  language : SupportedLanguage;
  response_text : string;
  intent : string;
  sentiment_score : float;
  dominant_emotion : string;
  escalation_flag : bool;
  escalation_reason : option string;
  suggested_faq_articles : list FAQArticle.t;
  proactive_alerts : list ProactiveAlert.t;
  feedback_analysis : FeedbackAnalysis.t;
  agent_logs : AgentLogs.t
}.
End OrchestratorResponse.

(** One item of the [history] list kept in a conversation's context. *)
Module HistoryEntry.
Record t := mk { role : string; text : string; timestamp : string }.
End HistoryEntry.

(** The context snapshot, a plain dict in the source, with the ten keys
    that [ContextManager.get_or_create] always writes. *)
Module Context.
Record t := mk {
  conversation_id : string;
  customer_id : string;
  channel : string;
  language : string;
  history : list HistoryEntry.t;
  previous_intents : list string;
  emotion_trend : list string;
  is_escalated : bool;
  turn_count : Z;
  unresolved_turns : Z
}.
End Context.

(** ** Effects

    The source logs through structlog, reads and writes the conversations
    table, schedules background tasks and may raise.  A computation is a
    function of the [World] that either returns or raises. *)

Record LogEvent := mkLog {
  log_level : string;
  log_event : string;
  log_fields : list (string * json)
}.

(** Python exception classes: the classes deriving from [Exception], and
    the four builtin classes that derive from [BaseException] only. *)
Inductive ExcClass :=
| ExceptionSubclass (name : string)
| KeyboardInterrupt
| SystemExit
| GeneratorExit
| CancelledError.

Record PyExc := mkExc { exc_class : ExcClass; exc_str : string }.

(** [isinstance(e, Exception)], the test of an [except Exception] clause. *)
Definition isinstance_Exception (e : PyExc) : bool :=
  match exc_class e with ExceptionSubclass _ => true | _ => false end.

(** A row of the [conversations] table ([db/models.py]).  The JSON column
    [context] is nullable; when set by this code it carries five keys. *)
Module ConvContext.
Record t := mk {
  history : list HistoryEntry.t;
  previous_intents : list string;
  emotion_trend : list string;
  turn_count : Z;
  unresolved_turns : Z
}.
End ConvContext.

Module Conversation.
Record t := mk {
  id : string;
  customer_id : string;
  channel : string;
  language : string;
  created_at : string;
  updated_at : string;
  context : option ConvContext.t;
  is_escalated : bool
}.
End Conversation.

Module FANInput.
Record t := mk {
  interaction_id : string;
  customer_feedback : option json;
  interaction_log : json
}.
End FANInput.

(** Everything a request handler can observe and change: the
    [conversations] table, the structlog output, the scheduled background
    tasks, and the rate limiter's in-memory table [_requests]. *)
Record World := mkWorld {
  db : gmap string Conversation.t;
  logs : list LogEvent;
  background_tasks : list FANInput.t;
  _requests : gmap string (list float)
}.

Inductive Res (A : Type) : Type :=
| Returned (a : A) (w : World)
| Raised (e : PyExc) (w : World).
Arguments Returned {A} a w.
Arguments Raised {A} e w.

Definition M (A : Type) : Type := World -> Res A.

#[global] Instance M_ret : MRet M := fun A a w => Returned a w.

#[global] Instance M_bind : MBind M := fun A B k m w =>
  match m w with
  | Returned a w' => k a w'
  | Raised e w' => Raised e w'
  end.

(** [raise e]. *)
Definition raise {A} (e : PyExc) : M A := fun w => Raised e w.

(** [logger.<level>(event, **fields)]: appends one entry to the log. *)
Definition emit (level event : string) (fields : list (string * json)) : M unit :=
  fun w => Returned tt
    {| db := db w;
       logs := py_append (logs w) (mkLog level event fields);
       background_tasks := background_tasks w;
       _requests := _requests w |}.

Definition get_db : M (gmap string Conversation.t) := fun w => Returned (db w) w.

Definition put_db (d : gmap string Conversation.t) : M unit :=
  fun w => Returned tt
    {| db := d; logs := logs w;
       background_tasks := background_tasks w;
       _requests := _requests w |}.

(** [background_tasks.add_task(fan_agent.safe_process, fan_input)]. *)
Definition add_task (t : FANInput.t) : M unit :=
  fun w => Returned tt
    {| db := db w; logs := logs w;
       background_tasks := py_append (background_tasks w) t;
       _requests := _requests w |}.

Definition get_requests : M (gmap string (list float)) :=
  fun w => Returned (_requests w) w.

Definition put_requests (r : gmap string (list float)) : M unit :=
  fun w => Returned tt
    {| db := db w; logs := logs w;
       background_tasks := background_tasks w;
       _requests := r |}.

(** ** config/escalation_thresholds.yaml

    The [escalation] table read at import time.  The file is looked up with
    [.get(key, default)] at every use, so each entry may be missing; an
    unreadable file gives the empty table. *)
Module EscalationConfig.
Record t := mk {
  sentiment_threshold : option float;
  emotion_trigger_emotions : option (list string);
  emotion_consecutive_turns : option Z;
  unresolved_max_unresolved_turns : option Z
}.
Definition empty : t := mk None None None None.
End EscalationConfig.

(** ** orchestrator/aggregator.py *)

Section Aggregator.
Context {fmt : PyFormat}.
Variable ESCALATION_CONFIG : EscalationConfig.t.

Definition sentiment_threshold : float :=
  default (-0.65)%float (EscalationConfig.sentiment_threshold ESCALATION_CONFIG).

Definition trigger_emotions : gset string :=
  list_to_set
    (default ["anger"; "distress"]
       (EscalationConfig.emotion_trigger_emotions ESCALATION_CONFIG)).

Definition consecutive_required : Z :=
  default 2 (EscalationConfig.emotion_consecutive_turns ESCALATION_CONFIG).

Definition max_unresolved : Z :=
  default 3 (EscalationConfig.unresolved_max_unresolved_turns ESCALATION_CONFIG).

(** The loop [for emotion in reversed(...): if emotion in trigger_emotions:
    count += 1 else: break], run on the already reversed list. *)
Fixpoint count_loop (triggers : gset string) (items : list string) (count : Z) : Z :=
  match items with
  | [] => count
  | emotion :: rest =>
      if str_in emotion triggers
      then count_loop triggers rest (count + 1)
      else count
  end.

(** The loop over [pir_output.proactive_alerts]: the first critical alert
    appends its reason and breaks. *)
Fixpoint alert_loop (alerts : list ProactiveAlert.t) (reasons : list string)
  : list string :=
  match alerts with
  | [] => reasons
  | alert :: rest =>
      if SeverityLevel_eqb (ProactiveAlert.severity alert) CRITICAL
      then py_append reasons
             ("Critical proactive alert: " +:+ ProactiveAlert.alert_type alert +:+ ".")
      else alert_loop rest reasons
  end.

(** The body of [_check_escalation] up to its final [if reasons:]: the
    list [reasons] after the seven blocks have run in order. *)
Definition escalation_reasons
    (ocs_output : option OCSOutput.t) (eia_output : option EIAOutput.t)
    (pir_output : option PIROutput.t) (context : Context.t) : list string :=
  let reasons : list string := [] in
  (* OCS: explicit escalation request *)
  let reasons :=
    match ocs_output with
    | Some ocs =>
        if OCSOutput.escalation_flag ocs
        then py_append reasons
             ("Customer explicitly requested human agent.")
        else reasons
    | None => reasons
    end in
  let reasons :=
    match ocs_output with
    | Some ocs =>
        if String.eqb (OCSOutput.intent ocs) "escalation_request"
        then py_append reasons
             ("Intent classified as escalation_request.")
        else reasons
    | None => reasons
    end in
  (* EIA: sentiment threshold *)
  let reasons :=
    match eia_output with
    | Some eia =>
        if PrimFloat.ltb (EIAOutput.sentiment_score eia) sentiment_threshold
        then py_append reasons
             ("Sentiment score (" +:+ format_2f (EIAOutput.sentiment_score eia)
              +:+ ") below threshold (" +:+ str_float sentiment_threshold +:+ ").")
        else reasons
    | None => reasons
    end in
  (* EIA: consecutive negative emotions *)
  let emotion_trend := Context.emotion_trend context in
  let reasons :=
    match eia_output with
    | Some eia =>
        let emotion_trend_check := (emotion_trend ++ [EIAOutput.dominant_emotion eia])%list in
        let consecutive_count := count_loop trigger_emotions (rev emotion_trend_check) 0 in
        if (consecutive_count >=? consecutive_required)%Z
        then py_append reasons
             ("Dominant emotion (" +:+ EIAOutput.dominant_emotion eia
              +:+ ") persisted for " +:+ str_int consecutive_count
              +:+ " consecutive turns.")
        else reasons
    | None => reasons
    end in
  (* EIA escalation flag *)
  let reasons :=
    match eia_output with
    | Some eia =>
        if EIAOutput.escalation_flag eia
        then py_append reasons
             ("Emotional Intelligence Agent triggered escalation.")
        else reasons
    | None => reasons
    end in
  (* PIR: critical severity *)
  let reasons :=
    match pir_output with
    | Some pir => alert_loop (PIROutput.proactive_alerts pir) reasons
    | None => reasons
    end in
  (* Unresolved turns *)
  let unresolved := Context.unresolved_turns context in
  let reasons :=
    if (unresolved >=? max_unresolved)%Z
    then py_append reasons
             ("No resolution after " +:+ str_int unresolved
          +:+ " consecutive turns (threshold: " +:+ str_int max_unresolved +:+ ").")
    else reasons in
  reasons.

Definition _check_escalation
    (ocs_output : option OCSOutput.t) (eia_output : option EIAOutput.t)
    (pir_output : option PIROutput.t) (context : Context.t)
  : bool * option string :=
  let reasons := escalation_reasons ocs_output eia_output pir_output context in
  match reasons with
  | _ :: _ => (true, Some (py_join " | " reasons))
  | [] => (false, None)
  end.

Definition skipped : json := JDict [("status", JStr "skipped")].
Definition pending_async : json := JDict [("status", JStr "pending_async")].

(** [aggregate_outputs]; [now] is the value of
    [datetime.now(timezone.utc).strftime(...)] at the call. *)
Definition aggregate_outputs
    (now : string)
    (interaction_id customer_id : string) (channel : ChannelType)
    (language : SupportedLanguage) (customer_message : string)
    (context : Context.t)
    (ocs_output : option OCSOutput.t) (kfo_output : option KFOOutput.t)
    (eia_output : option EIAOutput.t) (pir_output : option PIROutput.t)
    (fan_output : option FANOutput.t) : M OrchestratorResponse.t :=
  (* Escalation gate *)
  let '(escalation_flag, escalation_reason) :=
    _check_escalation ocs_output eia_output pir_output context in
  let response_text := "" in
  let response_text :=
    match ocs_output with
    | Some ocs => OCSOutput.response_text ocs
    | None => response_text
    end in
  let tone_rec :=
    match eia_output with
    | Some eia => EIAOutput.tone_recommendation eia
    | None => "neutral"
    end in
  let response :=
    {| OrchestratorResponse.interaction_id := interaction_id;
       OrchestratorResponse.timestamp := now;
       OrchestratorResponse.customer_id := customer_id;
       OrchestratorResponse.channel := channel;
       OrchestratorResponse.language := language;
       OrchestratorResponse.response_text := response_text;
       OrchestratorResponse.intent :=
         match ocs_output with Some ocs => OCSOutput.intent ocs | None => "unknown" end;
       OrchestratorResponse.sentiment_score :=
         match eia_output with
         | Some eia => EIAOutput.sentiment_score eia
         | None => 0.0%float
         end;
       OrchestratorResponse.dominant_emotion :=
         match eia_output with
         | Some eia => EIAOutput.dominant_emotion eia
         | None => "neutral"
         end;
       OrchestratorResponse.escalation_flag := escalation_flag;
       OrchestratorResponse.escalation_reason := escalation_reason;
       OrchestratorResponse.suggested_faq_articles :=
         match kfo_output with
         | Some kfo => KFOOutput.suggested_faq_articles kfo
         | None => []
         end;
       OrchestratorResponse.proactive_alerts :=
         match pir_output with
         | Some pir => PIROutput.proactive_alerts pir
         | None => []
         end;
       OrchestratorResponse.feedback_analysis :=
         match fan_output with
         | Some fan => FANOutput.feedback_analysis fan
         | None => FeedbackAnalysis.default
         end;
       OrchestratorResponse.agent_logs :=
         {| AgentLogs.ocs :=
              match ocs_output with Some o => OCSOutput.model_dump o | None => skipped end;
            AgentLogs.kfo :=
              match kfo_output with Some o => KFOOutput.model_dump o | None => skipped end;
            AgentLogs.eia :=
              match eia_output with Some o => EIAOutput.model_dump o | None => skipped end;
            AgentLogs.pir :=
              match pir_output with Some o => PIROutput.model_dump o | None => skipped end;
            AgentLogs.fan :=
              match fan_output with
              | Some o => FANOutput.model_dump o
              | None => pending_async
              end |} |} in
  emit "info" "response_aggregated"
    [("interaction_id", JStr interaction_id);
     ("escalation_flag", JBool escalation_flag);
     ("tone_recommendation", JStr tone_rec)];;
  mret response.

End Aggregator.

(** ** agents/emotional_intelligence/escalation_policy.py *)

Section EscalationPolicy.
Context {fmt : PyFormat}.
(** The value returned by [_load_config()]. *)
Variable config : EscalationConfig.t.

Definition check_escalation
    (sentiment_score : float) (dominant_emotion : string)
    (emotion_history : list string) : bool * option string :=
  let reasons : list string := [] in
  (* Sentiment threshold *)
  let threshold := default (-0.65)%float (EscalationConfig.sentiment_threshold config) in
  let reasons :=
    if PrimFloat.ltb sentiment_score threshold
    then py_append reasons
           ("Sentiment score (" +:+ format_2f sentiment_score
            +:+ ") below threshold (" +:+ str_float threshold +:+ ")")
    else reasons in
  (* Consecutive negative emotions *)
  let trigger_emotions : gset string :=
    list_to_set
      (default ["anger"; "distress"]
         (EscalationConfig.emotion_trigger_emotions config)) in
  let consecutive_required :=
    default 2 (EscalationConfig.emotion_consecutive_turns config) in
  let check_list := (emotion_history ++ [dominant_emotion])%list in
  let consecutive := count_loop trigger_emotions (rev check_list) 0 in
  let reasons :=
    if (consecutive >=? consecutive_required)%Z
    then py_append reasons
           ("Trigger emotion '" +:+ dominant_emotion +:+ "' detected for "
            +:+ str_int consecutive +:+ " consecutive turns")
    else reasons in
  match reasons with
  | _ :: _ => (true, Some (py_join " | " reasons))
  | [] => (false, None)
  end.

End EscalationPolicy.

(** ** orchestrator/context_manager.py *)

(** The [response_data] dict handed to [update]; every key is read with
    [.get(key, default)], so every key may be missing. *)
Module ResponseData.
Record t := mk {
  customer_message : option string;
  response_text : option string;
  intent : option string;
  dominant_emotion : option string;
  escalation_flag : option bool;
  language : option string
}.
End ResponseData.

Module ContextManager.

(** [uuid4] is the value [str(uuid.uuid4())] would give and [now] the
    clock reading used for the row's timestamps. *)
Definition get_or_create (uuid4 now : string)
    (conversation_id : option string) (customer_id channel : string)
  : M Context.t :=
  d ← get_db;
  let found :=
    match conversation_id with
    | Some cid => if truthy cid then d !! cid else None
    | None => None
    end in
  match found with
  | Some conv =>
      emit "info" "context_loaded"
        [("conversation_id", JOpt JStr conversation_id)];;
      let ctx := Conversation.context conv in
      mret
        {| Context.conversation_id := Conversation.id conv;
           Context.customer_id := Conversation.customer_id conv;
           Context.channel := Conversation.channel conv;
           Context.language := Conversation.language conv;
           Context.history :=
             match ctx with Some c => ConvContext.history c | None => [] end;
           Context.previous_intents :=
             match ctx with Some c => ConvContext.previous_intents c | None => [] end;
           Context.emotion_trend :=
             match ctx with Some c => ConvContext.emotion_trend c | None => [] end;
           Context.is_escalated := Conversation.is_escalated conv;
           Context.turn_count :=
             match ctx with Some c => ConvContext.turn_count c | None => 0 end;
           Context.unresolved_turns :=
             match ctx with Some c => ConvContext.unresolved_turns c | None => 0 end |}
  | None =>
      (* Create a new conversation *)
      let new_id :=
        match conversation_id with
        | Some cid => if truthy cid then cid else uuid4
        | None => uuid4
        end in
      let conv :=
        {| Conversation.id := new_id;
           Conversation.customer_id := customer_id;
           Conversation.channel := channel;
           Conversation.language := "en";
           Conversation.created_at := now;
           Conversation.updated_at := now;
           Conversation.context :=
             Some {| ConvContext.history := [];
                     ConvContext.previous_intents := [];
                     ConvContext.emotion_trend := [];
                     ConvContext.turn_count := 0;
                     ConvContext.unresolved_turns := 0 |};
           Conversation.is_escalated := false |} in
      (* session.add(conv); commit: the primary key must be free *)
      match d !! new_id with
      | Some _ => raise (mkExc (ExceptionSubclass "IntegrityError") new_id)
      | None =>
          put_db (<[new_id := conv]> d);;
          emit "info" "context_created" [("conversation_id", JStr new_id)];;
          mret
            {| Context.conversation_id := new_id;
               Context.customer_id := customer_id;
               Context.channel := channel;
               Context.language := "en";
               Context.history := [];
               Context.previous_intents := [];
               Context.emotion_trend := [];
               Context.is_escalated := false;
               Context.turn_count := 0;
               Context.unresolved_turns := 0 |}
      end
  end.

(** [intent in ("unknown", "unclear", "unresolved")]. *)
Definition unresolved_like (intent : string) : bool :=
  String.eqb intent "unknown" || String.eqb intent "unclear"
  || String.eqb intent "unresolved".

(** [ctx.get(key, dflt)] after [ctx = conv.context or {}]. *)
Definition ctx_get {A : Type} (ctx : option ConvContext.t)
    (key : ConvContext.t -> A) (dflt : A) : A :=
  match ctx with Some c => key c | None => dflt end.

(** The new value of [conv.context] computed by [update] from the old
    one; [t_customer] and [t_assistant] are the two clock readings. *)
Definition updated_context (t_customer t_assistant : string)
    (old : option ConvContext.t) (response_data : ResponseData.t)
  : ConvContext.t :=
  let ctx := old in
  let history := ctx_get ctx ConvContext.history [] in
  let history :=
    py_append history
      {| HistoryEntry.role := "customer";
         HistoryEntry.text := default "" (ResponseData.customer_message response_data);
         HistoryEntry.timestamp := t_customer |} in
  let history :=
    py_append history
      {| HistoryEntry.role := "assistant";
         HistoryEntry.text := default "" (ResponseData.response_text response_data);
         HistoryEntry.timestamp := t_assistant |} in
  let previous_intents := ctx_get ctx ConvContext.previous_intents [] in
  let previous_intents :=
    py_append previous_intents (default "unknown" (ResponseData.intent response_data)) in
  let emotion_trend := ctx_get ctx ConvContext.emotion_trend [] in
  let emotion_trend :=
    py_append emotion_trend
      (default "neutral" (ResponseData.dominant_emotion response_data)) in
  let turn_count := ctx_get ctx ConvContext.turn_count 0 + 1 in
  (* Track unresolved turns *)
  let unresolved_turns := ctx_get ctx ConvContext.unresolved_turns 0 in
  let intent := default "unknown" (ResponseData.intent response_data) in
  let unresolved_turns :=
    if unresolved_like intent then unresolved_turns + 1 else 0 in
  {| ConvContext.history := py_tail 20 history;
     ConvContext.previous_intents := py_tail 10 previous_intents;
     ConvContext.emotion_trend := py_tail 10 emotion_trend;
     ConvContext.turn_count := turn_count;
     ConvContext.unresolved_turns := unresolved_turns |}.

Definition update (t_customer t_assistant t_updated : string)
    (conversation_id : string) (response_data : ResponseData.t) : M unit :=
  d ← get_db;
  match d !! conversation_id with
  | None =>
      emit "warning" "context_update_miss"
        [("conversation_id", JStr conversation_id)]
  | Some conv =>
      let new_context :=
        updated_context t_customer t_assistant
          (Conversation.context conv) response_data in
      let conv' :=
        {| Conversation.id := Conversation.id conv;
           Conversation.customer_id := Conversation.customer_id conv;
           Conversation.channel := Conversation.channel conv;
           Conversation.language :=
             default (Conversation.language conv) (ResponseData.language response_data);
           Conversation.created_at := Conversation.created_at conv;
           Conversation.updated_at := t_updated;
           Conversation.context := Some new_context;
           Conversation.is_escalated :=
             default false (ResponseData.escalation_flag response_data) |} in
      put_db (<[conversation_id := conv']> d);;
      emit "info" "context_updated"
        [("conversation_id", JStr conversation_id);
         ("turn", JInt (ConvContext.turn_count new_context))]
  end.

End ContextManager.

(** ** agents/base_agent.py *)

(** [getattr(input_data, "interaction_id", "N/A")]: the attribute, when the
    input model has one. *)
Class BaseModel (A : Type) := getattr_interaction_id : A -> option string.

(** An agent: its name and its [process] method, abstract in [BaseAgent]. *)
Record BaseAgent (In Out : Type) := mkAgent {
  agent_name : string;
  process : In -> M Out
}.
Arguments mkAgent {In Out} agent_name process.
Arguments agent_name {In Out} self : rename.
Arguments process {In Out} self input_data : rename.

(** [try: body except Exception as e: handler(e)]. *)
Definition try_except_Exception {A : Type} (body : M A) (handler : PyExc -> M A) : M A :=
  fun w =>
    match body w with
    | Returned a w' => Returned a w'
    | Raised e w' =>
        if isinstance_Exception e then handler e w' else Raised e w'
    end.

(** [self.logger.<level>(...)], the logger bound to [agent=agent_name]. *)
Definition agent_emit {In Out} (self : BaseAgent In Out)
    (level event : string) (fields : list (string * json)) : M unit :=
  emit level event (("agent", JStr (agent_name self)) :: fields).

Definition safe_process {In Out} `{BaseModel In}
    (self : BaseAgent In Out) (input_data : In) : M (option Out) :=
  try_except_Exception
    (let interaction_id := default "N/A" (getattr_interaction_id input_data) in
     agent_emit self "info" "agent_started" [("interaction_id", JStr interaction_id)];;
     result ← process self input_data;
     agent_emit self "info" "agent_completed" [("interaction_id", JStr interaction_id)];;
     mret (Some result))
    (fun e =>
       agent_emit self "error" "agent_failed"
         [("error", JStr (exc_str e)); ("exc_info", JBool true)];;
       mret None).

(** ** Requests and agent inputs ([api/schemas.py]) *)

Module CustomerRequest.
Record t := mk {
  conversation_id : option string;
  customer_id : string;
  account_id : option string;
  customer_message : string;
  channel : ChannelType;
  conversation_history : list string;
  customer_feedback : option json;
  account_data : option json;
  usage_logs : option (list json)
}.
End CustomerRequest.

Module OCSInput.
Record t := mk {
  interaction_id : string;
  customer_message : string;
  conversation_context : Context.t;
  channel : ChannelType;
  language : SupportedLanguage
}.
End OCSInput.

Module KFOInput.
Record t := mk {
  interaction_id : string;
  query_text : string;
  top_k : Z;
  language : SupportedLanguage
}.
End KFOInput.

Module EIAInput.
Record t := mk {
  interaction_id : string;
  conversation_text : string;
  conversation_history : list string
}.
End EIAInput.

Module PIRInput.
Record t := mk {
  interaction_id : string;
  account_id : string;
  account_data : json;
  usage_logs : list json
}.
End PIRInput.

#[global] Instance OCSInput_model : BaseModel OCSInput.t :=
  fun i => Some (OCSInput.interaction_id i).
#[global] Instance KFOInput_model : BaseModel KFOInput.t :=
  fun i => Some (KFOInput.interaction_id i).
#[global] Instance EIAInput_model : BaseModel EIAInput.t :=
  fun i => Some (EIAInput.interaction_id i).
#[global] Instance PIRInput_model : BaseModel PIRInput.t :=
  fun i => Some (PIRInput.interaction_id i).
#[global] Instance FANInput_model : BaseModel FANInput.t :=
  fun i => Some (FANInput.interaction_id i).

(** ** orchestrator/main.py *)

(** The values drawn from [uuid.uuid4()] and the clock during one run of
    the pipeline, in the order of the calls. *)
Record Draws := mkDraws {
  uuid_interaction : string;
  now_pipeline : string;
  uuid_conversation : string;
  now_created : string;
  now_aggregate : string;
  now_customer : string;
  now_assistant : string;
  now_updated : string
}.

Definition HistoryEntry_dump (h : HistoryEntry.t) : json :=
  JDict [("role", JStr (HistoryEntry.role h));
         ("text", JStr (HistoryEntry.text h));
         ("timestamp", JStr (HistoryEntry.timestamp h))].

Section Pipeline.
Context {fmt : PyFormat}.
Variable ESCALATION_CONFIG : EscalationConfig.t.
(** The agents built by [OCSAgent()], [KFOAgent()], [EIAAgent()] and
    [PIRAgent()]; [FANAgent()] is only scheduled, never run, here. *)
Variable OCSAgent : BaseAgent OCSInput.t OCSOutput.t.
Variable KFOAgent : BaseAgent KFOInput.t KFOOutput.t.
Variable EIAAgent : BaseAgent EIAInput.t EIAOutput.t.
Variable PIRAgent : BaseAgent PIRInput.t PIROutput.t.

Definition run_pipeline (draws : Draws) (request : CustomerRequest.t)
  : M OrchestratorResponse.t :=
  let interaction_id := uuid_interaction draws in
  let timestamp := now_pipeline draws in
  emit "info" "pipeline_started"
    [("interaction_id", JStr interaction_id);
     ("customer_id", JStr (CustomerRequest.customer_id request));
     ("channel", JStr (ChannelType_value (CustomerRequest.channel request)))];;
  (* Load or create conversation context *)
  context ← ContextManager.get_or_create
               (uuid_conversation draws) (now_created draws)
               (CustomerRequest.conversation_id request)
               (CustomerRequest.customer_id request)
               (ChannelType_value (CustomerRequest.channel request));
  let conversation_id := Context.conversation_id context in
  (* Step 1: OCS *)
  let ocs_input :=
    {| OCSInput.interaction_id := interaction_id;
       OCSInput.customer_message := CustomerRequest.customer_message request;
       OCSInput.conversation_context := context;
       OCSInput.channel := CustomerRequest.channel request;
       OCSInput.language := EN |} in
  ocs_output ← safe_process OCSAgent ocs_input;
  (* Determine language from OCS output *)
  let detected_language := EN in
  let detected_language :=
    match ocs_output with
    | Some ocs => OCSOutput.language ocs
    | None => detected_language
    end in
  (* Step 2: KFO *)
  let query_text := CustomerRequest.customer_message request in
  let query_text :=
    match ocs_output with
    | Some ocs =>
        OCSOutput.intent ocs +:+ " " +:+ CustomerRequest.customer_message request
    | None => query_text
    end in
  let kfo_input :=
    {| KFOInput.interaction_id := interaction_id;
       KFOInput.query_text := query_text;
       KFOInput.top_k := 5;
       KFOInput.language := detected_language |} in
  kfo_output ← safe_process KFOAgent kfo_input;
  (* Step 3: EIA *)
  let eia_input :=
    {| EIAInput.interaction_id := interaction_id;
       EIAInput.conversation_text := CustomerRequest.customer_message request;
       EIAInput.conversation_history := CustomerRequest.conversation_history request |} in
  eia_output ← safe_process EIAAgent eia_input;
  (* Step 4: PIR *)
  pir_output ←
    match CustomerRequest.account_id request with
    | Some account_id =>
        if truthy account_id then
          let pir_input :=
            {| PIRInput.interaction_id := interaction_id;
               PIRInput.account_id := account_id;
               PIRInput.account_data :=
                 default (JDict []) (CustomerRequest.account_data request);
               PIRInput.usage_logs :=
                 default [] (CustomerRequest.usage_logs request) |} in
          safe_process PIRAgent pir_input
        else mret None
    | None => mret None
    end;
  (* Step 6: unified response assembly; the gate runs inside *)
  response ← aggregate_outputs ESCALATION_CONFIG (now_aggregate draws)
               interaction_id (CustomerRequest.customer_id request)
               (CustomerRequest.channel request) detected_language
               (CustomerRequest.customer_message request) context
               ocs_output kfo_output eia_output pir_output None;
  (* Update conversation context *)
  ContextManager.update (now_customer draws) (now_assistant draws) (now_updated draws)
    conversation_id
    {| ResponseData.customer_message := Some (CustomerRequest.customer_message request);
       ResponseData.response_text := Some (OrchestratorResponse.response_text response);
       ResponseData.intent := Some (OrchestratorResponse.intent response);
       ResponseData.dominant_emotion := Some (OrchestratorResponse.dominant_emotion response);
       ResponseData.escalation_flag := Some (OrchestratorResponse.escalation_flag response);
       ResponseData.language :=
         Some (SupportedLanguage_value (OrchestratorResponse.language response)) |};;
  (* If escalated, the payload is built and the event logged *)
  (if OrchestratorResponse.escalation_flag response
   then emit "info" "escalation_triggered"
          [("interaction_id", JStr interaction_id);
           ("reason", JOpt JStr (OrchestratorResponse.escalation_reason response))]
   else mret tt);;
  (* Step 7: FAN, scheduled and not awaited *)
  let fan_input :=
    {| FANInput.interaction_id := interaction_id;
       FANInput.customer_feedback := CustomerRequest.customer_feedback request;
       FANInput.interaction_log :=
         JDict [("customer_message", JStr (CustomerRequest.customer_message request));
                ("response_text", JStr (OrchestratorResponse.response_text response));
                ("intent", JStr (OrchestratorResponse.intent response));
                ("sentiment_score", JFloat (OrchestratorResponse.sentiment_score response));
                ("history", JList (map HistoryEntry_dump (Context.history context)));
                ("feedback_history", JList []);
                ("past_interactions", JList [])] |} in
  add_task fan_input;;
  emit "info" "pipeline_completed"
    [("interaction_id", JStr interaction_id);
     ("escalation", JBool (OrchestratorResponse.escalation_flag response))];;
  mret response.

End Pipeline.

(** ** api/middleware.py *)

Module HTTPRequest.
(** [request.client.host], when [request.client] is set. *)
Record t := mk { client_host : option string; path : string }.
End HTTPRequest.

Module HTTPResponse.
Record t := mk { content : string; status_code : Z; media_type : string }.
End HTTPResponse.

(** [x < n] for a [float] and an [int].  The interpreter compares the two
    numbers exactly, without converting the integer to a float: NaN is
    below nothing, minus infinity is below every integer, plus infinity
    below none, and the finite float of mantissa [m] and exponent [e] is
    compared as the integer [m * 2^e], or after scaling [n] by [2^-e]
    when [e] is negative. *)
Definition float_lt_int (x : float) (n : Z) : bool :=
  match Prim2SF x with
  | S754_nan => false
  | S754_infinity negative => negative
  | S754_zero _ => (0 <? n)%Z
  | S754_finite negative m e =>
      let v := if negative then Z.neg m else Z.pos m in
      if (0 <=? e)%Z then (v * 2 ^ e <? n)%Z else (v <? n * 2 ^ (- e))%Z
  end.

Definition dq : string := String (Ascii.ascii_of_nat 34) EmptyString.

Module RateLimitMiddleware.

(** The constructor's arguments; the table [_requests] lives in the
    [World]. *)
Record t := mk { max_requests : Z; window_seconds : Z }.

(** [RateLimitMiddleware(app)], with the defaults of [__init__]. *)
Definition default_limits : t := mk 60 60.
(** [app.add_middleware(RateLimitMiddleware, max_requests=100, window_seconds=60)]. *)
Definition app_limits : t := mk 100 60.

(** The test [now - ts < self.window_seconds] of the cleaning step. *)
Definition in_window (self : t) (now ts : float) : bool :=
  float_lt_int (PrimFloat.sub now ts) (window_seconds self).

Definition rate_limited : HTTPResponse.t :=
  {| HTTPResponse.content :=
       "{" +:+ dq +:+ "detail" +:+ dq +:+ ": " +:+ dq
       +:+ "Rate limit exceeded. Try again later." +:+ dq +:+ "}";
     HTTPResponse.status_code := 429;
     HTTPResponse.media_type := "application/json" |}.

(** [dispatch]; [now] is the reading of [time.time()]. *)
Definition dispatch (self : t) (now : float) (request : HTTPRequest.t)
    (call_next : HTTPRequest.t -> M HTTPResponse.t) : M HTTPResponse.t :=
  let client_ip := default "unknown" (HTTPRequest.client_host request) in
  (* Clean old entries *)
  table ← get_requests;
  let kept := List.filter (in_window self now) (default [] (table !! client_ip)) in
  put_requests (<[client_ip := kept]> table);;
  if (len kept >=? max_requests self)%Z then
    emit "warning" "rate_limit_exceeded" [("client_ip", JStr client_ip)];;
    mret rate_limited
  else
    table ← get_requests;
    put_requests
      (<[client_ip := py_append (default [] (table !! client_ip)) now]> table);;
    call_next request.

End RateLimitMiddleware.

(** * Specification-level notions *)

(** ** The escalation gate *)

(** The seven checks of the policy, in the order of the specification. *)
Inductive Check :=
| ExplicitFlag
| EscalationIntent
| SentimentThreshold
| ConsecutiveEmotions
| AgentFlag
| CriticalAlert
| UnresolvedTurns.

Definition evaluation_order : list Check :=
  [ExplicitFlag; EscalationIntent; SentimentThreshold; ConsecutiveEmotions;
   AgentFlag; CriticalAlert; UnresolvedTurns].

(** The streak of trigger labels that ends [l], read from the head: a
    trigger label extends the streak, any other label resets it. *)
Definition trailing_streak (triggers : gset string) (l : list string) : Z :=
  fold_left (fun streak e => if str_in e triggers then streak + 1 else 0) l 0.

(** [l] ends with exactly [n] trigger labels: the last [n] labels are all
    triggers and the label just before them, if any, is not. *)
Definition ends_with_run (triggers : gset string) (l : list string) (n : nat) : Prop :=
  ∃ pre run : list string,
    l = (pre ++ run)%list ∧ length run = n ∧
    Forall (fun e => e ∈ triggers) run ∧
    (∀ pre' x, pre = (pre' ++ [x])%list → x ∉ triggers).

Definition is_critical (a : ProactiveAlert.t) : bool :=
  SeverityLevel_eqb (ProactiveAlert.severity a) CRITICAL.

Section Policy.
Context {fmt : PyFormat}.
Variable cfg : EscalationConfig.t.
Variable ocs_output : option OCSOutput.t.
Variable eia_output : option EIAOutput.t.
Variable pir_output : option PIROutput.t.
Variable context : Context.t.

(** The parameters of the policy, as the specification gives them: the
    configured value where the configuration has one, and otherwise a
    sentiment threshold of -0.65, the trigger emotions anger and distress,
    a streak of 2 turns and a maximum of 3 turns without resolution. *)
Definition policy_threshold : float :=
  match EscalationConfig.sentiment_threshold cfg with
  | Some threshold => threshold
  | None => (-0.65)%float
  end.

Definition policy_triggers : gset string :=
  match EscalationConfig.emotion_trigger_emotions cfg with
  | Some emotions => list_to_set emotions
  | None => {[ "anger"; "distress" ]}
  end.

Definition policy_streak : Z :=
  match EscalationConfig.emotion_consecutive_turns cfg with
  | Some turns => turns
  | None => 2
  end.

Definition policy_maximum : Z :=
  match EscalationConfig.unresolved_max_unresolved_turns cfg with
  | Some turns => turns
  | None => 3
  end.

(** The streak seen by the gate: over [emotion_trend + [dominant]]. *)
Definition current_streak (eia : EIAOutput.t) : Z :=
  trailing_streak policy_triggers
    (Context.emotion_trend context ++ [EIAOutput.dominant_emotion eia])%list.

(** When each check fires, as the specification words it. *)
Definition fires (c : Check) : bool :=
  match c with
  | ExplicitFlag =>
      match ocs_output with Some o => OCSOutput.escalation_flag o | None => false end
  | EscalationIntent =>
      match ocs_output with
      | Some o => String.eqb (OCSOutput.intent o) "escalation_request"
      | None => false
      end
  | SentimentThreshold =>
      match eia_output with
      | Some e => PrimFloat.ltb (EIAOutput.sentiment_score e) policy_threshold
      | None => false
      end
  | ConsecutiveEmotions =>
      match eia_output with
      | Some e => (policy_streak <=? current_streak e)%Z
      | None => false
      end
  | AgentFlag =>
      match eia_output with Some e => EIAOutput.escalation_flag e | None => false end
  | CriticalAlert =>
      match pir_output with
      | Some p => existsb is_critical (PIROutput.proactive_alerts p)
      | None => false
      end
  | UnresolvedTurns => (policy_maximum <=? Context.unresolved_turns context)%Z
  end.

(** The text recorded for a check that fires. *)
Definition reason (c : Check) : string :=
  match c with
  | ExplicitFlag => "Customer explicitly requested human agent."
  | EscalationIntent => "Intent classified as escalation_request."
  | SentimentThreshold =>
      match eia_output with
      | Some e =>
          "Sentiment score (" +:+ format_2f (EIAOutput.sentiment_score e)
          +:+ ") below threshold (" +:+ str_float policy_threshold +:+ ")."
      | None => ""
      end
  | ConsecutiveEmotions =>
      match eia_output with
      | Some e =>
          "Dominant emotion (" +:+ EIAOutput.dominant_emotion e
          +:+ ") persisted for " +:+ str_int (current_streak e)
          +:+ " consecutive turns."
      | None => ""
      end
  | AgentFlag => "Emotional Intelligence Agent triggered escalation."
  | CriticalAlert =>
      match pir_output with
      | Some p =>
          match List.find is_critical (PIROutput.proactive_alerts p) with
          | Some a => "Critical proactive alert: " +:+ ProactiveAlert.alert_type a +:+ "."
          | None => ""
          end
      | None => ""
      end
  | UnresolvedTurns =>
      "No resolution after " +:+ str_int (Context.unresolved_turns context)
      +:+ " consecutive turns (threshold: " +:+ str_int policy_maximum +:+ ")."
  end.

Definition fired_reasons : list string :=
  map reason (List.filter fires evaluation_order).

End Policy.

(** [s.startswith(p)]. *)
Fixpoint starts_with (p s : string) {struct p} : bool :=
  match p with
  | EmptyString => true
  | String a p' =>
      match s with
      | EmptyString => false
      | String b s' => Ascii.eqb a b && starts_with p' s'
      end
  end.

(** Which rule a recorded reason comes from, read off its fixed opening
    words. *)
Definition is_consecutive_reason (r : string) : bool :=
  starts_with "Dominant emotion (" r.

(** A rendering of floats used to run the model on examples.
    [sample_2f] is the correctly rounded two-decimal rendering of the
    exact binary value; the second field reuses it, which agrees with
    [str] on the default threshold.  Every theorem below holds for every
    rendering. *)
Definition round_half_even (num : Z) (e : Z) : Z :=
  if (0 <=? e)%Z then num * 2 ^ e
  else
    let d := 2 ^ (- e) in
    let q := num / d in
    let r := num mod d in
    if (2 * r <? d)%Z then q
    else if (d <? 2 * r)%Z then q + 1
    else if Z.even q then q else q + 1.

Definition two_digits (n : Z) : string :=
  if (n <? 10)%Z then "0" +:+ str_int n else str_int n.

Definition sample_2f (x : float) : string :=
  match FloatOps.Prim2SF x with
  | SpecFloat.S754_nan => "nan"
  | SpecFloat.S754_infinity s => if s then "-inf" else "inf"
  | SpecFloat.S754_zero s => if s then "-0.00" else "0.00"
  | SpecFloat.S754_finite s m e =>
      let n := round_half_even (Z.pos m * 100) e in
      (if s then "-" else "") +:+ str_int (n / 100) +:+ "." +:+ two_digits (n mod 100)
  end.

Definition sample_format : PyFormat :=
  {| format_2f := sample_2f; str_float := sample_2f |}.

(** ** Running computations *)

(** The value a computation returned, if it returned. *)
Definition returned {A : Type} (r : Res A) : option A :=
  match r with Returned a _ => Some a | Raised _ _ => None end.

(** The exception a computation raised, if it raised. *)
Definition raised {A : Type} (r : Res A) : option PyExc :=
  match r with Returned _ _ => None | Raised e _ => Some e end.

(** The world a computation left behind. *)
Definition world_of {A : Type} (r : Res A) : World :=
  match r with Returned _ w => w | Raised _ w => w end.

(** The world after one more log entry. *)
Definition logged (w : World) (level event : string) (fields : list (string * json))
  : World :=
  {| db := db w;
     logs := (logs w ++ [mkLog level event fields])%list;
     background_tasks := background_tasks w;
     _requests := _requests w |}.

Definition empty_world : World :=
  {| db := ∅; logs := []; background_tasks := []; _requests := ∅ |}.

(** ** The conversation store seen from outside *)

(** One call on the context manager. *)
Inductive Call :=
| CallGetOrCreate (uuid4 now : string) (conversation_id : option string)
    (customer_id channel : string)
| CallUpdate (t_customer t_assistant t_updated : string) (conversation_id : string)
    (response_data : ResponseData.t).

Definition run_call (c : Call) : M unit :=
  match c with
  | CallGetOrCreate uuid4 now cid customer channel =>
      ContextManager.get_or_create uuid4 now cid customer channel;; mret tt
  | CallUpdate t1 t2 t3 cid rd => ContextManager.update t1 t2 t3 cid rd
  end.

Fixpoint run_calls (cs : list Call) : M unit :=
  match cs with
  | [] => mret tt
  | c :: cs' => run_call c;; run_calls cs'
  end.

(** The caps and the sign conditions on one stored context. *)
Definition within_caps (c : ConvContext.t) : Prop :=
  (length (ConvContext.history c) ≤ 20)%nat
  ∧ (length (ConvContext.previous_intents c) ≤ 10)%nat
  ∧ (length (ConvContext.emotion_trend c) ≤ 10)%nat
  ∧ (0 ≤ ConvContext.turn_count c)%Z
  ∧ (0 ≤ ConvContext.unresolved_turns c)%Z.

(** Every stored conversation carries a context within the caps. *)
Definition well_kept (d : gmap string Conversation.t) : Prop :=
  ∀ id conv, d !! id = Some conv →
    ∃ c, Conversation.context conv = Some c ∧ within_caps c.

(** The two history entries a turn appends. *)
Definition turn_entries (t_customer t_assistant : string) (rd : ResponseData.t)
  : list HistoryEntry.t :=
  [ {| HistoryEntry.role := "customer";
       HistoryEntry.text := default "" (ResponseData.customer_message rd);
       HistoryEntry.timestamp := t_customer |};
    {| HistoryEntry.role := "assistant";
       HistoryEntry.text := default "" (ResponseData.response_text rd);
       HistoryEntry.timestamp := t_assistant |} ].

(** The intent a turn resolves to, as [update] reads it. *)
Definition turn_intent (rd : ResponseData.t) : string :=
  default "unknown" (ResponseData.intent rd).

(** The unresolved-turn counter after a sequence of turns, given by their
    resolved intents, under the increment-or-reset rule. *)
Definition unresolved_after (start : Z) (intents : list string) : Z :=
  fold_left
    (fun n intent =>
       if bool_decide (intent ∈ ["unknown"; "unclear"; "unresolved"])
       then n + 1 else 0)
    intents start.

(** A turn stamped with its three clock readings. *)
Record Turn := mkTurn {
  turn_t_customer : string;
  turn_t_assistant : string;
  turn_t_updated : string;
  turn_data : ResponseData.t
}.

Fixpoint run_turns (conversation_id : string) (turns : list Turn) : M unit :=
  match turns with
  | [] => mret tt
  | t :: rest =>
      ContextManager.update (turn_t_customer t) (turn_t_assistant t) (turn_t_updated t)
        conversation_id (turn_data t);;
      run_turns conversation_id rest
  end.

(** ** Sample values *)

Definition sample_context (trend : list string) (unresolved : Z) : Context.t :=
  {| Context.conversation_id := "conv-1";
     Context.customer_id := "CUST-001";
     Context.channel := "chat";
     Context.language := "en";
     Context.history := [];
     Context.previous_intents := [];
     Context.emotion_trend := trend;
     Context.is_escalated := false;
     Context.turn_count := Z.of_nat (length trend);
     Context.unresolved_turns := unresolved |}.

Definition sample_eia (score : float) (emotion : string) : EIAOutput.t :=
  {| EIAOutput.sentiment_score := score;
     EIAOutput.dominant_emotion := emotion;
     EIAOutput.escalation_flag := false;
     EIAOutput.tone_recommendation := "empathetic and understanding" |}.

Definition sample_turn (intent : string) : ResponseData.t :=
  {| ResponseData.customer_message := Some "Where is my order?";
     ResponseData.response_text := Some "Let me check.";
     ResponseData.intent := Some intent;
     ResponseData.dominant_emotion := Some "neutral";
     ResponseData.escalation_flag := Some false;
     ResponseData.language := Some "en" |}.

(** A snapshot shows a stored row: every key of the snapshot dict is the
    row's column, or the entry of the row's context with the default for
    a missing context. *)
Definition snapshot_matches (snap : Context.t) (conv : Conversation.t) : Prop :=
  Context.conversation_id snap = Conversation.id conv
  ∧ Context.customer_id snap = Conversation.customer_id conv
  ∧ Context.channel snap = Conversation.channel conv
  ∧ Context.language snap = Conversation.language conv
  ∧ Context.is_escalated snap = Conversation.is_escalated conv
  ∧ Context.history snap
    = ContextManager.ctx_get (Conversation.context conv) ConvContext.history []
  ∧ Context.previous_intents snap
    = ContextManager.ctx_get (Conversation.context conv) ConvContext.previous_intents []
  ∧ Context.emotion_trend snap
    = ContextManager.ctx_get (Conversation.context conv) ConvContext.emotion_trend []
  ∧ Context.turn_count snap
    = ContextManager.ctx_get (Conversation.context conv) ConvContext.turn_count 0
  ∧ Context.unresolved_turns snap
    = ContextManager.ctx_get (Conversation.context conv) ConvContext.unresolved_turns 0.

(** [get_or_create], [update], [get_or_create] on one identifier; the
    result pairs the two snapshots. *)
Definition round_trip (uuid1 now1 uuid2 now2 t_customer t_assistant t_updated : string)
    (conversation_id customer_id channel : string) (rd : ResponseData.t)
  : M (Context.t * Context.t) :=
  before ← ContextManager.get_or_create uuid1 now1 (Some conversation_id)
              customer_id channel;
  ContextManager.update t_customer t_assistant t_updated conversation_id rd;;
  after ← ContextManager.get_or_create uuid2 now2 (Some conversation_id)
             customer_id channel;
  mret (before, after).

(** The world after a first [get_or_create] for ["conv-1"], and the row
    it stored. *)
Definition sample_conversation : Conversation.t :=
  {| Conversation.id := "conv-1";
     Conversation.customer_id := "CUST-001";
     Conversation.channel := "chat";
     Conversation.language := "en";
     Conversation.created_at := "2026-01-01T00:00:00+00:00";
     Conversation.updated_at := "2026-01-01T00:00:00+00:00";
     Conversation.context :=
       Some {| ConvContext.history := [];
               ConvContext.previous_intents := [];
               ConvContext.emotion_trend := [];
               ConvContext.turn_count := 0;
               ConvContext.unresolved_turns := 0 |};
     Conversation.is_escalated := false |}.

Definition sample_world : World :=
  world_of
    (ContextManager.get_or_create "uuid-1" "2026-01-01T00:00:00+00:00"
       (Some "conv-1") "CUST-001" "chat" empty_world).

Definition sample_turns : list Turn :=
  [ mkTurn "t1" "t2" "t3" (sample_turn "unknown");
    mkTurn "t4" "t5" "t6" (sample_turn "unclear");
    mkTurn "t7" "t8" "t9" (sample_turn "billing");
    mkTurn "t10" "t11" "t12" (sample_turn "unresolved") ].

Definition sample_calls : list Call :=
  [ CallGetOrCreate "uuid-1" "2026-01-01T00:00:00+00:00" (Some "conv-1") "CUST-001" "chat";
    CallUpdate "t1" "t2" "t3" "conv-1" (sample_turn "unknown");
    CallGetOrCreate "uuid-2" "2026-01-01T00:01:00+00:00" None "CUST-002" "email";
    CallUpdate "t4" "t5" "t6" "uuid-2" (sample_turn "billing");
    CallUpdate "t7" "t8" "t9" "conv-9" (sample_turn "billing") ].

(** The snapshot of a conversation just created under [id]. *)
Definition sample_zero_context (id : string) : Context.t :=
  {| Context.conversation_id := id;
     Context.customer_id := "CUST-001";
     Context.channel := "chat";
     Context.language := "en";
     Context.history := [];
     Context.previous_intents := [];
     Context.emotion_trend := [];
     Context.is_escalated := false;
     Context.turn_count := 0;
     Context.unresolved_turns := 0 |}.

(** ** Agents seen from the coordinator *)

(** An agent whose [process] raises nothing outside the [Exception]
    hierarchy. *)
Definition raises_only_Exception {In Out} (agent : BaseAgent In Out) : Prop :=
  ∀ x w e w', process agent x w = Raised e w' → isinstance_Exception e = true.

(** An agent whose provider is down: [process] raises an [Exception] on
    every input. *)
Definition always_fails {In Out} (agent : BaseAgent In Out) : Prop :=
  ∀ x w, ∃ e w', process agent x w = Raised e w' ∧ isinstance_Exception e = true.

(** An agent whose [process] raises [exc] on every input. *)
Definition failing_agent {In Out} (name : string) (exc : PyExc) : BaseAgent In Out :=
  mkAgent name (fun _ => raise exc).

Definition provider_down : PyExc :=
  mkExc (ExceptionSubclass "ConnectionError") "provider unavailable".

Definition interrupt : PyExc := mkExc KeyboardInterrupt "".

Definition sample_eia_input : EIAInput.t :=
  {| EIAInput.interaction_id := "test-eia-002";
     EIAInput.conversation_text := "";
     EIAInput.conversation_history := [] |}.

Definition sample_draws : Draws :=
  {| uuid_interaction := "interaction-1";
     now_pipeline := "2026-01-01T00:00:00Z";
     uuid_conversation := "uuid-1";
     now_created := "2026-01-01T00:00:00+00:00";
     now_aggregate := "2026-01-01T00:00:01Z";
     now_customer := "2026-01-01T00:00:01+00:00";
     now_assistant := "2026-01-01T00:00:01+00:00";
     now_updated := "2026-01-01T00:00:01+00:00" |}.

Definition sample_request : CustomerRequest.t :=
  {| CustomerRequest.conversation_id := None;
     CustomerRequest.customer_id := "CUST-001";
     CustomerRequest.account_id := Some "ACC-001";
     CustomerRequest.customer_message := "Help";
     CustomerRequest.channel := CHAT;
     CustomerRequest.conversation_history := [];
     CustomerRequest.customer_feedback := None;
     CustomerRequest.account_data := None;
     CustomerRequest.usage_logs := None |}.

(** The world in which [safe_process] calls [process]: the start of the
    agent has been logged. *)
Definition agent_started {In Out} `{BaseModel In}
    (self : BaseAgent In Out) (x : In) (w : World) : World :=
  logged w "info" "agent_started"
    [("agent", JStr (agent_name self));
     ("interaction_id", JStr (default "N/A" (getattr_interaction_id x)))].

(** The world after [safe_process] has logged the failure [e]. *)
Definition agent_failed {In Out} (self : BaseAgent In Out) (e : PyExc) (w : World) : World :=
  logged w "error" "agent_failed"
    [("agent", JStr (agent_name self));
     ("error", JStr (exc_str e)); ("exc_info", JBool true)].

(** ** The rate limiter seen from outside *)

(** The world with the limiter's table replaced. *)
Definition with_requests (w : World) (table : gmap string (list float)) : World :=
  {| db := db w; logs := logs w;
     background_tasks := background_tasks w;
     _requests := table |}.

(** The key a request is counted under. *)
Definition client_ip (request : HTTPRequest.t) : string :=
  default "unknown" (HTTPRequest.client_host request).

(** The timestamps the limiter holds for a client. *)
Definition client_log (w : World) (ip : string) : list float :=
  default [] (_requests w !! ip).

(** The number a float stands for, as a fraction: the finite float of
    mantissa [m] and exponent [e] is [m * 2^e], negated when the sign is
    set.  Infinities and NaN stand for no number. *)
Definition float_value (f : spec_float) : option QArith_base.Q :=
  match f with
  | S754_zero _ => Some (QArith_base.Qmake 0 1)
  | S754_finite negative m e =>
      let v := if negative then Z.neg m else Z.pos m in
      Some (match e with
            | Z0 => QArith_base.Qmake v 1
            | Zpos p => QArith_base.Qmake (v * Z.pos (2 ^ p)) 1
            | Zneg p => QArith_base.Qmake v (2 ^ p)
            end)
  | S754_infinity _ | S754_nan => None
  end.

(** The timestamp [ts] lies within the trailing window of [window] seconds
    at [now]: the time elapsed since [ts], which is the float [now - ts],
    is a number strictly below [window], or is minus infinity. *)
Definition elapsed_below (window : Z) (now ts : float) : bool :=
  match Prim2SF (PrimFloat.sub now ts) with
  | S754_nan => false
  | S754_infinity negative => negative
  | elapsed =>
      match float_value elapsed with
      | Some seconds =>
          if QArith_base.Qlt_le_dec seconds (QArith_base.inject_Z window)
          then true else false
      | None => false
      end
  end.

(** The timestamps of [log] that lie within the trailing window at [now]. *)
Definition in_trailing_window (self : RateLimitMiddleware.t) (now : float)
    (log : list float) : list float :=
  List.filter (elapsed_below (RateLimitMiddleware.window_seconds self) now) log.

(** Requests arriving one after the other, each with its clock reading. *)
Fixpoint serve (self : RateLimitMiddleware.t)
    (call_next : HTTPRequest.t -> M HTTPResponse.t)
    (arrivals : list (float * HTTPRequest.t)) : M (list HTTPResponse.t) :=
  match arrivals with
  | [] => mret []
  | (now, request) :: rest =>
      response ← RateLimitMiddleware.dispatch self now request call_next;
      responses ← serve self call_next rest;
      mret (response :: responses)
  end.

(** The arrival times [times] fall in one window after the timestamps
    [seen]: at each arrival every earlier timestamp is still within the
    trailing window. *)
Fixpoint same_window (self : RateLimitMiddleware.t) (seen times : list float) : bool :=
  match times with
  | [] => true
  | t :: rest =>
      forallb (elapsed_below (RateLimitMiddleware.window_seconds self) t) seen
      && same_window self (seen ++ [t])%list rest
  end.

(** A downstream application: it answers every request, never with the
    limiter's status, and leaves the limiter's table alone. *)
Definition downstream (call_next : HTTPRequest.t -> M HTTPResponse.t) : Prop :=
  ∀ request w, ∃ response w',
    call_next request w = Returned response w'
    ∧ HTTPResponse.status_code response ≠ 429
    ∧ _requests w' = _requests w.

Definition sample_app : HTTPRequest.t -> M HTTPResponse.t :=
  fun _ => mret {| HTTPResponse.content := "{}";
                   HTTPResponse.status_code := 200;
                   HTTPResponse.media_type := "application/json" |}.

Definition sample_http_request : HTTPRequest.t :=
  {| HTTPRequest.client_host := Some "10.0.0.7"; HTTPRequest.path := "/api/v1/interact" |}.

Definition sample_limits : RateLimitMiddleware.t := RateLimitMiddleware.mk 3 60.

Definition sample_burst : list float := [100%float; 110%float; 120%float].

(** A world in which the sample client has the burst on record. *)
Definition sample_busy_world : World :=
  with_requests empty_world {[ "10.0.0.7" := sample_burst ]}.

(** The outcome of [test_sentiment_escalation] in the repository's tests. *)
Definition angry_eia : EIAOutput.t :=
  {| EIAOutput.sentiment_score := (-0.8)%float;
     EIAOutput.dominant_emotion := "anger";
     EIAOutput.escalation_flag := true;
     EIAOutput.tone_recommendation := "highly empathetic" |}.

(** ** Further notions for the conversation store *)

(** Every row is stored under its own identifier, as the primary key
    [Conversation.id] makes it. *)
Definition keyed (d : gmap string Conversation.t) : Prop :=
  ∀ k conv, d !! k = Some conv → Conversation.id conv = k.

(** All the history entries of a sequence of turns, oldest first. *)
Definition transcript (turns : list Turn) : list HistoryEntry.t :=
  concat (map (fun t => turn_entries (turn_t_customer t) (turn_t_assistant t) (turn_data t))
            turns).

(** The stored context after a sequence of updates, update by update. *)
Definition context_after (old : option ConvContext.t) (turns : list Turn)
  : option ConvContext.t :=
  fold_left
    (fun c t =>
       Some (ContextManager.updated_context (turn_t_customer t) (turn_t_assistant t)
               c (turn_data t)))
    turns old.

(** ** Further notions for the rate limiter *)

(** No client's log holds more timestamps than the ceiling. *)
Definition within_ceiling (self : RateLimitMiddleware.t) (w : World) : Prop :=
  ∀ ip, (len (client_log w ip) ≤ Z.max 0 (RateLimitMiddleware.max_requests self))%Z.

Definition other_http_request : HTTPRequest.t :=
  {| HTTPRequest.client_host := Some "10.0.0.8"; HTTPRequest.path := "/api/v1/interact" |}.

Definition sample_arrivals : list (float * HTTPRequest.t) :=
  [ (100%float, sample_http_request); (101%float, other_http_request);
    (102%float, sample_http_request); (103%float, sample_http_request);
    (104%float, sample_http_request); (105%float, other_http_request);
    (170%float, sample_http_request) ].

(** ** Further notions for the pipeline *)

(** An agent whose [process] leaves the conversations table and the
    scheduled tasks as it found them, whether it returns or raises. *)
Definition leaves_store {In Out} (agent : BaseAgent In Out) : Prop :=
  ∀ x w, db (world_of (process agent x w)) = db w
         ∧ background_tasks (world_of (process agent x w)) = background_tasks w.

(** The request of [sample_request] for the conversation ["conv-1"],
    without an account. *)
Definition sample_followup : CustomerRequest.t :=
  {| CustomerRequest.conversation_id := Some "conv-1";
     CustomerRequest.customer_id := "CUST-001";
     CustomerRequest.account_id := None;
     CustomerRequest.customer_message := "Still broken";
     CustomerRequest.channel := CHAT;
     CustomerRequest.conversation_history := [];
     CustomerRequest.customer_feedback := None;
     CustomerRequest.account_data := None;
     CustomerRequest.usage_logs := None |}.

(** An anomaly scanner that would report one critical alert. *)
Definition alarming_agent : BaseAgent PIRInput.t PIROutput.t :=
  mkAgent "PIR"
    (fun _ => mret {| PIROutput.proactive_alerts :=
                        [ {| ProactiveAlert.alert_type := "high_error_rate";
                             ProactiveAlert.severity := CRITICAL;
                             ProactiveAlert.recommended_action := "Investigate";
                             ProactiveAlert.timestamp := "2026-01-01T00:00:00Z" |} ] |}).

(** ** agents/proactive_issue/alert_builder.py *)

(** One detected anomaly, a dict with the keys [index], [anomaly_score]
    and [data] (the usage log it was found in); [build_alerts] reads the
    last two with [.get(key, default)]. *)
Module Anomaly.
Record t := mk {
  index : option Z;
  anomaly_score : option float;
  data : option (gmap string json)
}.
End Anomaly.

(** The loop [for low, high, value in table: if low <= x < high: return
    value], shared in shape by [_determine_severity] and
    [_get_tone_recommendation]; [dflt] is the value returned after the
    loop. *)
Fixpoint band_loop {A : Type} (table : list (float * float * A)) (dflt : A) (x : float) : A :=
  match table with
  | [] => dflt
  | (low, high, value) :: rest =>
      if PrimFloat.leb low x && PrimFloat.ltb x high
      then value
      else band_loop rest dflt x
  end.

Definition _SEVERITY_MAP : list (float * float * SeverityLevel) :=
  [ (neg_infinity, (-2.0)%float, CRITICAL);
    ((-2.0)%float, (-1.0)%float, HIGH);
    ((-1.0)%float, (-0.5)%float, MEDIUM);
    ((-0.5)%float, infinity, LOW) ].

Definition _determine_severity (anomaly_score : float) : SeverityLevel :=
  band_loop _SEVERITY_MAP LOW anomaly_score.

Definition _ALERT_PATTERNS : list (string * (string * string)) :=
  [ ("error_count",
     ("high_error_rate",
      "Investigate recent errors in customer's account. Consider proactive outreach."));
    ("login_failures",
     ("suspicious_login_activity",
      "Review login attempts for potential unauthorized access. Consider account security measures."));
    ("latency_ms",
     ("performance_degradation",
      "Customer may be experiencing slow service. Check backend performance metrics."));
    ("api_calls",
     ("unusual_usage_pattern",
      "Usage pattern deviates from normal. Review for potential issues or plan upgrade needs.")) ].

(** [field in data] for a dict. *)
Definition key_in {V : Type} (field : string) (data : gmap string V) : bool :=
  match data !! field with Some _ => true | None => false end.

(** The inner loop of [build_alerts]: the first pattern whose field is a
    key of [data] sets the type and the action, and breaks. *)
Fixpoint pattern_loop (patterns : list (string * (string * string)))
    (data : gmap string json) (alert_type recommended_action : string)
  : string * string :=
  match patterns with
  | [] => (alert_type, recommended_action)
  | (field, (pattern_type, pattern_action)) :: rest =>
      if key_in field data
      then (pattern_type, pattern_action)
      else pattern_loop rest data alert_type recommended_action
  end.

(** The alert built for one anomaly; [now] is the clock reading. *)
Definition build_alert (now : string) (anomaly : Anomaly.t) (account_id : string)
  : ProactiveAlert.t :=
  let score := default 0.0%float (Anomaly.anomaly_score anomaly) in
  let data := default ∅ (Anomaly.data anomaly) in
  let severity := _determine_severity score in
  let alert_type := "general_anomaly" in
  let recommended_action :=
    "Anomaly detected in account " +:+ account_id +:+ ". Review usage patterns." in
  let '(alert_type, recommended_action) :=
    pattern_loop _ALERT_PATTERNS data alert_type recommended_action in
  {| ProactiveAlert.alert_type := alert_type;
     ProactiveAlert.severity := severity;
     ProactiveAlert.recommended_action := recommended_action;
     ProactiveAlert.timestamp := now |}.

(** The outer loop of [build_alerts]; [clock i] is the clock reading when
    the [i]-th anomaly is handled. *)
Fixpoint build_alerts_loop (clock : nat -> string) (i : nat)
    (anomalies : list Anomaly.t) (account_id : string)
    (alerts : list ProactiveAlert.t) : list ProactiveAlert.t :=
  match anomalies with
  | [] => alerts
  | anomaly :: rest =>
      build_alerts_loop clock (S i) rest account_id
        (py_append alerts (build_alert (clock i) anomaly account_id))
  end.

Definition build_alerts (clock : nat -> string) (anomalies : list Anomaly.t)
    (account_id : string) : list ProactiveAlert.t :=
  build_alerts_loop clock 0 anomalies account_id [].

(** ** agents/emotional_intelligence/eia_agent.py *)

Definition _TONE_MAP : list (float * float * string) :=
  [ ((-1.0)%float, (-0.65)%float, "highly empathetic and apologetic");
    ((-0.65)%float, (-0.3)%float, "empathetic and understanding");
    ((-0.3)%float, 0.0%float, "warm and supportive");
    (0.0%float, 0.3%float, "neutral and professional");
    (0.3%float, 0.65%float, "friendly and positive");
    (0.65%float, 1.0%float, "enthusiastic and celebratory") ].

Definition _get_tone_recommendation (sentiment_score : float) : string :=
  band_loop _TONE_MAP "neutral and professional" sentiment_score.

(** ** The order of floats, through their specification

    [rank] sends every float but NaN to a triple of integers whose
    lexicographic order is the order [<] and [<=] test. *)
Definition rank (f : spec_float) : option (Z * Z * Z) :=
  match f with
  | S754_nan => None
  | S754_infinity true => Some (-2, 0, 0)
  | S754_infinity false => Some (2, 0, 0)
  | S754_zero _ => Some (0, 0, 0)
  | S754_finite true m e => Some (-1, - e, - Z.pos m)
  | S754_finite false m e => Some (1, e, Z.pos m)
  end.

Definition lex_lt (a b : Z * Z * Z) : Prop :=
  let '(x1, y1, z1) := a in
  let '(x2, y2, z2) := b in
  (x1 < x2 ∨ (x1 = x2 ∧ (y1 < y2 ∨ (y1 = y2 ∧ z1 < z2))))%Z.

Definition lex_le (a b : Z * Z * Z) : Prop := lex_lt a b ∨ a = b.

(** A float that is a number. *)
Definition is_number (x : float) : Prop := ∃ r, rank (Prim2SF x) = Some r.

Definition sample_anomalies : list Anomaly.t :=
  [ {| Anomaly.index := Some 4;
       Anomaly.anomaly_score := Some (-2.5)%float;
       Anomaly.data := Some {[ "login_failures" := JInt 40; "api_calls" := JInt 3 ]} |};
    {| Anomaly.index := Some 7;
       Anomaly.anomaly_score := Some (-0.7)%float;
       Anomaly.data := Some {[ "cpu" := JInt 99 ]} |} ].

(** ** agents/omni_channel_support

    Builtins whose results depend on the interpreter's Unicode tables and
    on its decimal rounding: [s.lower()], [s.strip()], [len(s)], [s[:n]]
    (both count code points) and [round(x, n)].  They are parameters of
    the development. *)
Class PyBuiltins := {
  str_lower : string -> string;
  str_strip : string -> string;
  str_len : string -> Z;
  str_take : nat -> string -> string;
  round_n : float -> Z -> float
}.

(** [needle in text] for two [str]: [needle] starts at some position of
    [text]. *)
Fixpoint contains (needle text : string) : bool :=
  starts_with needle text
  || match text with
     | EmptyString => false
     | String _ rest => contains needle rest
     end.

(** [d.get(key)] for a dict literal written as an association list. *)
Fixpoint dict_get {V : Type} (key : string) (d : list (string * V)) : option V :=
  match d with
  | [] => None
  | (k, v) :: rest => if String.eqb key k then Some v else dict_get key rest
  end.

(** [l[0]]. *)
Definition index_0 {A : Type} (l : list A) : M A :=
  match l with
  | x :: _ => mret x
  | [] => raise (mkExc (ExceptionSubclass "IndexError") "list index out of range")
  end.

(** [SupportedLanguage(value)]. *)
Definition SupportedLanguage_of (value : string) : M SupportedLanguage :=
  if String.eqb value "en" then mret EN
  else if String.eqb value "ar" then mret AR
  else raise (mkExc (ExceptionSubclass "ValueError")
                (value +:+ " is not a valid SupportedLanguage")).

(** [try: body except LangDetectException as e: handler(e)]. *)
Definition try_except_LangDetectException {A : Type}
    (body : M A) (handler : PyExc -> M A) : M A :=
  fun w =>
    match body w with
    | Returned a w' => Returned a w'
    | Raised e w' =>
        match exc_class e with
        | ExceptionSubclass name =>
            if String.eqb name "LangDetectException" then handler e w' else Raised e w'
        | _ => Raised e w'
        end
    end.

(** What the zero-shot pipeline returns: the candidate labels and their
    scores, best first. *)
Module ZeroShot.
Record t := mk { labels : list string; scores : list float }.
End ZeroShot.

Definition INTENT_LABELS : list string :=
  [ "billing_inquiry"; "technical_support"; "account_management";
    "product_information"; "complaint"; "feedback"; "escalation_request";
    "greeting"; "farewell"; "order_status"; "cancellation"; "refund_request";
    "general_inquiry" ].

(** The dict [rules] of [_rule_based_intent], in insertion order. *)
Definition rules : list (string * list string) :=
  [ ("billing_inquiry", ["bill"; "invoice"; "charge"; "payment"; "price"]);
    ("technical_support", ["error"; "bug"; "crash"; "not working"; "broken"; "fix"]);
    ("account_management", ["account"; "password"; "login"; "profile"; "settings"]);
    ("complaint", ["complaint"; "unhappy"; "disappointed"; "terrible"; "worst"]);
    ("escalation_request", ["human"; "agent"; "manager"; "supervisor"; "speak to"]);
    ("order_status", ["order"; "shipping"; "delivery"; "track"]);
    ("cancellation", ["cancel"; "terminate"; "end subscription"]);
    ("refund_request", ["refund"; "money back"; "return"]);
    ("greeting", ["hello"; "hi"; "hey"; "good morning"; "good afternoon"]);
    ("farewell", ["bye"; "goodbye"; "thank you"; "thanks"]) ].

(** The inner loop [for kw in keywords: if kw in text_lower: return ...]:
    whether it returns. *)
Fixpoint keyword_loop (keywords : list string) (text_lower : string) : bool :=
  match keywords with
  | [] => false
  | kw :: rest => if contains kw text_lower then true else keyword_loop rest text_lower
  end.

(** The outer loop over [rules.items()] and the final [return]. *)
Fixpoint rules_loop (rules : list (string * list string)) (text_lower : string)
  : string * float :=
  match rules with
  | [] => ("general_inquiry", 0.3%float)
  | (intent, keywords) :: rest =>
      if keyword_loop keywords text_lower
      then (intent, 0.6%float)
      else rules_loop rest text_lower
  end.

Definition _RESPONSE_TEMPLATES : list (string * list (string * string)) :=
  [
    ("billing_inquiry",
     [ ("en",
         "I understand you have a billing question. Let me look into your account details and provide clarification.");
       ("ar",
         "أفهم أن لديك سؤال حول الفوترة. دعني أراجع تفاصيل حسابك وأقدم لك التوضيح.") ]);
    ("technical_support",
     [ ("en",
         "I'm sorry you're experiencing technical difficulties. Let me help you troubleshoot this issue.");
       ("ar",
         "أنا آسف لأنك تواجه صعوبات تقنية. دعني أساعدك في حل هذه المشكلة.") ]);
    ("account_management",
     [ ("en",
         "I can help you with your account settings. Let me guide you through the process.");
       ("ar",
         "يمكنني مساعدتك في إعدادات حسابك. دعني أرشدك خلال العملية.") ]);
    ("complaint",
     [ ("en",
         "I sincerely apologize for the inconvenience. Your concern is very important to us, and I'll do my best to resolve it.");
       ("ar",
         "أعتذر بشدة عن الإزعاج. قلقك مهم جداً بالنسبة لنا، وسأبذل قصارى جهدي لحله.") ]);
    ("escalation_request",
     [ ("en",
         "I understand you'd like to speak with a human agent. Let me connect you right away.");
       ("ar",
         "أفهم أنك ترغب في التحدث مع وكيل بشري. دعني أوصلك على الفور.") ]);
    ("order_status",
     [ ("en",
         "Let me check the status of your order for you right away.");
       ("ar",
         "دعني أتحقق من حالة طلبك فوراً.") ]);
    ("cancellation",
     [ ("en",
         "I understand you'd like to cancel. Before proceeding, may I ask if there's anything we can do to improve your experience?");
       ("ar",
         "أفهم أنك ترغب في الإلغاء. قبل المتابعة، هل يمكنني أن أسأل إذا كان هناك شيء يمكننا فعله لتحسين تجربتك؟") ]);
    ("refund_request",
     [ ("en",
         "I understand you'd like a refund. Let me review your order and process this for you.");
       ("ar",
         "أفهم أنك ترغب في استرداد المبلغ. دعني أراجع طلبك وأعالج هذا الأمر لك.") ]);
    ("greeting",
     [ ("en",
         "Hello! Welcome to our customer support. How can I assist you today?");
       ("ar",
         "مرحباً! أهلاً بك في خدمة العملاء. كيف يمكنني مساعدتك اليوم؟") ]);
    ("farewell",
     [ ("en",
         "Thank you for contacting us! If you need anything else, don't hesitate to reach out. Have a great day!");
       ("ar",
         "شكراً لتواصلك معنا! إذا احتجت أي شيء آخر، لا تتردد في التواصل. أتمنى لك يوماً سعيداً!") ]);
    ("general_inquiry",
     [ ("en",
         "Thank you for reaching out. I'll do my best to help answer your question.");
       ("ar",
         "شكراً لتواصلك. سأبذل قصارى جهدي للمساعدة في الإجابة على سؤالك.") ]);
    ("product_information",
     [ ("en",
         "I'd be happy to provide information about our products. Let me find the details for you.");
       ("ar",
         "يسعدني تقديم معلومات حول منتجاتنا. دعني أجد التفاصيل لك.") ]);
    ("feedback",
     [ ("en",
         "Thank you for sharing your feedback with us. We truly value your input and will use it to improve our services.");
       ("ar",
         "شكراً لمشاركتك ملاحظاتك معنا. نحن نقدر حقاً مساهمتك وسنستخدمها لتحسين خدماتنا.") ]);
    ("unknown",
     [ ("en",
         "Thank you for your message. Could you please provide more details so I can assist you better?");
       ("ar",
         "شكراً لرسالتك. هل يمكنك تقديم المزيد من التفاصيل حتى أتمكن من مساعدتك بشكل أفضل؟") ]) ].

Section OmniChannelSupport.
Context {builtins : PyBuiltins}.

(** [langdetect.detect], the detector of the library. *)
Variable detect : string -> M string.

(** [_get_classifier()]: the zero-shot pipeline, or [None] when it could
    not be loaded. *)
Variable _get_classifier : M (option (string -> list string -> M ZeroShot.t)).

(** language_detector.py *)
Definition detect_language (text : string) : M string :=
  if negb (truthy text) || negb (truthy (str_strip text))
  then mret "en"
  else
    try_except_LangDetectException
      (lang ← detect text;
       if String.eqb lang "ar" then mret "ar" else mret "en")
      (fun e =>
         emit "warning" "language_detection_failed" [("error", JStr (exc_str e))];;
         mret "en").

(** intent_classifier.py *)
Definition _rule_based_intent (text : string) : string * float :=
  let text_lower := str_lower text in
  rules_loop rules text_lower.

Definition classify_intent (text : string) (candidate_labels : option (list string))
  : M (string * float) :=
  if negb (truthy text) || negb (truthy (str_strip text))
  then mret ("unknown", 0.0%float)
  else
    let labels :=
      match candidate_labels with
      | Some (label :: more) => label :: more
      | _ => INTENT_LABELS
      end in
    classifier ← _get_classifier;
    match classifier with
    | None =>
        (* Fallback: rule-based matching *)
        mret (_rule_based_intent text)
    | Some classifier =>
        try_except_Exception
          (result ← classifier text labels;
           top_label ← index_0 (ZeroShot.labels result);
           top_score ← index_0 (ZeroShot.scores result);
           if PrimFloat.ltb top_score 0.25
           then mret ("unknown", top_score)
           else mret (top_label, top_score))
          (fun e =>
             emit "error" "intent_classification_failed" [("error", JStr (exc_str e))];;
             mret (_rule_based_intent text))
    end.

(** ocs_agent.py: [OCSAgent.process], with [self.logger] bound to
    [agent="OCS"]. *)
Definition OCSAgent_process (data : OCSInput.t) : M OCSOutput.t :=
  (* Step 1 — Language detection *)
  detected_lang ← detect_language (OCSInput.customer_message data);
  language ← SupportedLanguage_of detected_lang;
  (* Step 2 — Intent classification *)
  '(intent, confidence) ← classify_intent (OCSInput.customer_message data) None;
  (* Step 3 — Response generation *)
  let templates :=
    default (default [] (dict_get "unknown" _RESPONSE_TEMPLATES))
      (dict_get intent _RESPONSE_TEMPLATES) in
  let response_text :=
    default (default "" (dict_get "en" templates)) (dict_get detected_lang templates) in
  (* Step 4 — Check for explicit escalation *)
  let escalation_flag := String.eqb intent "escalation_request" in
  emit "info" "ocs_processed"
    [("agent", JStr "OCS");
     ("interaction_id", JStr (OCSInput.interaction_id data));
     ("intent", JStr intent);
     ("confidence", JFloat (round_n confidence 3));
     ("language", JStr detected_lang);
     ("escalation_flag", JBool escalation_flag)];;
  mret {| OCSOutput.response_text := response_text;
          OCSOutput.intent := intent;
          OCSOutput.suggested_faq_ids := [];
          OCSOutput.escalation_flag := escalation_flag;
          OCSOutput.language := language |}.

Definition OCSAgent : BaseAgent OCSInput.t OCSOutput.t :=
  mkAgent "OCS" OCSAgent_process.

End OmniChannelSupport.

(** An instance of the builtins for running examples on ASCII text, where
    a character is a byte: the letters A to Z are lowered, blanks (the
    space and the control characters 9 to 13 and 28 to 31) are stripped at
    both ends, and [round] is taken on values of at most three
    decimals, which it returns as they are. *)
Definition ascii_lower_char (c : Ascii.ascii) : Ascii.ascii :=
  let n := Ascii.nat_of_ascii c in
  if (65 <=? n)%nat && (n <=? 90)%nat then Ascii.ascii_of_nat (n + 32) else c.

Fixpoint ascii_lower (s : string) : string :=
  match s with
  | EmptyString => EmptyString
  | String c rest => String (ascii_lower_char c) (ascii_lower rest)
  end.

Definition is_blank (c : Ascii.ascii) : bool :=
  let n := Ascii.nat_of_ascii c in
  (n =? 32)%nat || ((9 <=? n)%nat && (n <=? 13)%nat)
  || ((28 <=? n)%nat && (n <=? 31)%nat).

Fixpoint lstrip (s : list Ascii.ascii) : list Ascii.ascii :=
  match s with
  | c :: rest => if is_blank c then lstrip rest else s
  | [] => []
  end.

Definition ascii_strip (s : string) : string :=
  string_of_list_ascii (rev (lstrip (rev (lstrip (list_ascii_of_string s))))).

Definition sample_builtins : PyBuiltins :=
  {| str_lower := ascii_lower;
     str_strip := ascii_strip;
     str_len := fun s => Z.of_nat (String.length s);
     str_take := fun n s => String.substring 0 n s;
     round_n := fun x _ => x |}.

(** A detector that answers Arabic, and a classifier that could not be
    loaded. *)
Definition sample_detect : string -> M string := fun _ => mret "ar".

Definition no_classifier : M (option (string -> list string -> M ZeroShot.t)) :=
  mret None.

Definition sample_ocs_input (message : string) : OCSInput.t :=
  {| OCSInput.interaction_id := "interaction-1";
     OCSInput.customer_message := message;
     OCSInput.conversation_context := sample_zero_context "conv-1";
     OCSInput.channel := CHAT;
     OCSInput.language := EN |}.

(** No keyword of the list occurs in the text. *)
Definition none_occurs (keywords : list string) (text : string) : Prop :=
  ∀ kw, In kw keywords → contains kw text = false.

(** A keyword of the list occurs in the text. *)
Definition some_occurs (keywords : list string) (text : string) : Prop :=
  ∃ kw, In kw keywords ∧ contains kw text = true.

(** ** api/endpoints.py *)

Module EscalationPayload.
Record t := mk {
  interaction_id : string;
  customer_id : string;
  channel : ChannelType;
  escalation_reason : string;
  conversation_context : json;
  summary : string;
  timestamp : string
}.
Definition model_dump (p : t) : json :=
  JDict [("interaction_id", JStr (interaction_id p));
         ("customer_id", JStr (customer_id p));
         ("channel", JStr (ChannelType_value (channel p)));
         ("escalation_reason", JStr (escalation_reason p));
         ("conversation_context", conversation_context p);
         ("summary", JStr (summary p));
         ("timestamp", JStr (timestamp p))].
End EscalationPayload.

(** The dict returned by [escalate]. *)
Module Queued.
Record t := mk {
  status : string;
  interaction_id : string;
  position_in_queue : Z;
  timestamp : string
}.
End Queued.

(** The dict returned by [get_escalation_queue]. *)
Module QueueStatus.
Record t := mk {
  queue_length : Z;
  items : list json
}.
End QueueStatus.

(** The handlers share the module-level list [_escalation_queue]; it is
    passed to them and, by [escalate], handed back as the call leaves it.
    [now] is the clock reading. *)
Definition escalate (now : string) (payload : EscalationPayload.t)
    (_escalation_queue : list EscalationPayload.t)
  : M (Queued.t * list EscalationPayload.t) :=
  let _escalation_queue := py_append _escalation_queue payload in
  emit "info" "escalation_queued"
    [("interaction_id", JStr (EscalationPayload.interaction_id payload));
     ("reason", JStr (EscalationPayload.escalation_reason payload))];;
  mret ({| Queued.status := "queued";
           Queued.interaction_id := EscalationPayload.interaction_id payload;
           Queued.position_in_queue := len _escalation_queue;
           Queued.timestamp := now |},
        _escalation_queue).

Definition get_escalation_queue (_escalation_queue : list EscalationPayload.t)
  : QueueStatus.t :=
  {| QueueStatus.queue_length := len _escalation_queue;
     QueueStatus.items :=
       map EscalationPayload.model_dump (py_tail 10 _escalation_queue) |}.

(** ** agents/knowledge_base/kfo_agent.py *)

(** An entry returned by [VectorStore.search]: the metadata dict of an
    article with its [score]; [process] reads its keys with
    [.get(key, default)]. *)
Module SearchHit.
Record t := mk {
  article_id : option string;
  title : option string;
  content : option string;
  language : option string;
  score : option float
}.
End SearchHit.

(** [l[:k]]. *)
Definition py_prefix {A : Type} (k : Z) (l : list A) : list A :=
  if (0 <=? k)%Z
  then take (Z.to_nat k) l
  else take (length l - Z.to_nat (- k))%nat l.

Section KnowledgeBase.
Context {builtins : PyBuiltins}.

(** The vectors of the embedder, [self._ensure_loaded()], [encode] and
    [self.vector_store.search]: the file and the libraries behind the
    agent. *)
Variable Embedding : Type.
Variable _ensure_loaded : M unit.
Variable encode : list string -> M (option (list Embedding)).
Variable search : Embedding -> Z -> M (list SearchHit.t).

(** The [FAQArticle] built in the loop of [process]. *)
Definition article_of (r : SearchHit.t) : FAQArticle.t :=
  {| FAQArticle.article_id := default "" (SearchHit.article_id r);
     FAQArticle.title := default "" (SearchHit.title r);
     FAQArticle.content_snippet := str_take 200 (default "" (SearchHit.content r));
     FAQArticle.confidence_score := round_n (default 0.0%float (SearchHit.score r)) 4 |}.

(** The loop [for r in ...: articles.append(FAQArticle(...))]. *)
Fixpoint articles_loop (hits : list SearchHit.t) (articles : list FAQArticle.t)
  : list FAQArticle.t :=
  match hits with
  | [] => articles
  | r :: rest => articles_loop rest (py_append articles (article_of r))
  end.

Definition KFOAgent_process (data : KFOInput.t) : M KFOOutput.t :=
  _ensure_loaded;;
  if negb (truthy (str_strip (KFOInput.query_text data)))
  then mret {| KFOOutput.suggested_faq_articles := [];
               KFOOutput.updated_knowledge := false |}
  else
    (* Encode query *)
    query_embedding ← encode [KFOInput.query_text data];
    match query_embedding with
    | None => mret {| KFOOutput.suggested_faq_articles := [];
                      KFOOutput.updated_knowledge := false |}
    | Some query_embedding =>
        (* Search *)
        query_vector ← index_0 query_embedding;
        results ← search query_vector (KFOInput.top_k data);
        (* Filter by language if specified *)
        let lang := SupportedLanguage_value (KFOInput.language data) in
        let filtered :=
          List.filter (fun r => String.eqb (default "en" (SearchHit.language r)) lang)
            results in
        (* If no results for the specific language, use all results *)
        let filtered :=
          match filtered with
          | [] => results
          | _ :: _ => filtered
          end in
        let articles := articles_loop (py_prefix (KFOInput.top_k data) filtered) [] in
        emit "info" "kfo_search_complete"
          [("agent", JStr "KFO");
           ("interaction_id", JStr (KFOInput.interaction_id data));
           ("query_length", JInt (str_len (KFOInput.query_text data)));
           ("results_count", JInt (len articles))];;
        mret {| KFOOutput.suggested_faq_articles := articles;
                KFOOutput.updated_knowledge := false |}
    end.

Definition KFOAgent : BaseAgent KFOInput.t KFOOutput.t :=
  mkAgent "KFO" KFOAgent_process.

End KnowledgeBase.

(** ** Running the escalation queue *)

(** The calls [escalate(payload)] of a list, one after the other, each
    with its clock reading: the answers, and the queue as the last call
    leaves it. *)
Fixpoint escalate_all (calls : list (string * EscalationPayload.t))
    (_escalation_queue : list EscalationPayload.t)
  : M (list Queued.t * list EscalationPayload.t) :=
  match calls with
  | [] => mret ([], _escalation_queue)
  | (now, payload) :: rest =>
      '(answer, _escalation_queue) ← escalate now payload _escalation_queue;
      '(answers, _escalation_queue) ← escalate_all rest _escalation_queue;
      mret (answer :: answers, _escalation_queue)
  end.

Definition sample_payload (id : string) : EscalationPayload.t :=
  {| EscalationPayload.interaction_id := id;
     EscalationPayload.customer_id := "CUST-001";
     EscalationPayload.channel := CHAT;
     EscalationPayload.escalation_reason := "Customer explicitly requested human agent.";
     EscalationPayload.conversation_context := JDict [];
     EscalationPayload.summary := "";
     EscalationPayload.timestamp := "2026-01-01T00:00:00Z" |}.

(** ** Running the knowledge agent *)






(** * Properties *)

(** ** The parameters the code reads are those of the policy *)

Lemma policy_threshold_code cfg : policy_threshold cfg = sentiment_threshold cfg.
Proof.
  unfold policy_threshold, sentiment_threshold.
  by destruct (EscalationConfig.sentiment_threshold cfg).
Qed.

Lemma policy_triggers_code cfg : policy_triggers cfg = trigger_emotions cfg.
Proof.
  unfold policy_triggers, trigger_emotions.
  destruct (EscalationConfig.emotion_trigger_emotions cfg); cbn [default]; [reflexivity|].
  apply leibniz_equiv. cbn [list_to_set foldr]. set_solver.
Qed.

Lemma policy_streak_code cfg : policy_streak cfg = consecutive_required cfg.
Proof.
  unfold policy_streak, consecutive_required.
  by destruct (EscalationConfig.emotion_consecutive_turns cfg).
Qed.

Lemma policy_maximum_code cfg : policy_maximum cfg = max_unresolved cfg.
Proof.
  unfold policy_maximum, max_unresolved.
  by destruct (EscalationConfig.unresolved_max_unresolved_turns cfg).
Qed.

(** Turns the policy's parameters in the goal into the code's. *)
Ltac policy_to_code :=
  repeat match goal with
    | |- context [policy_threshold ?c] =>
        change (policy_threshold c) with (sentiment_threshold c)
    | |- context [policy_streak ?c] =>
        change (policy_streak c) with (consecutive_required c)
    | |- context [policy_maximum ?c] =>
        change (policy_maximum c) with (max_unresolved c)
    end;
  rewrite ?policy_triggers_code.

(** ** The counting loop *)

Lemma count_loop_acc triggers items c :
  count_loop triggers items c = c + count_loop triggers items 0.
Proof.
  revert c. induction items as [|e rest IH]; intros c; simpl; [lia|].
  destruct (str_in e triggers); [|lia].
  rewrite (IH (c + 1)), (IH (0 + 1)). lia.
Qed.

Lemma count_loop_run triggers run rest c :
  Forall (fun e => e ∈ triggers) run →
  count_loop triggers (run ++ rest) c = count_loop triggers rest (c + len run).
Proof.
  intros Hrun. revert c. induction Hrun as [|e run He _ IH]; intros c; simpl.
  - f_equal. unfold len. simpl. lia.
  - unfold str_in. rewrite bool_decide_eq_true_2 by exact He.
    rewrite IH. f_equal. unfold len. simpl length. lia.
Qed.

Lemma count_loop_stop triggers rest c :
  (∀ x rest', rest = x :: rest' → x ∉ triggers) →
  count_loop triggers rest c = c.
Proof.
  intros Hstop. destruct rest as [|x rest']; simpl; [reflexivity|].
  unfold str_in. rewrite bool_decide_eq_false_2; [reflexivity|].
  eapply Hstop; reflexivity.
Qed.

Lemma count_loop_split triggers items :
  ∃ run rest,
    items = (run ++ rest)%list ∧ Forall (fun e => e ∈ triggers) run ∧
    (∀ x rest', rest = x :: rest' → x ∉ triggers) ∧
    count_loop triggers items 0 = len run.
Proof.
  induction items as [|e items (run & rest & -> & Hrun & Hstop & Hcount)].
  - exists [], []. repeat split; [constructor|discriminate].
  - destruct (decide (e ∈ triggers)) as [He|He].
    + exists (e :: run), rest. repeat split; [by constructor|exact Hstop|].
      simpl. unfold str_in. rewrite bool_decide_eq_true_2 by exact He.
      rewrite count_loop_acc, Hcount. unfold len. simpl length. lia.
    + exists [], (e :: run ++ rest)%list. repeat split; [constructor| |].
      * intros x rest' [= <- _]. exact He.
      * simpl. unfold str_in. by rewrite bool_decide_eq_false_2.
Qed.

(** The loop computes the streak that the forward reading defines. *)
Lemma count_loop_streak triggers l :
  count_loop triggers (rev l) 0 = trailing_streak triggers l.
Proof.
  unfold trailing_streak.
  induction l as [|x l IH] using rev_ind; [reflexivity|].
  rewrite rev_unit, fold_left_app. simpl.
  destruct (str_in x triggers); [|reflexivity].
  rewrite count_loop_acc, IH. lia.
Qed.

(** The loop's count is [n] exactly when the list ends with a run of [n]
    trigger labels. *)
Lemma count_loop_ends_with_run triggers l n :
  ends_with_run triggers l n ↔ count_loop triggers (rev l) 0 = Z.of_nat n.
Proof.
  split.
  - intros (pre & run & -> & <- & Hrun & Hpre).
    rewrite rev_app_distr, count_loop_run.
    + rewrite count_loop_stop.
      * unfold len. rewrite length_rev. lia.
      * intros x rest' Hrev. apply (Hpre (rev rest') x).
        apply (f_equal (@rev string)) in Hrev.
        rewrite rev_involutive in Hrev. exact Hrev.
    + apply Forall_forall. intros e He. rewrite Forall_forall in Hrun.
      apply Hrun. apply list_elem_of_In. apply list_elem_of_In in He.
      apply in_rev. exact He.
  - intros Hcount.
    destruct (count_loop_split triggers (rev l)) as (run & rest & Hl & Hrun & Hstop & Hc).
    exists (rev rest), (rev run). repeat split.
    + rewrite <- rev_app_distr, <- Hl, rev_involutive. reflexivity.
    + rewrite length_rev. unfold len in Hc. lia.
    + apply Forall_forall. intros e He. rewrite Forall_forall in Hrun.
      apply Hrun. apply list_elem_of_In. apply list_elem_of_In in He.
      apply in_rev. exact He.
    + intros pre' x Hrev. apply (Hstop x (rev pre')).
      apply (f_equal (@rev string)) in Hrev.
      rewrite rev_involutive, rev_unit in Hrev. exact Hrev.
Qed.

Lemma ends_with_run_streak triggers l n :
  ends_with_run triggers l n ↔ trailing_streak triggers l = Z.of_nat n.
Proof. rewrite <- count_loop_streak. apply count_loop_ends_with_run. Qed.

Lemma trailing_streak_nonneg triggers l : (0 ≤ trailing_streak triggers l)%Z.
Proof.
  rewrite <- count_loop_streak.
  destruct (count_loop_split triggers (rev l)) as (run & _ & _ & _ & _ & ->).
  unfold len. lia.
Qed.

(** *** The alert loop *)

Lemma alert_loop_find alerts reasons :
  alert_loop alerts reasons =
  (reasons ++
   match List.find is_critical alerts with
   | Some a => ["Critical proactive alert: " +:+ ProactiveAlert.alert_type a +:+ "."]
   | None => []
   end)%list.
Proof.
  induction alerts as [|a alerts IH]; simpl.
  - by rewrite app_nil_r.
  - unfold is_critical at 1. destruct (SeverityLevel_eqb _ _); [reflexivity|exact IH].
Qed.

Lemma existsb_find {A} (f : A → bool) (l : list A) :
  existsb f l = match List.find f l with Some _ => true | None => false end.
Proof.
  induction l as [|a l IH]; simpl; [reflexivity|].
  destruct (f a); [reflexivity|exact IH].
Qed.

(** *** The gate records exactly the firing checks, in order *)

Lemma escalation_reasons_fired `{PyFormat} cfg ocs eia pir ctx :
  escalation_reasons cfg ocs eia pir ctx = fired_reasons cfg ocs eia pir ctx.
Proof.
  unfold escalation_reasons, fired_reasons, evaluation_order, py_append.
  cbv zeta. cbn [List.filter]. unfold fires, current_streak.
  policy_to_code.
  destruct ocs as [o|], eia as [e|], pir as [p|];
    rewrite ?Z.geb_leb, ?count_loop_streak, ?alert_loop_find, ?existsb_find;
    repeat match goal with
      | |- context [if ?b then _ else _] => destruct b eqn:?
      | |- context [match List.find ?f ?l with _ => _ end] =>
          destruct (List.find f l) eqn:?
      end;
    try discriminate; cbn [map app reason]; rewrite ?count_loop_streak;
    unfold current_streak;
    policy_to_code;
    repeat match goal with
      | Hf : List.find _ _ = _ |- _ => rewrite Hf
      end; reflexivity.
Qed.

Lemma existsb_filter_nil {A} (f : A → bool) (l : list A) :
  existsb f l = match List.filter f l with [] => false | _ :: _ => true end.
Proof.
  induction l as [|a l IH]; simpl; [reflexivity|].
  destruct (f a); [reflexivity|exact IH].
Qed.

Lemma check_escalation_gate `{PyFormat} cfg ocs eia pir ctx :
  _check_escalation cfg ocs eia pir ctx
  = (existsb (fires cfg ocs eia pir ctx) evaluation_order,
     if existsb (fires cfg ocs eia pir ctx) evaluation_order
     then Some (py_join " | " (fired_reasons cfg ocs eia pir ctx))
     else None).
Proof.
  unfold _check_escalation. rewrite escalation_reasons_fired.
  unfold fired_reasons. rewrite existsb_filter_nil.
  destruct (List.filter _ evaluation_order); reflexivity.
Qed.

Lemma fires_in_order `{PyFormat} cfg ocs eia pir ctx (c : Check) :
  fires cfg ocs eia pir ctx c = true →
  existsb (fires cfg ocs eia pir ctx) evaluation_order = true.
Proof.
  intros Hc. apply existsb_exists. exists c. split; [|exact Hc].
  unfold evaluation_order. destruct c; simpl; tauto.
Qed.

(** C1. For every combination of the three agent outcomes and the
    context, the gate's list of reasons is the list of the texts of the
    checks that fire, every firing check once, in the fixed evaluation
    order; its flag is true exactly when some check fires; and the
    returned reason is those texts joined by [" | "], absent when no
    check fires.  The checks are those of the policy ([fires]): the
    sentiment strictly below the configured threshold or, by default,
    -0.65; the unresolved turns at or above the configured maximum or, by
    default, 3; a streak of trigger emotions (by default anger and
    distress) of the configured length or, by default, 2. *)
Theorem check_escalation_records_all_firing_checks `{PyFormat}
    (cfg : EscalationConfig.t) (ocs : option OCSOutput.t)
    (eia : option EIAOutput.t) (pir : option PIROutput.t) (ctx : Context.t) :
  escalation_reasons cfg ocs eia pir ctx
    = map (reason cfg eia pir ctx)
          (List.filter (fires cfg ocs eia pir ctx) evaluation_order)
  ∧ _check_escalation cfg ocs eia pir ctx
    = (existsb (fires cfg ocs eia pir ctx) evaluation_order,
       if existsb (fires cfg ocs eia pir ctx) evaluation_order
       then Some (py_join " | "
                    (map (reason cfg eia pir ctx)
                       (List.filter (fires cfg ocs eia pir ctx) evaluation_order)))
       else None)
  ∧ (fst (_check_escalation cfg ocs eia pir ctx) = true
     ↔ ∃ c : Check, fires cfg ocs eia pir ctx c = true)
  ∧ length (escalation_reasons cfg ocs eia pir ctx)
    = length (List.filter (fires cfg ocs eia pir ctx) evaluation_order).
Proof.
  pose proof (escalation_reasons_fired cfg ocs eia pir ctx) as Hr.
  pose proof (check_escalation_gate cfg ocs eia pir ctx) as Hgate.
  unfold fired_reasons in Hr, Hgate.
  split; [exact Hr|]. split; [exact Hgate|]. split.
  - rewrite Hgate. cbn [fst]. split.
    + rewrite existsb_exists. intros (c & _ & Hc). by exists c.
    + intros (c & Hc). by eapply fires_in_order.
  - rewrite Hr. apply length_map.
Qed.

(** ** The consecutive-emotion rule *)

(** Among the recorded reasons, one comes from the consecutive-emotion
    rule exactly when that check fires. *)
Lemma consecutive_reason_recorded `{PyFormat} cfg ocs eia pir ctx :
  existsb is_consecutive_reason (escalation_reasons cfg ocs eia pir ctx)
  = fires cfg ocs eia pir ctx ConsecutiveEmotions.
Proof.
  rewrite escalation_reasons_fired.
  unfold fired_reasons, evaluation_order. cbn [List.filter].
  repeat match goal with
    | |- context [if fires ?a ?b ?c ?d ?e ?k then _ else _] =>
        destruct (fires a b c d e k) eqn:?
    end;
  cbn [map existsb];
  repeat match goal with
    | |- context [is_consecutive_reason (reason ?a ?b ?c ?d ?k)] =>
        let E := fresh in
        assert (E : is_consecutive_reason (reason a b c d k)
                    = match k with ConsecutiveEmotions => true | _ => false end);
        [ unfold fires in *; cbn [reason];
          destruct eia; destruct pir;
          repeat match goal with
            | |- context [List.find ?f ?l] => destruct (List.find f l)
            end;
          try discriminate; reflexivity
        | rewrite E; clear E ]
    end;
  reflexivity.
Qed.

Lemma trailing_streak_snoc triggers l x :
  trailing_streak triggers (l ++ [x])
  = if str_in x triggers then trailing_streak triggers l + 1 else 0.
Proof. unfold trailing_streak. rewrite fold_left_app. reflexivity. Qed.

(** C3. With the sentiment agent's outcome present, the gate records a
    consecutive-emotion reason exactly when [emotion_trend + [dominant]]
    ends with a run of [n] trigger labels, the label before the run (if
    any) not being a trigger, with [n] at least the configured number of
    turns; the gate then escalates.  The agent-local policy counts the
    same way.  With the default configuration, two trigger turns in a row
    escalate with such a reason, and a trigger turn that does not follow
    a trigger turn records none. *)
Theorem consecutive_emotion_rule `{PyFormat}
    (cfg : EscalationConfig.t) (ocs : option OCSOutput.t) (eia : EIAOutput.t)
    (pir : option PIROutput.t) (ctx : Context.t)
    (score : float) (dominant : string) (emotion_history : list string) :
  let trend := (Context.emotion_trend ctx ++ [EIAOutput.dominant_emotion eia])%list in
  let fired cfg :=
    existsb is_consecutive_reason (escalation_reasons cfg ocs (Some eia) pir ctx) in
  (fired cfg = true
   ↔ ∃ n : nat, ends_with_run (trigger_emotions cfg) trend n
                ∧ (consecutive_required cfg ≤ Z.of_nat n)%Z)
  ∧ (fired cfg = true → fst (_check_escalation cfg ocs (Some eia) pir ctx) = true)
  ∧ (∃ n : nat,
       ends_with_run (trigger_emotions cfg) (emotion_history ++ [dominant])%list n
       ∧ fst (check_escalation cfg score dominant emotion_history)
         = (PrimFloat.ltb score (sentiment_threshold cfg)
            || (consecutive_required cfg <=? Z.of_nat n)%Z)
       ∧ (PrimFloat.ltb score (sentiment_threshold cfg) = false →
          snd (check_escalation cfg score dominant emotion_history)
          = if (consecutive_required cfg <=? Z.of_nat n)%Z
            then Some ("Trigger emotion '" +:+ dominant +:+ "' detected for "
                       +:+ str_int (Z.of_nat n) +:+ " consecutive turns")
            else None))
  ∧ (∀ earlier previous,
       Context.emotion_trend ctx = (earlier ++ [previous])%list →
       str_in previous (trigger_emotions EscalationConfig.empty) = true →
       str_in (EIAOutput.dominant_emotion eia) (trigger_emotions EscalationConfig.empty) = true →
       fired EscalationConfig.empty = true
       ∧ fst (_check_escalation EscalationConfig.empty ocs (Some eia) pir ctx) = true)
  ∧ ((∀ earlier previous,
        Context.emotion_trend ctx = (earlier ++ [previous])%list →
        str_in previous (trigger_emotions EscalationConfig.empty) = false) →
     fired EscalationConfig.empty = false).
Proof.
  intros trend fired.
  assert (Hgate : ∀ cfg, fired cfg = true →
            fst (_check_escalation cfg ocs (Some eia) pir ctx) = true).
  { intros cfg'. unfold fired. rewrite consecutive_reason_recorded.
    intros Hf. rewrite check_escalation_gate. cbn [fst].
    by eapply fires_in_order. }
  split; [|split; [apply Hgate|split; [|split]]].
  - unfold fired. rewrite consecutive_reason_recorded.
    unfold fires, current_streak. policy_to_code. fold trend. rewrite Z.leb_le.
    pose proof (trailing_streak_nonneg (trigger_emotions cfg) trend) as Hnn.
    split.
    + intros Hle. exists (Z.to_nat (trailing_streak (trigger_emotions cfg) trend)).
      split; [apply ends_with_run_streak|]; lia.
    + intros (n & Hrun & Hle). apply ends_with_run_streak in Hrun. lia.
  - set (l := (emotion_history ++ [dominant])%list).
    pose proof (trailing_streak_nonneg (trigger_emotions cfg) l) as Hnn.
    exists (Z.to_nat (trailing_streak (trigger_emotions cfg) l)).
    split; [apply ends_with_run_streak; lia|].
    rewrite Z2Nat.id by exact Hnn.
    unfold check_escalation, py_append. cbv zeta. fold l.
    rewrite count_loop_streak, Z.geb_leb.
    fold (trigger_emotions cfg) (consecutive_required cfg) (sentiment_threshold cfg).
    destruct (PrimFloat.ltb score (sentiment_threshold cfg)),
      (consecutive_required cfg <=? trailing_streak (trigger_emotions cfg) l)%Z;
      cbn; split; try reflexivity; try discriminate; intros _; reflexivity.
  - intros earlier previous Htrend Hprev Hdom.
    assert (Hf : fired EscalationConfig.empty = true).
    { unfold fired. rewrite consecutive_reason_recorded.
      unfold fires, current_streak. policy_to_code. rewrite Htrend, !trailing_streak_snoc, Hprev, Hdom.
      pose proof (trailing_streak_nonneg (trigger_emotions EscalationConfig.empty) earlier).
      apply Z.leb_le. change (consecutive_required EscalationConfig.empty) with 2%Z. lia. }
    split; [exact Hf|by apply Hgate].
  - intros Halone. unfold fired. rewrite consecutive_reason_recorded.
    unfold fires, current_streak. policy_to_code. rewrite trailing_streak_snoc.
    change (consecutive_required EscalationConfig.empty) with 2%Z.
    apply Z.leb_gt.
    destruct (str_in (EIAOutput.dominant_emotion eia) _); [|lia].
    destruct (Context.emotion_trend ctx) as [|x l] eqn:Htrend using rev_ind.
    + cbn. lia.
    + rewrite trailing_streak_snoc, (Halone l x eq_refl). lia.
Qed.

Lemma consecutive_emotion_rule_witness :
  existsb is_consecutive_reason
    (escalation_reasons (fmt := sample_format) EscalationConfig.empty None
       (Some (sample_eia (-0.3)%float "distress")) None
       (sample_context ["neutral"; "anger"] 0)) = true
  ∧ fst (_check_escalation (fmt := sample_format) EscalationConfig.empty None
           (Some (sample_eia (-0.3)%float "distress")) None
           (sample_context ["neutral"; "anger"] 0)) = true.
Proof.
  apply (proj1 (proj2 (proj2 (proj2
           (@consecutive_emotion_rule sample_format EscalationConfig.empty None
              (sample_eia (-0.3)%float "distress") None
              (sample_context ["neutral"; "anger"] 0)
              (-0.3)%float "distress" ["neutral"; "anger"]))))
         ["neutral"] "anger");
    reflexivity.
Defined.

(** ** Aggregation *)

(** C6. With the five outcomes absent the aggregation returns a response
    with the default text, intent, score and emotion and empty article
    and alert lists; its escalation decision is the unresolved-turns
    check on the context alone; with the default configuration a context
    at three unresolved turns escalates. *)
Theorem aggregate_all_absent `{PyFormat}
    (cfg : EscalationConfig.t) (now interaction_id customer_id : string)
    (channel : ChannelType) (language : SupportedLanguage)
    (customer_message : string) (context : Context.t) (w : World) :
  ∃ response : OrchestratorResponse.t,
    aggregate_outputs cfg now interaction_id customer_id channel language
      customer_message context None None None None None w
    = Returned response
        (logged w "info" "response_aggregated"
           [("interaction_id", JStr interaction_id);
            ("escalation_flag", JBool (OrchestratorResponse.escalation_flag response));
            ("tone_recommendation", JStr "neutral")])
    ∧ OrchestratorResponse.response_text response = ""
    ∧ OrchestratorResponse.intent response = "unknown"
    ∧ OrchestratorResponse.sentiment_score response = 0.0%float
    ∧ OrchestratorResponse.dominant_emotion response = "neutral"
    ∧ OrchestratorResponse.suggested_faq_articles response = []
    ∧ OrchestratorResponse.proactive_alerts response = []
    ∧ OrchestratorResponse.escalation_flag response
      = (max_unresolved cfg <=? Context.unresolved_turns context)%Z
    ∧ OrchestratorResponse.escalation_reason response
      = (if (max_unresolved cfg <=? Context.unresolved_turns context)%Z
         then Some ("No resolution after " +:+ str_int (Context.unresolved_turns context)
                    +:+ " consecutive turns (threshold: "
                    +:+ str_int (max_unresolved cfg) +:+ ").")
         else None)
    ∧ (∀ a b c d e f g h i,
         fst (_check_escalation EscalationConfig.empty None None None
                (Context.mk a b c d e f g h i 3)) = true).
Proof.
  unfold aggregate_outputs.
  rewrite (check_escalation_gate cfg None None None context).
  unfold fired_reasons, evaluation_order. cbn [List.filter existsb fires orb].
  policy_to_code.
  destruct (max_unresolved cfg <=? Context.unresolved_turns context)%Z eqn:Hmax;
    cbv [mbind M_bind emit mret M_ret]; cbn;
    match goal with
    | |- ∃ r, Returned ?response _ = _ ∧ _ => exists response
    end;
    repeat split.
Qed.

(** C10 (as the code has it). The outcome log of every aggregated
    response holds, for the generator, knowledge-search, sentiment and
    anomaly-scan roles, the serialized output when the outcome is
    present and the marker [{"status": "skipped"}] when it is absent;
    for the feedback-analyze role it holds the serialized output when
    present and the marker [{"status": "pending_async"}] when absent. *)
Theorem agent_logs_record_every_role `{PyFormat}
    (cfg : EscalationConfig.t) (now interaction_id customer_id : string)
    (channel : ChannelType) (language : SupportedLanguage)
    (customer_message : string) (context : Context.t)
    (ocs : option OCSOutput.t) (kfo : option KFOOutput.t)
    (eia : option EIAOutput.t) (pir : option PIROutput.t)
    (fan : option FANOutput.t) (w : World) :
  ∃ (response : OrchestratorResponse.t) (w' : World),
    aggregate_outputs cfg now interaction_id customer_id channel language
      customer_message context ocs kfo eia pir fan w
    = Returned response w'
    ∧ AgentLogs.ocs (OrchestratorResponse.agent_logs response)
      = match ocs with
        | Some o => OCSOutput.model_dump o
        | None => JDict [("status", JStr "skipped")]
        end
    ∧ AgentLogs.kfo (OrchestratorResponse.agent_logs response)
      = match kfo with
        | Some o => KFOOutput.model_dump o
        | None => JDict [("status", JStr "skipped")]
        end
    ∧ AgentLogs.eia (OrchestratorResponse.agent_logs response)
      = match eia with
        | Some o => EIAOutput.model_dump o
        | None => JDict [("status", JStr "skipped")]
        end
    ∧ AgentLogs.pir (OrchestratorResponse.agent_logs response)
      = match pir with
        | Some o => PIROutput.model_dump o
        | None => JDict [("status", JStr "skipped")]
        end
    ∧ AgentLogs.fan (OrchestratorResponse.agent_logs response)
      = match fan with
        | Some o => FANOutput.model_dump o
        | None => JDict [("status", JStr "pending_async")]
        end.
Proof.
  unfold aggregate_outputs.
  destruct (_check_escalation cfg ocs eia pir context) as [flag why].
  cbv [mbind M_bind emit mret M_ret].
  eexists; eexists; split; [reflexivity|].
  cbn. repeat split.
Qed.

(** C10 as stated fails: with the feedback outcome absent, the log entry
    of the feedback-analyze role is not the "skipped" marker. *)
Lemma feedback_log_is_not_skipped :
  (fun r => AgentLogs.fan (OrchestratorResponse.agent_logs r))
    <$> returned
          (aggregate_outputs (fmt := sample_format) EscalationConfig.empty
             "2026-01-01T00:00:00Z" "test-agg-002" "CUST-002" EMAIL EN "Help"
             (sample_context [] 0) None None None None None empty_world)
  = Some (JDict [("status", JStr "pending_async")])
  ∧ JDict [("status", JStr "pending_async")] ≠ JDict [("status", JStr "skipped")].
Proof. split; [reflexivity|discriminate]. Qed.

(** ** The conversation store *)

Lemma py_tail_length {A} (n : nat) (l : list A) :
  length (py_tail n l) = Nat.min n (length l).
Proof. unfold py_tail. rewrite length_drop. lia. Qed.

Lemma py_tail_suffix {A} (n : nat) (l : list A) : py_tail n l `suffix_of` l.
Proof. unfold py_tail. apply suffix_drop. Qed.

(** A slice that keeps at least as many items as were appended ends with
    the appended items. *)
Lemma py_tail_keeps_new {A} (n : nat) (old new : list A) :
  (length new ≤ n)%nat → new `suffix_of` py_tail n (old ++ new).
Proof.
  intros Hn. unfold py_tail. rewrite length_app.
  destruct (decide (length old + length new ≤ n)%nat) as [Hle|Hgt].
  - replace (length old + length new - n)%nat with 0%nat by lia.
    rewrite drop_0. by apply suffix_app_r.
  - rewrite drop_app_le by lia. by apply suffix_app_r.
Qed.

Lemma unresolved_like_spec (intent : string) :
  ContextManager.unresolved_like intent
  = bool_decide (intent ∈ ["unknown"; "unclear"; "unresolved"]).
Proof.
  unfold ContextManager.unresolved_like.
  destruct (String.eqb_spec intent "unknown") as [->|H1]; [reflexivity|].
  destruct (String.eqb_spec intent "unclear") as [->|H2]; [reflexivity|].
  destruct (String.eqb_spec intent "unresolved") as [->|H3]; [reflexivity|].
  symmetry. apply bool_decide_eq_false_2.
  rewrite !elem_of_cons, elem_of_nil. tauto.
Qed.

Lemma update_miss t1 t2 t3 cid rd w :
  db w !! cid = None →
  ContextManager.update t1 t2 t3 cid rd w
  = Returned tt (logged w "warning" "context_update_miss" [("conversation_id", JStr cid)]).
Proof.
  intros Hmiss. unfold ContextManager.update.
  cbv [mbind M_bind get_db]. rewrite Hmiss. reflexivity.
Qed.

Lemma update_hit t1 t2 t3 cid rd w conv :
  db w !! cid = Some conv →
  ∃ conv' w',
    ContextManager.update t1 t2 t3 cid rd w = Returned tt w'
    ∧ db w' = <[cid := conv']> (db w)
    ∧ Conversation.context conv'
      = Some (ContextManager.updated_context t1 t2 (Conversation.context conv) rd)
    ∧ Conversation.id conv' = Conversation.id conv
    ∧ Conversation.customer_id conv' = Conversation.customer_id conv
    ∧ Conversation.channel conv' = Conversation.channel conv
    ∧ Conversation.language conv'
      = default (Conversation.language conv) (ResponseData.language rd)
    ∧ Conversation.is_escalated conv'
      = default false (ResponseData.escalation_flag rd)
    ∧ background_tasks w' = background_tasks w
    ∧ _requests w' = _requests w.
Proof.
  intros Hhit. unfold ContextManager.update.
  cbv [mbind M_bind get_db put_db emit]. rewrite Hhit.
  eexists; eexists; split; [reflexivity|]. cbn. repeat split.
Qed.

Lemma updated_context_lengths t1 t2 old rd :
  let c := ContextManager.updated_context t1 t2 old rd in
  (length (ConvContext.history c) ≤ 20)%nat
  ∧ (length (ConvContext.previous_intents c) ≤ 10)%nat
  ∧ (length (ConvContext.emotion_trend c) ≤ 10)%nat.
Proof.
  unfold ContextManager.updated_context. cbn.
  rewrite !py_tail_length. lia.
Qed.

Lemma updated_context_counters t1 t2 old rd :
  let c := ContextManager.updated_context t1 t2 old rd in
  ConvContext.turn_count c = ContextManager.ctx_get old ConvContext.turn_count 0 + 1
  ∧ ConvContext.unresolved_turns c
    = if bool_decide (turn_intent rd ∈ ["unknown"; "unclear"; "unresolved"])
      then ContextManager.ctx_get old ConvContext.unresolved_turns 0 + 1
      else 0.
Proof.
  unfold ContextManager.updated_context. cbn.
  rewrite unresolved_like_spec. split; reflexivity.
Qed.

Lemma updated_context_within_caps t1 t2 old rd :
  (∀ c, old = Some c → within_caps c) →
  within_caps (ContextManager.updated_context t1 t2 old rd).
Proof.
  intros Hold.
  destruct (updated_context_lengths t1 t2 old rd) as (Hh & Hi & He).
  destruct (updated_context_counters t1 t2 old rd) as (Ht & Hu).
  unfold within_caps. rewrite Ht, Hu. repeat split; try assumption.
  - destruct old as [c|]; cbn; [|lia].
    destruct (Hold c eq_refl) as (_ & _ & _ & ? & _). lia.
  - case_bool_decide; [|lia].
    destruct old as [c|]; cbn; [|lia].
    destruct (Hold c eq_refl) as (_ & _ & _ & _ & ?). lia.
Qed.

(** C9. An [update] for an identifier with no record returns normally,
    emits the warning [context_update_miss], and changes nothing else:
    the table of conversations, every record in it, the scheduled tasks
    and the limiter's table are as before. *)
Theorem update_of_unknown_conversation_is_noop
    (t_customer t_assistant t_updated conversation_id : string)
    (response_data : ResponseData.t) (w : World) :
  db w !! conversation_id = None →
  ∃ w' : World,
    ContextManager.update t_customer t_assistant t_updated
      conversation_id response_data w = Returned tt w'
    ∧ db w' = db w
    ∧ (∀ id, db w' !! id = db w !! id)
    ∧ logs w' = (logs w ++ [mkLog "warning" "context_update_miss"
                              [("conversation_id", JStr conversation_id)]])%list
    ∧ background_tasks w' = background_tasks w
    ∧ _requests w' = _requests w.
Proof.
  intros Hmiss. eexists. split; [by apply update_miss|].
  cbn. repeat split.
Qed.

Lemma update_of_unknown_conversation_is_noop_witness :
  ∃ w' : World,
    ContextManager.update "t1" "t2" "t3" "no-such-conversation"
      (sample_turn "billing") empty_world = Returned tt w'
    ∧ db w' = db empty_world
    ∧ (∀ id, db w' !! id = db empty_world !! id)
    ∧ logs w' = (logs empty_world ++ [mkLog "warning" "context_update_miss"
                              [("conversation_id", JStr "no-such-conversation")]])%list
    ∧ background_tasks w' = background_tasks empty_world
    ∧ _requests w' = _requests empty_world.
Proof.
  apply (update_of_unknown_conversation_is_noop "t1" "t2" "t3"
           "no-such-conversation" (sample_turn "billing") empty_world).
  reflexivity.
Defined.

Lemma unresolved_after_snoc start intents intent :
  unresolved_after start (intents ++ [intent])
  = if bool_decide (intent ∈ ["unknown"; "unclear"; "unresolved"])
    then unresolved_after start intents + 1 else 0.
Proof. unfold unresolved_after. rewrite fold_left_app. reflexivity. Qed.

Lemma unresolved_after_cons start intents intent :
  unresolved_after start (intent :: intents)
  = unresolved_after
      (if bool_decide (intent ∈ ["unknown"; "unclear"; "unresolved"])
       then start + 1 else 0) intents.
Proof. reflexivity. Qed.

(** Running a sequence of turns on a stored conversation never misses and
    leaves the counter given by the increment-or-reset rule. *)
Lemma run_turns_unresolved cid turns :
  ∀ w conv,
    db w !! cid = Some conv →
    ∃ w' conv',
      run_turns cid turns w = Returned tt w'
      ∧ db w' !! cid = Some conv'
      ∧ ContextManager.ctx_get (Conversation.context conv') ConvContext.unresolved_turns 0
        = unresolved_after
            (ContextManager.ctx_get (Conversation.context conv) ConvContext.unresolved_turns 0)
            (map (fun t => turn_intent (turn_data t)) turns).
Proof.
  induction turns as [|t turns IH]; intros w conv Hhit.
  - exists w, conv. repeat split. exact Hhit.
  - destruct (update_hit (turn_t_customer t) (turn_t_assistant t) (turn_t_updated t)
                cid (turn_data t) w conv Hhit)
      as (conv1 & w1 & Hrun & Hdb & Hctx & _).
    assert (Hhit1 : db w1 !! cid = Some conv1) by (rewrite Hdb; apply lookup_insert_eq).
    destruct (IH w1 conv1 Hhit1) as (w' & conv' & Hrun' & Hdb' & Hcount).
    exists w', conv'. split; [|split; [exact Hdb'|]].
    + cbn [run_turns]. cbv [mbind M_bind]. rewrite Hrun. exact Hrun'.
    + rewrite Hcount, Hctx. cbn [map ContextManager.ctx_get].
      rewrite unresolved_after_cons.
      destruct (updated_context_counters (turn_t_customer t) (turn_t_assistant t)
                  (Conversation.context conv) (turn_data t)) as (_ & ->).
      reflexivity.
Qed.

(** C5. An [update] on a stored conversation leaves [unresolved_turns] at
    the previous value plus one when the turn's intent is unknown,
    unclear or unresolved, and at zero for any other intent; over a
    sequence of turns the counter is the one this rule gives turn by
    turn. *)
Theorem unresolved_turns_increment_or_reset
    (t_customer t_assistant t_updated conversation_id : string)
    (response_data : ResponseData.t) (turns : list Turn)
    (w : World) (conv : Conversation.t) :
  db w !! conversation_id = Some conv →
  let previous :=
    ContextManager.ctx_get (Conversation.context conv) ConvContext.unresolved_turns 0 in
  (∃ w' conv' c',
     ContextManager.update t_customer t_assistant t_updated
       conversation_id response_data w = Returned tt w'
     ∧ db w' !! conversation_id = Some conv'
     ∧ Conversation.context conv' = Some c'
     ∧ (turn_intent response_data ∈ ["unknown"; "unclear"; "unresolved"] →
        ConvContext.unresolved_turns c' = previous + 1)
     ∧ (turn_intent response_data ∉ ["unknown"; "unclear"; "unresolved"] →
        ConvContext.unresolved_turns c' = 0))
  ∧ (∃ w' conv',
       run_turns conversation_id turns w = Returned tt w'
       ∧ db w' !! conversation_id = Some conv'
       ∧ ContextManager.ctx_get (Conversation.context conv') ConvContext.unresolved_turns 0
         = unresolved_after previous (map (fun t => turn_intent (turn_data t)) turns)).
Proof.
  intros Hhit previous. split; [|by apply run_turns_unresolved].
  destruct (update_hit t_customer t_assistant t_updated conversation_id
              response_data w conv Hhit) as (conv' & w' & Hrun & Hdb & Hctx & _).
  exists w', conv', (ContextManager.updated_context t_customer t_assistant
                       (Conversation.context conv) response_data).
  split; [exact Hrun|]. split; [rewrite Hdb; apply lookup_insert_eq|].
  split; [exact Hctx|].
  destruct (updated_context_counters t_customer t_assistant
              (Conversation.context conv) response_data) as (_ & ->).
  split; intros Hin; [by rewrite bool_decide_eq_true_2|by rewrite bool_decide_eq_false_2].
Qed.

Lemma unresolved_turns_increment_or_reset_witness :
  ∃ w' conv',
    run_turns "conv-1" sample_turns sample_world = Returned tt w'
    ∧ db w' !! "conv-1" = Some conv'
    ∧ ContextManager.ctx_get (Conversation.context conv') ConvContext.unresolved_turns 0
      = unresolved_after 0 ["unknown"; "unclear"; "billing"; "unresolved"].
Proof.
  apply (proj2 (unresolved_turns_increment_or_reset "t1" "t2" "t3" "conv-1"
                  (sample_turn "unknown") sample_turns sample_world
                  sample_conversation eq_refl)).
Defined.

Lemma run_call_well_kept (c : Call) (w : World) :
  well_kept (db w) → well_kept (db (world_of (run_call c w))).
Proof.
  intros Hw. destruct c as [uuid4 now cid customer channel|t1 t2 t3 cid rd]; cbn [run_call].
  - unfold ContextManager.get_or_create.
    cbv [mbind M_bind get_db put_db emit mret M_ret raise].
    match goal with
    | |- context [match ?found with Some _ => _ | None => _ end] =>
        destruct found as [conv|]
    end; [exact Hw|].
    match goal with
    | |- context [db w !! ?k] => destruct (db w !! k) eqn:Hfree
    end; [exact Hw|].
    cbn. intros id conv Hid.
    apply lookup_insert_Some in Hid as [[_ <-]|[_ Hid]]; [|by eapply Hw].
    eexists. split; [reflexivity|]. unfold within_caps. cbn. lia.
  - destruct (db w !! cid) as [conv|] eqn:Hcid.
    + destruct (update_hit t1 t2 t3 cid rd w conv Hcid)
        as (conv' & w' & -> & Hdb & Hctx & _).
      cbn [world_of]. rewrite Hdb. intros id conv0 Hid.
      apply lookup_insert_Some in Hid as [[_ <-]|[_ Hid]]; [|by eapply Hw].
      eexists. split; [exact Hctx|].
      apply updated_context_within_caps. intros c Hc.
      destruct (Hw cid conv Hcid) as (c0 & Hc0 & Hcaps). congruence.
    + rewrite update_miss by exact Hcid. exact Hw.
Qed.

Lemma run_calls_well_kept (calls : list Call) :
  ∀ w, well_kept (db w) → well_kept (db (world_of (run_calls calls w))).
Proof.
  induction calls as [|c calls IH]; intros w Hw; [exact Hw|].
  cbn [run_calls]. cbv [mbind M_bind].
  pose proof (run_call_well_kept c w Hw) as Hc.
  destruct (run_call c w) as [[] w1|e w1]; cbn [world_of] in *.
  - by apply IH.
  - exact Hc.
Qed.

(** C4. However many calls have been made on the store, every stored
    context holds at most 20 history entries and at most 10 intents and
    10 emotions, and its two counters are not negative.  One [update]
    appends at the tail and trims at the head: each new sequence is an
    end segment of the old sequence followed by the turn's entries, and
    itself ends with those entries. *)
Theorem context_sequences_stay_capped
    (calls : list Call) (w : World)
    (t_customer t_assistant t_updated conversation_id : string)
    (response_data : ResponseData.t) (conv : Conversation.t) :
  (well_kept (db w) → well_kept (db (world_of (run_calls calls w))))
  ∧ well_kept (db (world_of (run_calls calls empty_world)))
  ∧ (db w !! conversation_id = Some conv →
     let old := Conversation.context conv in
     ∃ w' conv' c',
       ContextManager.update t_customer t_assistant t_updated
         conversation_id response_data w = Returned tt w'
       ∧ db w' !! conversation_id = Some conv'
       ∧ Conversation.context conv' = Some c'
       ∧ (length (ConvContext.history c') ≤ 20)%nat
       ∧ (length (ConvContext.previous_intents c') ≤ 10)%nat
       ∧ (length (ConvContext.emotion_trend c') ≤ 10)%nat
       ∧ ConvContext.history c'
           `suffix_of` (ContextManager.ctx_get old ConvContext.history []
                        ++ turn_entries t_customer t_assistant response_data)%list
       ∧ turn_entries t_customer t_assistant response_data
           `suffix_of` ConvContext.history c'
       ∧ ConvContext.previous_intents c'
           `suffix_of` (ContextManager.ctx_get old ConvContext.previous_intents []
                        ++ [turn_intent response_data])%list
       ∧ [turn_intent response_data] `suffix_of` ConvContext.previous_intents c'
       ∧ ConvContext.emotion_trend c'
           `suffix_of` (ContextManager.ctx_get old ConvContext.emotion_trend []
                        ++ [default "neutral" (ResponseData.dominant_emotion response_data)])%list
       ∧ [default "neutral" (ResponseData.dominant_emotion response_data)]
           `suffix_of` ConvContext.emotion_trend c'
       ∧ ConvContext.turn_count c'
         = ContextManager.ctx_get old ConvContext.turn_count 0 + 1).
Proof.
  split; [apply run_calls_well_kept|]. split.
  { apply run_calls_well_kept. intros id c Hid. cbn in Hid.
    by rewrite lookup_empty in Hid. }
  intros Hhit old.
  destruct (update_hit t_customer t_assistant t_updated conversation_id
              response_data w conv Hhit) as (conv' & w' & Hrun & Hdb & Hctx & _).
  exists w', conv', (ContextManager.updated_context t_customer t_assistant old response_data).
  split; [exact Hrun|]. split; [rewrite Hdb; apply lookup_insert_eq|].
  split; [exact Hctx|].
  destruct (updated_context_lengths t_customer t_assistant old response_data)
    as (Hh & Hi & He).
  destruct (updated_context_counters t_customer t_assistant old response_data)
    as (Ht & _).
  repeat (split; [assumption|]).
  unfold ContextManager.updated_context, py_append, turn_entries, turn_intent. cbn.
  rewrite <- !app_assoc. cbn [app].
  repeat split; try apply py_tail_suffix; apply py_tail_keeps_new; cbn; lia.
Qed.

Lemma context_sequences_stay_capped_witness :
  well_kept (db (world_of (run_calls sample_calls empty_world)))
  ∧ ∃ w' conv' c',
      ContextManager.update "t1" "t2" "t3" "conv-1" (sample_turn "unknown") sample_world
      = Returned tt w'
      ∧ db w' !! "conv-1" = Some conv'
      ∧ Conversation.context conv' = Some c'
      ∧ (length (ConvContext.history c') ≤ 20)%nat.
Proof.
  pose proof (context_sequences_stay_capped sample_calls empty_world
                "t1" "t2" "t3" "conv-1" (sample_turn "unknown") sample_conversation)
    as (Hkept & _ & _).
  pose proof (context_sequences_stay_capped sample_calls sample_world
                "t1" "t2" "t3" "conv-1" (sample_turn "unknown") sample_conversation)
    as (_ & _ & Hupd).
  split.
  - apply Hkept. intros id c Hid. cbn in Hid. by rewrite lookup_empty in Hid.
  - destruct (Hupd eq_refl) as (w' & conv' & c' & H1 & H2 & H3 & H4 & _).
    by exists w', conv', c'.
Defined.

(** A [get_or_create] with a non-empty identifier returns a snapshot of
    the row stored under it afterwards, which is the row found when
    there was one. *)
Lemma get_or_create_snapshot uuid4 now cid customer channel w :
  truthy cid = true →
  ∃ snap w1 conv1,
    ContextManager.get_or_create uuid4 now (Some cid) customer channel w
    = Returned snap w1
    ∧ db w1 !! cid = Some conv1
    ∧ snapshot_matches snap conv1
    ∧ (∀ conv, db w !! cid = Some conv → conv1 = conv)
    ∧ (∀ id, id ≠ cid → db w1 !! id = db w !! id).
Proof.
  intros Hcid. unfold ContextManager.get_or_create.
  cbv [mbind M_bind get_db put_db emit mret M_ret raise]. rewrite Hcid.
  destruct (db w !! cid) as [conv|] eqn:Hfound.
  - eexists; exists (logged w "info" "context_loaded" [("conversation_id", JStr cid)]), conv.
    split; [reflexivity|]. split; [exact Hfound|].
    split; [|split; [congruence|reflexivity]].
    unfold snapshot_matches, ContextManager.ctx_get. cbn. repeat split.
  - eexists; eexists; eexists. split; [reflexivity|].
    cbn. split; [apply lookup_insert_eq|].
    split; [|split; [discriminate|]].
    + unfold snapshot_matches, ContextManager.ctx_get. cbn. repeat split.
    + intros id Hid. by rewrite lookup_insert_ne.
Qed.

(** C8 (as the code has it). For every non-empty identifier, the three
    calls return, and the second snapshot shows the update: the turn
    count is one more, the unresolved counter follows the
    increment-or-reset rule, the three sequences are the old ones
    extended by the turn and cut to their caps, and language and
    escalation state are the turn's. *)
Theorem get_update_get_round_trip
    (uuid1 now1 uuid2 now2 t_customer t_assistant t_updated : string)
    (conversation_id customer_id channel : string)
    (response_data : ResponseData.t) (w : World) :
  truthy conversation_id = true →
  ∃ (before after : Context.t) (w' : World),
    round_trip uuid1 now1 uuid2 now2 t_customer t_assistant t_updated
      conversation_id customer_id channel response_data w
    = Returned (before, after) w'
    ∧ Context.conversation_id after = Context.conversation_id before
    ∧ Context.turn_count after = Context.turn_count before + 1
    ∧ Context.unresolved_turns after
      = (if bool_decide (turn_intent response_data ∈ ["unknown"; "unclear"; "unresolved"])
         then Context.unresolved_turns before + 1 else 0)
    ∧ Context.history after
      = py_tail 20 (Context.history before
                    ++ turn_entries t_customer t_assistant response_data)%list
    ∧ Context.previous_intents after
      = py_tail 10 (Context.previous_intents before ++ [turn_intent response_data])%list
    ∧ Context.emotion_trend after
      = py_tail 10 (Context.emotion_trend before
                    ++ [default "neutral" (ResponseData.dominant_emotion response_data)])%list
    ∧ Context.language after
      = default (Context.language before) (ResponseData.language response_data)
    ∧ Context.is_escalated after
      = default false (ResponseData.escalation_flag response_data).
Proof.
  intros Hcid. unfold round_trip.
  destruct (get_or_create_snapshot uuid1 now1 conversation_id customer_id channel w Hcid)
    as (before & w1 & conv1 & Hget1 & Hdb1 & Hsnap1 & _).
  destruct (update_hit t_customer t_assistant t_updated conversation_id
              response_data w1 conv1 Hdb1)
    as (conv2 & w2 & Hupd & Hdb2 & Hctx & Hid & _ & _ & Hlang & Hesc & _).
  destruct (get_or_create_snapshot uuid2 now2 conversation_id customer_id channel w2 Hcid)
    as (after & w3 & conv3 & Hget2 & _ & Hsnap2 & Hsame & _).
  assert (conv3 = conv2) as -> by (apply Hsame; rewrite Hdb2; apply lookup_insert_eq).
  exists before, after, w3.
  split.
  { cbv [mbind M_bind mret M_ret]. rewrite Hget1, Hupd, Hget2. reflexivity. }
  destruct Hsnap1 as (B1 & _ & _ & B4 & _ & B6 & B7 & B8 & B9 & B10).
  destruct Hsnap2 as (A1 & _ & _ & A4 & A5 & A6 & A7 & A8 & A9 & A10).
  rewrite A1, A4, A5, A6, A7, A8, A9, A10, Hctx, Hid, Hlang, Hesc,
    B1, B4, B6, B7, B8, B9, B10.
  destruct (updated_context_counters t_customer t_assistant
              (Conversation.context conv1) response_data) as (Ht & Hu).
  cbn [ContextManager.ctx_get]. rewrite Ht, Hu.
  unfold ContextManager.updated_context, py_append, turn_entries, turn_intent. cbn.
  rewrite <- !app_assoc. repeat split.
Qed.

Lemma get_update_get_round_trip_witness :
  ∃ (before after : Context.t) (w' : World),
    round_trip "uuid-1" "2026-01-01T00:00:00+00:00" "uuid-2" "2026-01-01T00:01:00+00:00"
      "t1" "t2" "t3" "conv-1" "CUST-001" "chat" (sample_turn "unknown") empty_world
    = Returned (before, after) w'
    ∧ Context.conversation_id after = Context.conversation_id before
    ∧ Context.turn_count after = Context.turn_count before + 1.
Proof.
  destruct (get_update_get_round_trip
              "uuid-1" "2026-01-01T00:00:00+00:00" "uuid-2" "2026-01-01T00:01:00+00:00"
              "t1" "t2" "t3" "conv-1" "CUST-001" "chat" (sample_turn "unknown")
              empty_world eq_refl)
    as (before & after & w' & Hrun & Hid & Hturn & _).
  by exists before, after, w'.
Defined.

(** C8 as stated fails for the empty identifier: [get_or_create] takes it
    for no identifier and stores the row under a fresh one, the [update]
    misses, and the second [get_or_create] creates another row; the
    second snapshot shows no turn. *)
Lemma round_trip_on_empty_identifier :
  returned
    (round_trip "uuid-1" "2026-01-01T00:00:00+00:00" "uuid-2" "2026-01-01T00:01:00+00:00"
       "t1" "t2" "t3" "" "CUST-001" "chat" (sample_turn "unknown") empty_world)
  = Some (sample_zero_context "uuid-1", sample_zero_context "uuid-2")
  ∧ Context.turn_count (sample_zero_context "uuid-2")
    ≠ Context.turn_count (sample_zero_context "uuid-1") + 1
  ∧ Context.history (sample_zero_context "uuid-2") = [].
Proof. split; [reflexivity|]. split; [discriminate|reflexivity]. Qed.

(** ** Failure isolation *)

(** The wrapper, case by case on what [process] does once the start of
    the agent has been logged. *)
Lemma safe_process_cases {In Out} `{BaseModel In}
    (self : BaseAgent In Out) (x : In) (w : World) :
  let interaction_id := default "N/A" (getattr_interaction_id x) in
  let started :=
    logged w "info" "agent_started"
      [("agent", JStr (agent_name self)); ("interaction_id", JStr interaction_id)] in
  safe_process self x w
  = match process self x started with
    | Returned r w1 =>
        Returned (Some r)
          (logged w1 "info" "agent_completed"
             [("agent", JStr (agent_name self)); ("interaction_id", JStr interaction_id)])
    | Raised e w1 =>
        if isinstance_Exception e
        then Returned None
               (logged w1 "error" "agent_failed"
                  [("agent", JStr (agent_name self));
                   ("error", JStr (exc_str e)); ("exc_info", JBool true)])
        else Raised e w1
    end.
Proof.
  cbv zeta. unfold safe_process, try_except_Exception, agent_emit.
  cbv [mbind M_bind emit mret M_ret py_append logged]. cbn.
  destruct (process self x _) as [r w1|e w1]; [reflexivity|].
  destruct (isinstance_Exception e); reflexivity.
Qed.

(** An agent that raises only [Exception]s always yields an outcome, and
    a present outcome is a value its [process] returned. *)
Lemma safe_process_outcome {In Out} `{BaseModel In}
    (self : BaseAgent In Out) (x : In) (w : World) :
  raises_only_Exception self →
  ∃ o w',
    safe_process self x w = Returned o w'
    ∧ (∀ r, o = Some r → ∃ w0 w1, process self x w0 = Returned r w1).
Proof.
  intros Honly. rewrite safe_process_cases. cbv zeta.
  match goal with
  | |- context [process self x ?w0] => destruct (process self x w0) as [r w1|e w1] eqn:Hp
  end.
  - eexists; eexists; split; [reflexivity|]. intros r' [= <-]. eauto.
  - rewrite (Honly _ _ _ _ Hp). eexists; eexists; split; [reflexivity|]. discriminate.
Qed.

Lemma always_fails_only_Exception {In Out} (agent : BaseAgent In Out) :
  always_fails agent → raises_only_Exception agent.
Proof.
  intros Hfail x w e w' Hp. destruct (Hfail x w) as (e0 & w0 & Hp0 & He0). congruence.
Qed.

Lemma always_fails_never_returns {In Out} (agent : BaseAgent In Out) x w r w' :
  always_fails agent → process agent x w ≠ Returned r w'.
Proof.
  intros Hfail Hp. destruct (Hfail x w) as (e0 & w0 & Hp0 & _). congruence.
Qed.

(** [get_or_create] returns whenever the identifier it may have to draw
    is free. *)
Lemma get_or_create_returns uuid4 now cid customer channel w :
  db w !! uuid4 = None →
  ∃ snap w1,
    ContextManager.get_or_create uuid4 now cid customer channel w = Returned snap w1.
Proof.
  intros Hfresh. unfold ContextManager.get_or_create.
  cbv [mbind M_bind get_db put_db emit mret M_ret raise].
  destruct cid as [cid|]; [destruct (truthy cid)|].
  - destruct (db w !! cid) as [conv|] eqn:Hfound; eauto.
  - rewrite Hfresh. eauto.
  - rewrite Hfresh. eauto.
Qed.

Lemma update_returns t1 t2 t3 cid rd w :
  ∃ w', ContextManager.update t1 t2 t3 cid rd w = Returned tt w'.
Proof.
  destruct (db w !! cid) as [conv|] eqn:Hcid.
  - destruct (update_hit t1 t2 t3 cid rd w conv Hcid) as (conv' & w' & Hrun & _). eauto.
  - rewrite update_miss by exact Hcid. eauto.
Qed.

(** What [aggregate_outputs] returns, field by field. *)
Lemma aggregate_outputs_fields `{PyFormat} cfg now interaction_id customer_id
    channel language customer_message context ocs kfo eia pir fan w :
  ∃ response w',
    aggregate_outputs cfg now interaction_id customer_id channel language
      customer_message context ocs kfo eia pir fan w = Returned response w'
    ∧ OrchestratorResponse.interaction_id response = interaction_id
    ∧ OrchestratorResponse.customer_id response = customer_id
    ∧ OrchestratorResponse.channel response = channel
    ∧ OrchestratorResponse.language response = language
    ∧ OrchestratorResponse.response_text response
      = match ocs with Some o => OCSOutput.response_text o | None => "" end
    ∧ OrchestratorResponse.intent response
      = match ocs with Some o => OCSOutput.intent o | None => "unknown" end
    ∧ OrchestratorResponse.sentiment_score response
      = match eia with Some e => EIAOutput.sentiment_score e | None => 0.0%float end
    ∧ OrchestratorResponse.dominant_emotion response
      = match eia with Some e => EIAOutput.dominant_emotion e | None => "neutral" end
    ∧ OrchestratorResponse.suggested_faq_articles response
      = match kfo with Some k => KFOOutput.suggested_faq_articles k | None => [] end
    ∧ OrchestratorResponse.proactive_alerts response
      = match pir with Some p => PIROutput.proactive_alerts p | None => [] end
    ∧ OrchestratorResponse.escalation_flag response
      = fst (_check_escalation cfg ocs eia pir context)
    ∧ OrchestratorResponse.escalation_reason response
      = snd (_check_escalation cfg ocs eia pir context).
Proof.
  unfold aggregate_outputs.
  destruct (_check_escalation cfg ocs eia pir context) as [flag why].
  cbv [mbind M_bind emit mret M_ret].
  eexists; eexists; split; [reflexivity|].
  cbn. destruct ocs; repeat split.
Qed.

Lemma bind_returned {A B} (m : M A) (k : A → M B) (w : World) (a : A) (w1 : World) :
  m w = Returned a w1 → mbind k m w = k a w1.
Proof. intros Hm. cbv [mbind M_bind]. by rewrite Hm. Qed.

Ltac step_with H := erewrite bind_returned by exact H; cbv beta.
Ltac step_pure := erewrite bind_returned by reflexivity; cbv beta.

(** With agents that raise only [Exception]s and a free identifier to
    draw, the pipeline returns a response assembled from the four
    outcomes, each either absent or a value its agent returned. *)
Lemma run_pipeline_returns `{PyFormat} cfg
    (OCS : BaseAgent OCSInput.t OCSOutput.t) (KFO : BaseAgent KFOInput.t KFOOutput.t)
    (EIA : BaseAgent EIAInput.t EIAOutput.t) (PIR : BaseAgent PIRInput.t PIROutput.t)
    (draws : Draws) (request : CustomerRequest.t) (w : World) :
  raises_only_Exception OCS → raises_only_Exception KFO →
  raises_only_Exception EIA → raises_only_Exception PIR →
  db w !! uuid_conversation draws = None →
  ∃ context ocs kfo eia pir response w',
    run_pipeline cfg OCS KFO EIA PIR draws request w = Returned response w'
    ∧ (∀ r, ocs = Some r → ∃ x w0 w1, process OCS x w0 = Returned r w1)
    ∧ (∀ r, kfo = Some r → ∃ x w0 w1, process KFO x w0 = Returned r w1)
    ∧ (∀ r, eia = Some r → ∃ x w0 w1, process EIA x w0 = Returned r w1)
    ∧ (∀ r, pir = Some r → ∃ x w0 w1, process PIR x w0 = Returned r w1)
    ∧ OrchestratorResponse.interaction_id response = uuid_interaction draws
    ∧ OrchestratorResponse.customer_id response = CustomerRequest.customer_id request
    ∧ OrchestratorResponse.channel response = CustomerRequest.channel request
    ∧ OrchestratorResponse.response_text response
      = match ocs with Some o => OCSOutput.response_text o | None => "" end
    ∧ OrchestratorResponse.intent response
      = match ocs with Some o => OCSOutput.intent o | None => "unknown" end
    ∧ OrchestratorResponse.sentiment_score response
      = match eia with Some e => EIAOutput.sentiment_score e | None => 0.0%float end
    ∧ OrchestratorResponse.dominant_emotion response
      = match eia with Some e => EIAOutput.dominant_emotion e | None => "neutral" end
    ∧ OrchestratorResponse.suggested_faq_articles response
      = match kfo with Some k => KFOOutput.suggested_faq_articles k | None => [] end
    ∧ OrchestratorResponse.proactive_alerts response
      = match pir with Some p => PIROutput.proactive_alerts p | None => [] end
    ∧ OrchestratorResponse.escalation_flag response
      = fst (_check_escalation cfg ocs eia pir context).
Proof.
  intros Hocs Hkfo Heia Hpir Hfresh.
  unfold run_pipeline. cbv zeta.
  step_pure.
  match goal with
  | |- context [ContextManager.get_or_create ?u ?n ?c ?cu ?ch] =>
      destruct (get_or_create_returns u n c cu ch
                  (logged w "info" "pipeline_started"
                     [("interaction_id", JStr (uuid_interaction draws));
                      ("customer_id", JStr (CustomerRequest.customer_id request));
                      ("channel", JStr (ChannelType_value (CustomerRequest.channel request)))])
                  Hfresh)
        as (context & w1 & Hctx)
  end.
  step_with Hctx.
  match goal with
  | |- context [safe_process OCS ?x] =>
      destruct (safe_process_outcome OCS x w1 Hocs) as (ocs & w2 & Hrun2 & Hval2)
  end.
  step_with Hrun2.
  match goal with
  | |- context [safe_process KFO ?x] =>
      destruct (safe_process_outcome KFO x w2 Hkfo) as (kfo & w3 & Hrun3 & Hval3)
  end.
  step_with Hrun3.
  match goal with
  | |- context [safe_process EIA ?x] =>
      destruct (safe_process_outcome EIA x w3 Heia) as (eia & w4 & Hrun4 & Hval4)
  end.
  step_with Hrun4.
  assert (Hstep4 : ∃ pir w5,
    match CustomerRequest.account_id request with
    | Some account_id =>
        if truthy account_id
        then safe_process PIR
               {| PIRInput.interaction_id := uuid_interaction draws;
                  PIRInput.account_id := account_id;
                  PIRInput.account_data :=
                    default (JDict []) (CustomerRequest.account_data request);
                  PIRInput.usage_logs := default [] (CustomerRequest.usage_logs request) |}
        else mret None
    | None => mret None
    end w4 = Returned pir w5
    ∧ (∀ r, pir = Some r → ∃ x w0 w1, process PIR x w0 = Returned r w1)).
  { destruct (CustomerRequest.account_id request) as [account_id|];
      [destruct (truthy account_id)|].
    - match goal with
      | |- context [safe_process PIR ?x] =>
          destruct (safe_process_outcome PIR x w4 Hpir) as (pir & w5 & Hrun5 & Hval5)
      end.
      exists pir, w5. split; [exact Hrun5|]. intros r Hr.
      destruct (Hval5 r Hr) as (w0 & w1' & Hp). eauto.
    - exists None, w4. split; [reflexivity|discriminate].
    - exists None, w4. split; [reflexivity|discriminate]. }
  destruct Hstep4 as (pir & w5 & Hrun5 & Hval5).
  step_with Hrun5.
  match goal with
  | |- context [aggregate_outputs ?c ?n ?i ?cu ?ch ?l ?m ?ctx ?o ?k ?e ?p ?f] =>
      destruct (aggregate_outputs_fields c n i cu ch l m ctx o k e p f w5)
        as (response & w6 & Hagg & F1 & F2 & F3 & F4 & F5 & F6 & F7 & F8 & F9 & F10 & F11 & _)
  end.
  step_with Hagg.
  match goal with
  | |- context [ContextManager.update ?a ?b ?c ?d ?e] =>
      destruct (update_returns a b c d e w6) as (w7 & Hupd)
  end.
  step_with Hupd.
  exists context, ocs, kfo, eia, pir, response.
  assert (Hdone : ∃ w8,
    (if OrchestratorResponse.escalation_flag response
     then emit "info" "escalation_triggered"
            [("interaction_id", JStr (uuid_interaction draws));
             ("reason", JOpt JStr (OrchestratorResponse.escalation_reason response))]
     else mret tt) w7 = Returned tt w8).
  { destruct (OrchestratorResponse.escalation_flag response); eexists; reflexivity. }
  destruct Hdone as (w8 & Hesc).
  step_with Hesc. step_pure. step_pure.
  eexists. split; [reflexivity|].
  split; [intros r Hr; destruct (Hval2 r Hr) as (? & ? & ?); eauto|].
  split; [intros r Hr; destruct (Hval3 r Hr) as (? & ? & ?); eauto|].
  split; [intros r Hr; destruct (Hval4 r Hr) as (? & ? & ?); eauto|].
  split; [exact Hval5|].
  repeat split; assumption.
Qed.

Lemma failing_agent_always_fails {In Out} (name : string) (exc : PyExc) :
  isinstance_Exception exc = true → always_fails (@failing_agent In Out name exc).
Proof. intros Hexc x w. exists exc, w. split; [reflexivity|exact Hexc]. Qed.

(** C2 (as the code has it). Whenever the wrapped [process] raises an
    exception of the [Exception] hierarchy, [safe_process] logs the
    failure and returns the absent outcome; an exception leaves
    [safe_process] only when it is outside that hierarchy
    (KeyboardInterrupt, SystemExit, GeneratorExit, CancelledError), and
    it is then the one [process] raised.  With agents that raise only
    [Exception]s the pipeline returns a response for the request, and
    with every provider down that response carries the defaults. *)
Theorem safe_process_absorbs_Exception_failures `{PyFormat} {In Out} `{BaseModel In}
    (self : BaseAgent In Out) (input_data : In) (w : World)
    (cfg : EscalationConfig.t)
    (OCS : BaseAgent OCSInput.t OCSOutput.t) (KFO : BaseAgent KFOInput.t KFOOutput.t)
    (EIA : BaseAgent EIAInput.t EIAOutput.t) (PIR : BaseAgent PIRInput.t PIROutput.t)
    (draws : Draws) (request : CustomerRequest.t) :
  (∀ e w1,
     process self input_data (agent_started self input_data w) = Raised e w1 →
     isinstance_Exception e = true →
     safe_process self input_data w = Returned None (agent_failed self e w1))
  ∧ (∀ e w1,
       safe_process self input_data w = Raised e w1 →
       isinstance_Exception e = false
       ∧ process self input_data (agent_started self input_data w) = Raised e w1)
  ∧ (raises_only_Exception OCS → raises_only_Exception KFO →
     raises_only_Exception EIA → raises_only_Exception PIR →
     db w !! uuid_conversation draws = None →
     ∃ response w',
       run_pipeline cfg OCS KFO EIA PIR draws request w = Returned response w'
       ∧ OrchestratorResponse.interaction_id response = uuid_interaction draws
       ∧ OrchestratorResponse.customer_id response = CustomerRequest.customer_id request
       ∧ OrchestratorResponse.channel response = CustomerRequest.channel request)
  ∧ (always_fails OCS → always_fails KFO → always_fails EIA → always_fails PIR →
     db w !! uuid_conversation draws = None →
     ∃ response w',
       run_pipeline cfg OCS KFO EIA PIR draws request w = Returned response w'
       ∧ OrchestratorResponse.response_text response = ""
       ∧ OrchestratorResponse.intent response = "unknown"
       ∧ OrchestratorResponse.sentiment_score response = 0.0%float
       ∧ OrchestratorResponse.dominant_emotion response = "neutral"
       ∧ OrchestratorResponse.suggested_faq_articles response = []
       ∧ OrchestratorResponse.proactive_alerts response = []).
Proof.
  pose proof (safe_process_cases self input_data w) as Hcases. cbv zeta in Hcases.
  fold (agent_started self input_data w) in Hcases.
  split; [|split; [|split]].
  - intros e w1 Hp He. rewrite Hcases, Hp, He. reflexivity.
  - intros e w1. rewrite Hcases.
    destruct (process self input_data _) as [r w2|e2 w2]; [discriminate|].
    destruct (isinstance_Exception e2) eqn:He2; [discriminate|].
    intros [= <- <-]. by split.
  - intros Hocs Hkfo Heia Hpir Hfresh.
    destruct (run_pipeline_returns cfg OCS KFO EIA PIR draws request w
                Hocs Hkfo Heia Hpir Hfresh)
      as (context & ocs & kfo & eia & pir & response & w' & Hrun & _ & _ & _ & _
          & F1 & F2 & F3 & _).
    by exists response, w'.
  - intros Hocs Hkfo Heia Hpir Hfresh.
    destruct (run_pipeline_returns cfg OCS KFO EIA PIR draws request w
                (always_fails_only_Exception _ Hocs) (always_fails_only_Exception _ Hkfo)
                (always_fails_only_Exception _ Heia) (always_fails_only_Exception _ Hpir)
                Hfresh)
      as (context & ocs & kfo & eia & pir & response & w' & Hrun
          & V1 & V2 & V3 & V4 & _ & _ & _ & F4 & F5 & F6 & F7 & F8 & F9 & _).
    assert (ocs = None) as ->.
    { destruct ocs as [r|]; [|reflexivity].
      destruct (V1 r eq_refl) as (x & w0 & w1 & Hp).
      by destruct (always_fails_never_returns OCS x w0 r w1 Hocs). }
    assert (kfo = None) as ->.
    { destruct kfo as [r|]; [|reflexivity].
      destruct (V2 r eq_refl) as (x & w0 & w1 & Hp).
      by destruct (always_fails_never_returns KFO x w0 r w1 Hkfo). }
    assert (eia = None) as ->.
    { destruct eia as [r|]; [|reflexivity].
      destruct (V3 r eq_refl) as (x & w0 & w1 & Hp).
      by destruct (always_fails_never_returns EIA x w0 r w1 Heia). }
    assert (pir = None) as ->.
    { destruct pir as [r|]; [|reflexivity].
      destruct (V4 r eq_refl) as (x & w0 & w1 & Hp).
      by destruct (always_fails_never_returns PIR x w0 r w1 Hpir). }
    by exists response, w'.
Qed.

Lemma safe_process_absorbs_Exception_failures_witness :
  safe_process (@failing_agent EIAInput.t EIAOutput.t "EIA" provider_down)
    sample_eia_input empty_world
  = Returned None
      (agent_failed (@failing_agent EIAInput.t EIAOutput.t "EIA" provider_down)
         provider_down
         (agent_started (@failing_agent EIAInput.t EIAOutput.t "EIA" provider_down)
            sample_eia_input empty_world))
  ∧ ∃ response w',
      run_pipeline (fmt := sample_format) EscalationConfig.empty
        (failing_agent "OCS" provider_down) (failing_agent "KFO" provider_down)
        (failing_agent "EIA" provider_down) (failing_agent "PIR" provider_down)
        sample_draws sample_request empty_world
      = Returned response w'
      ∧ OrchestratorResponse.response_text response = ""
      ∧ OrchestratorResponse.intent response = "unknown"
      ∧ OrchestratorResponse.sentiment_score response = 0.0%float
      ∧ OrchestratorResponse.dominant_emotion response = "neutral"
      ∧ OrchestratorResponse.suggested_faq_articles response = []
      ∧ OrchestratorResponse.proactive_alerts response = [].
Proof.
  pose proof (@safe_process_absorbs_Exception_failures sample_format
                EIAInput.t EIAOutput.t EIAInput_model
                (failing_agent "EIA" provider_down) sample_eia_input empty_world
                EscalationConfig.empty
                (failing_agent "OCS" provider_down) (failing_agent "KFO" provider_down)
                (failing_agent "EIA" provider_down) (failing_agent "PIR" provider_down)
                sample_draws sample_request)
    as (Hwrap & _ & _ & Hdown).
  split.
  - apply Hwrap; reflexivity.
  - apply Hdown; try (apply failing_agent_always_fails; reflexivity). reflexivity.
Defined.

(** C2 as stated fails: a [process] that raises KeyboardInterrupt is not
    turned into the absent outcome; the exception leaves [safe_process],
    and with it the pipeline. *)
Lemma safe_process_lets_interrupt_through :
  safe_process (@failing_agent EIAInput.t EIAOutput.t "EIA" interrupt)
    sample_eia_input empty_world
  = Raised interrupt
      (agent_started (@failing_agent EIAInput.t EIAOutput.t "EIA" interrupt)
         sample_eia_input empty_world)
  ∧ raised
      (run_pipeline (fmt := sample_format) EscalationConfig.empty
         (failing_agent "OCS" interrupt) (failing_agent "KFO" provider_down)
         (failing_agent "EIA" provider_down) (failing_agent "PIR" provider_down)
         sample_draws sample_request empty_world)
    = Some interrupt.
Proof. split; reflexivity. Qed.

(** ** The rate limiter *)

(** The interpreter's comparison of a float with an integer is the
    comparison of the numbers they stand for. *)
Lemma float_lt_int_value (x : float) (n : Z) :
  float_lt_int x n
  = match Prim2SF x with
    | S754_nan => false
    | S754_infinity negative => negative
    | f =>
        match float_value f with
        | Some q =>
            if QArith_base.Qlt_le_dec q (QArith_base.inject_Z n) then true else false
        | None => false
        end
    end.
Proof.
  unfold float_lt_int. destruct (Prim2SF x) as [s|s| |s m e]; try reflexivity.
  - cbn [float_value].
    destruct (QArith_base.Qlt_le_dec _ _) as [H|H];
      unfold QArith_base.Qlt, QArith_base.Qle in H; cbn in H;
      [apply Z.ltb_lt|apply Z.ltb_ge]; lia.
  - cbn [float_value]. set (v := if s then Z.neg m else Z.pos m).
    destruct e as [|p|p]; cbn [Z.leb Z.compare].
    + rewrite Z.pow_0_r.
      destruct (QArith_base.Qlt_le_dec _ _) as [H|H];
        unfold QArith_base.Qlt, QArith_base.Qle in H; cbn in H;
        [apply Z.ltb_lt|apply Z.ltb_ge]; lia.
    + rewrite Pos2Z.inj_pow.
      destruct (QArith_base.Qlt_le_dec _ _) as [H|H];
        unfold QArith_base.Qlt, QArith_base.Qle in H; cbn in H;
        [apply Z.ltb_lt|apply Z.ltb_ge]; lia.
    + change (- Z.neg p)%Z with (Z.pos p).
      destruct (QArith_base.Qlt_le_dec _ _) as [H|H];
        unfold QArith_base.Qlt, QArith_base.Qle in H;
        cbn [QArith_base.Qnum QArith_base.Qden QArith_base.inject_Z] in H;
        rewrite Pos2Z.inj_pow in H; [apply Z.ltb_lt|apply Z.ltb_ge]; lia.
Qed.

(** The cleaning step keeps the timestamps of the trailing window. *)
Lemma in_window_elapsed_below self now ts :
  RateLimitMiddleware.in_window self now ts
  = elapsed_below (RateLimitMiddleware.window_seconds self) now ts.
Proof. unfold RateLimitMiddleware.in_window, elapsed_below. apply float_lt_int_value. Qed.

Lemma filter_in_window self now log :
  List.filter (RateLimitMiddleware.in_window self now) log
  = in_trailing_window self now log.
Proof.
  unfold in_trailing_window. apply filter_ext. intros ts.
  apply in_window_elapsed_below.
Qed.

Lemma dispatch_admits self now request call_next w :
  (len (in_trailing_window self now (client_log w (client_ip request)))
   < RateLimitMiddleware.max_requests self)%Z →
  RateLimitMiddleware.dispatch self now request call_next w
  = call_next request
      (with_requests w
         (<[client_ip request :=
              (in_trailing_window self now (client_log w (client_ip request)) ++ [now])%list]>
            (_requests w))).
Proof.
  intros Hlt. unfold RateLimitMiddleware.dispatch. cbv zeta.
  fold (client_ip request).
  cbv [mbind M_bind get_requests put_requests].
  cbn [db logs background_tasks _requests].
  fold (client_log w (client_ip request)).
  rewrite filter_in_window.
  rewrite Z.geb_leb. rewrite (proj2 (Z.leb_gt _ _) Hlt).
  cbv beta iota. cbn [db logs background_tasks _requests].
  rewrite lookup_insert_eq. cbn [default]. unfold py_append, with_requests.
  rewrite insert_insert_eq. reflexivity.
Qed.

Lemma dispatch_rejects self now request call_next w :
  (RateLimitMiddleware.max_requests self
   ≤ len (in_trailing_window self now (client_log w (client_ip request))))%Z →
  RateLimitMiddleware.dispatch self now request call_next w
  = Returned RateLimitMiddleware.rate_limited
      (logged
         (with_requests w
            (<[client_ip request :=
                 in_trailing_window self now (client_log w (client_ip request))]>
               (_requests w)))
         "warning" "rate_limit_exceeded" [("client_ip", JStr (client_ip request))]).
Proof.
  intros Hge. unfold RateLimitMiddleware.dispatch. cbv zeta.
  fold (client_ip request).
  cbv [mbind M_bind get_requests put_requests emit mret M_ret].
  cbn [db logs background_tasks _requests].
  fold (client_log w (client_ip request)).
  rewrite filter_in_window.
  rewrite Z.geb_leb. rewrite (proj2 (Z.leb_le _ _) Hge). reflexivity.
Qed.

Lemma filter_all {A} (f : A → bool) (l : list A) :
  forallb f l = true → List.filter f l = l.
Proof.
  induction l as [|a l IH]; cbn; [reflexivity|].
  destruct (f a); [|discriminate]. intros Hl. by rewrite IH.
Qed.

Lemma filter_none {A} (f : A → bool) (l : list A) :
  forallb (fun a => negb (f a)) l = true → List.filter f l = [].
Proof.
  induction l as [|a l IH]; cbn; [reflexivity|].
  destruct (f a); [discriminate|]. exact IH.
Qed.

(** A burst within one window that fits under the ceiling is admitted
    whole, and its timestamps are appended to the client's log. *)
Lemma serve_burst self call_next request times :
  downstream call_next →
  ∀ seen w,
    client_log w (client_ip request) = seen →
    same_window self seen times = true →
    (len seen + len times ≤ RateLimitMiddleware.max_requests self)%Z →
    ∃ responses w',
      serve self call_next (map (fun t => (t, request)) times) w = Returned responses w'
      ∧ client_log w' (client_ip request) = (seen ++ times)%list
      ∧ length responses = length times
      ∧ Forall (fun r => HTTPResponse.status_code r ≠ 429) responses.
Proof.
  intros Hdown. induction times as [|t times IH]; intros seen w Hlog Hwin Hroom.
  - exists [], w. rewrite app_nil_r. repeat split; [exact Hlog|constructor].
  - cbn [same_window] in Hwin. apply andb_prop in Hwin as [Hseen Hrest].
    unfold len in Hroom. cbn [length] in Hroom.
    assert (Hkept : in_trailing_window self t (client_log w (client_ip request)) = seen).
    { rewrite Hlog. by apply filter_all. }
    cbn [map serve].
    destruct (Hdown request
                (with_requests w (<[client_ip request := (seen ++ [t])%list]> (_requests w))))
      as (r & w1 & Hcall & Hstatus & Htable).
    assert (Hlog1 : client_log w1 (client_ip request) = (seen ++ [t])%list).
    { unfold client_log. rewrite Htable. cbn. by rewrite lookup_insert_eq. }
    destruct (IH (seen ++ [t])%list w1 Hlog1 Hrest) as (rs & w' & Hserve & Hlog' & Hlen & Hall).
    { unfold len. rewrite length_app. cbn [length]. lia. }
    exists (r :: rs), w'. split; [|split; [|split]].
    + erewrite bind_returned; [|rewrite dispatch_admits; rewrite Hkept; [exact Hcall|]].
      * cbv beta. erewrite bind_returned by exact Hserve. reflexivity.
      * unfold len. lia.
    + rewrite Hlog', <- app_assoc. reflexivity.
    + cbn [length]. by rewrite Hlen.
    + by constructor.
Qed.

(** C7. A request is admitted exactly when the client's admitted
    timestamps that lie within the trailing window number fewer than the
    ceiling, a timestamp lying within the window when the time elapsed
    since it is a number strictly below the window's length: the request
    is then stamped and handed downstream; otherwise the answer is the 429
    response, whatever the downstream is, and nothing but the limiter's
    table and the log changes.  After a burst of exactly [max_requests]
    admitted requests in one window the next request of that client in
    the window is rejected; once every stored timestamp has left the
    window a request is admitted again. *)
Theorem rate_limiter_admission
    (self : RateLimitMiddleware.t) (now : float) (request : HTTPRequest.t)
    (call_next other_next : HTTPRequest.t → M HTTPResponse.t)
    (times : list float) (w : World) :
  let ip := client_ip request in
  let recent := in_trailing_window self now (client_log w ip) in
  ((len recent < RateLimitMiddleware.max_requests self)%Z →
   RateLimitMiddleware.dispatch self now request call_next w
   = call_next request
       (with_requests w (<[ip := (recent ++ [now])%list]> (_requests w))))
  ∧ ((RateLimitMiddleware.max_requests self ≤ len recent)%Z →
     ∃ w',
       RateLimitMiddleware.dispatch self now request call_next w
       = Returned RateLimitMiddleware.rate_limited w'
       ∧ RateLimitMiddleware.dispatch self now request other_next w
         = Returned RateLimitMiddleware.rate_limited w'
       ∧ HTTPResponse.status_code RateLimitMiddleware.rate_limited = 429
       ∧ db w' = db w
       ∧ background_tasks w' = background_tasks w
       ∧ client_log w' ip = recent)
  ∧ (downstream call_next →
     len times = RateLimitMiddleware.max_requests self →
     client_log w ip = [] →
     same_window self [] times = true →
     forallb (elapsed_below (RateLimitMiddleware.window_seconds self) now) times = true →
     ∃ responses w1 w2,
       serve self call_next (map (fun t => (t, request)) times) w
       = Returned responses w1
       ∧ length responses = length times
       ∧ Forall (fun r => HTTPResponse.status_code r ≠ 429) responses
       ∧ RateLimitMiddleware.dispatch self now request call_next w1
         = Returned RateLimitMiddleware.rate_limited w2
       ∧ db w2 = db w1
       ∧ background_tasks w2 = background_tasks w1)
  ∧ (forallb (fun ts => negb (elapsed_below (RateLimitMiddleware.window_seconds self) now ts))
       (client_log w ip) = true →
     (1 ≤ RateLimitMiddleware.max_requests self)%Z →
     RateLimitMiddleware.dispatch self now request call_next w
     = call_next request (with_requests w (<[ip := [now]]> (_requests w)))).
Proof.
  intros ip recent. split; [|split; [|split]].
  - apply dispatch_admits.
  - intros Hfull. eexists. split; [by apply dispatch_rejects|].
    split; [by apply dispatch_rejects|].
    split; [reflexivity|]. split; [reflexivity|]. split; [reflexivity|].
    unfold client_log. cbn. by rewrite lookup_insert_eq.
  - intros Hdown Hlen Hempty Hwin Hnow.
    destruct (serve_burst self call_next request times Hdown [] w Hempty Hwin)
      as (responses & w1 & Hserve & Hlog & Hcount & Hall).
    { unfold len at 1. cbn [length]. lia. }
    cbn [app] in Hlog.
    exists responses, w1. eexists.
    split; [exact Hserve|]. split; [exact Hcount|]. split; [exact Hall|].
    split.
    { apply dispatch_rejects. rewrite Hlog.
      unfold in_trailing_window. rewrite filter_all by exact Hnow. lia. }
    split; reflexivity.
  - intros Hgone Hmax.
    assert (Hnone : recent = []) by (by apply filter_none).
    pose proof (dispatch_admits self now request call_next w) as Hadmit.
    fold ip in Hadmit. fold recent in Hadmit. rewrite Hnone in Hadmit.
    apply Hadmit. unfold len. cbn [length]. lia.
Qed.

Lemma sample_app_downstream : downstream sample_app.
Proof.
  intros request w. eexists; eexists. split; [reflexivity|].
  split; [discriminate|reflexivity].
Qed.

Lemma rate_limiter_admission_witness :
  (∃ responses w1 w2,
     serve sample_limits sample_app
       (map (fun t => (t, sample_http_request)) sample_burst) empty_world
     = Returned responses w1
     ∧ length responses = length sample_burst
     ∧ Forall (fun r => HTTPResponse.status_code r ≠ 429) responses
     ∧ RateLimitMiddleware.dispatch sample_limits 130%float sample_http_request
         sample_app w1
       = Returned RateLimitMiddleware.rate_limited w2
     ∧ db w2 = db w1
     ∧ background_tasks w2 = background_tasks w1)
  ∧ RateLimitMiddleware.dispatch sample_limits 200%float sample_http_request
      sample_app sample_busy_world
    = sample_app sample_http_request
        (with_requests sample_busy_world
           (<["10.0.0.7" := [200%float]]> (_requests sample_busy_world))).
Proof.
  pose proof (rate_limiter_admission sample_limits 130%float sample_http_request
                sample_app sample_app sample_burst empty_world)
    as (_ & _ & Hburst & _).
  pose proof (rate_limiter_admission sample_limits 200%float sample_http_request
                sample_app sample_app sample_burst sample_busy_world)
    as (_ & _ & _ & Hresume).
  split.
  - apply Hburst; [exact sample_app_downstream|reflexivity..].
  - apply Hresume; [reflexivity|vm_compute; discriminate].
Defined.

(** The window test at its edge, and with a window beyond the integers
    that floats hold exactly: a timestamp as old as the window has left
    it, one half a second younger has not, and ten seconds are within a
    window of [2^63] seconds. *)
Example window_test_is_exact :
  RateLimitMiddleware.in_window sample_limits 160%float 100%float = false
  ∧ RateLimitMiddleware.in_window sample_limits 159.5%float 100%float = true
  ∧ RateLimitMiddleware.in_window (RateLimitMiddleware.mk 1 (2 ^ 63)) 110%float 100%float
    = true
  ∧ RateLimitMiddleware.dispatch (RateLimitMiddleware.mk 1 (2 ^ 63)) 110%float
      sample_http_request sample_app
      (with_requests empty_world {[ "10.0.0.7" := [100%float] ]})
    = Returned RateLimitMiddleware.rate_limited
        (logged (with_requests empty_world {[ "10.0.0.7" := [100%float] ]})
           "warning" "rate_limit_exceeded" [("client_ip", JStr "10.0.0.7")]).
Proof. vm_compute. repeat split. Qed.

(** ** The repository's own test cases, run on the model *)

Example test_sentiment_escalation :
  _check_escalation (fmt := sample_format) EscalationConfig.empty
    None (Some angry_eia) None (sample_context [] 0)
  = (true,
     Some ("Sentiment score (-0.80) below threshold (-0.65). | "
           +:+ "Emotional Intelligence Agent triggered escalation.")).
Proof. vm_compute. reflexivity. Qed.

Example test_unresolved_turns_escalation :
  _check_escalation (fmt := sample_format) EscalationConfig.empty
    None None None (sample_context [] 5)
  = (true, Some "No resolution after 5 consecutive turns (threshold: 3).").
Proof. vm_compute. reflexivity. Qed.

Example test_consecutive_anger_triggers_escalation :
  check_escalation (fmt := sample_format) EscalationConfig.empty
    (-0.3)%float "anger" ["anger"]
  = (true, Some "Trigger emotion 'anger' detected for 2 consecutive turns").
Proof. vm_compute. reflexivity. Qed.

Example test_normal_state_no_escalation :
  check_escalation (fmt := sample_format) EscalationConfig.empty
    0.2%float "neutral" ["neutral"; "joy"]
  = (false, None).
Proof. vm_compute. reflexivity. Qed.

(** * Further properties of the code *)

(** ** The conversation store, beyond the caps *)

(** X1. [get_or_create] never changes or removes a row that is already
    stored, whatever identifier it is called with and whether it returns
    or raises. *)
Theorem get_or_create_keeps_existing_rows
    (uuid4 now : string) (conversation_id : option string)
    (customer_id channel : string) (w : World) (id : string) (conv : Conversation.t) :
  db w !! id = Some conv →
  db (world_of (ContextManager.get_or_create uuid4 now conversation_id
                  customer_id channel w)) !! id = Some conv.
Proof.
  intros Hrow. unfold ContextManager.get_or_create.
  cbv [mbind M_bind get_db put_db emit mret M_ret raise].
  assert (Hnew : ∀ k, db w !! k = None →
            <[k := {| Conversation.id := k;
                      Conversation.customer_id := customer_id;
                      Conversation.channel := channel;
                      Conversation.language := "en";
                      Conversation.created_at := now;
                      Conversation.updated_at := now;
                      Conversation.context :=
                        Some {| ConvContext.history := [];
                                ConvContext.previous_intents := [];
                                ConvContext.emotion_trend := [];
                                ConvContext.turn_count := 0;
                                ConvContext.unresolved_turns := 0 |};
                      Conversation.is_escalated := false |}]> (db w) !! id = Some conv).
  { intros k Hk. rewrite lookup_insert_ne; [exact Hrow|]. intros ->. congruence. }
  destruct conversation_id as [c|]; [destruct (truthy c)|].
  - destruct (db w !! c) eqn:Hc; [exact Hrow|]. cbn. by apply Hnew.
  - destruct (db w !! uuid4) eqn:Hu; [exact Hrow|]. cbn. by apply Hnew.
  - destruct (db w !! uuid4) eqn:Hu; [exact Hrow|]. cbn. by apply Hnew.
Qed.

Lemma get_or_create_keeps_existing_rows_witness :
  db (world_of (ContextManager.get_or_create "uuid-2" "2026-01-02T00:00:00+00:00"
                  None "CUST-002" "email" sample_world)) !! "conv-1"
  = Some sample_conversation.
Proof.
  apply (get_or_create_keeps_existing_rows "uuid-2" "2026-01-02T00:00:00+00:00"
           None "CUST-002" "email" sample_world "conv-1" sample_conversation).
  reflexivity.
Defined.

(** The snapshot a [get_or_create] returns describes the row stored under
    the snapshot's identifier, in a table keyed by row identifiers. *)
Lemma get_or_create_names_stored_row uuid4 now cid customer channel w snap w' :
  keyed (db w) →
  ContextManager.get_or_create uuid4 now cid customer channel w = Returned snap w' →
  ∃ conv, db w' !! Context.conversation_id snap = Some conv
          ∧ snapshot_matches snap conv
          ∧ keyed (db w')
          ∧ background_tasks w' = background_tasks w.
Proof.
  intros Hkeyed. unfold ContextManager.get_or_create.
  cbv [mbind M_bind get_db put_db emit mret M_ret raise].
  destruct (match cid with
            | Some c => if truthy c then db w !! c else None
            | None => None
            end) as [conv|] eqn:Hfound.
  - intros [= <- <-]. exists conv. cbn.
    assert (Hrow : ∃ k, db w !! k = Some conv).
    { destruct cid as [c|]; [|discriminate]. destruct (truthy c); [|discriminate]. eauto. }
    destruct Hrow as (k & Hk). rewrite (Hkeyed k conv Hk).
    split; [exact Hk|]. split; [|split; [exact Hkeyed|reflexivity]].
    unfold snapshot_matches, ContextManager.ctx_get. cbn.
    rewrite (Hkeyed k conv Hk). repeat split.
  - match goal with
    | |- context [db w !! ?k] => set (new_id := k); destruct (db w !! new_id) eqn:Hfree
    end; [discriminate|].
    intros [= <- <-]. eexists. cbn. split; [apply lookup_insert_eq|].
    split; [|split; [|reflexivity]].
    + unfold snapshot_matches, ContextManager.ctx_get. cbn. repeat split.
    + intros k conv Hk. apply lookup_insert_Some in Hk as [[<- <-]|[_ Hk]];
        [reflexivity|by apply Hkeyed].
Qed.

(** X2. In a table keyed by row identifiers, whatever [get_or_create]
    returns is a snapshot of a row that is stored, after the call, under
    the identifier the snapshot carries: an [update] with that identifier
    does not miss. *)
Theorem get_or_create_snapshot_names_a_stored_row
    (uuid4 now : string) (conversation_id : option string)
    (customer_id channel : string) (w : World)
    (t_customer t_assistant t_updated : string) (response_data : ResponseData.t) :
  keyed (db w) →
  ∀ snap w',
    ContextManager.get_or_create uuid4 now conversation_id customer_id channel w
    = Returned snap w' →
    (∃ conv, db w' !! Context.conversation_id snap = Some conv
             ∧ snapshot_matches snap conv)
    ∧ keyed (db w')
    ∧ ∃ w'' conv'',
        ContextManager.update t_customer t_assistant t_updated
          (Context.conversation_id snap) response_data w' = Returned tt w''
        ∧ db w'' !! Context.conversation_id snap = Some conv''
        ∧ ContextManager.ctx_get (Conversation.context conv'') ConvContext.turn_count 0
          = Context.turn_count snap + 1.
Proof.
  intros Hkeyed snap w' Hget.
  destruct (get_or_create_names_stored_row _ _ _ _ _ _ _ _ Hkeyed Hget)
    as (conv & Hrow & Hsnap & Hkeyed' & _).
  split; [by exists conv|]. split; [exact Hkeyed'|].
  destruct (update_hit t_customer t_assistant t_updated
              (Context.conversation_id snap) response_data w' conv Hrow)
    as (conv'' & w'' & Hupd & Hdb & Hctx & _).
  exists w'', conv''. split; [exact Hupd|].
  split; [rewrite Hdb; apply lookup_insert_eq|].
  rewrite Hctx. cbn [ContextManager.ctx_get].
  destruct (updated_context_counters t_customer t_assistant
              (Conversation.context conv) response_data) as (-> & _).
  destruct Hsnap as (_ & _ & _ & _ & _ & _ & _ & _ & -> & _). reflexivity.
Qed.

Lemma keyed_empty : keyed (db empty_world).
Proof. intros k conv Hk. cbn in Hk. by rewrite lookup_empty in Hk. Qed.

Lemma get_or_create_snapshot_names_a_stored_row_witness :
  ∃ w'' conv'',
    ContextManager.update "t1" "t2" "t3" "uuid-1" (sample_turn "billing")
      (world_of (ContextManager.get_or_create "uuid-1" "2026-01-01T00:00:00+00:00"
                   (Some "") "CUST-001" "chat" empty_world))
    = Returned tt w''
    ∧ db w'' !! "uuid-1" = Some conv''
    ∧ ContextManager.ctx_get (Conversation.context conv'') ConvContext.turn_count 0
      = 0 + 1.
Proof.
  exact (proj2 (proj2 (get_or_create_snapshot_names_a_stored_row
                         "uuid-1" "2026-01-01T00:00:00+00:00" (Some "") "CUST-001" "chat"
                         empty_world "t1" "t2" "t3" (sample_turn "billing") keyed_empty
                         (sample_zero_context "uuid-1") _ eq_refl))).
Defined.

(** X3. An [update] always returns; it creates no row and removes none,
    leaves every row but the one named untouched, and on that row keeps
    the identifier, the customer, the channel and the creation time while
    stamping [updated_at]. *)
Theorem update_touches_only_the_named_row
    (t_customer t_assistant t_updated conversation_id : string)
    (response_data : ResponseData.t) (w : World) :
  ∃ w' : World,
    ContextManager.update t_customer t_assistant t_updated
      conversation_id response_data w = Returned tt w'
    ∧ dom (db w') = dom (db w)
    ∧ (∀ id, id ≠ conversation_id → db w' !! id = db w !! id)
    ∧ (∀ conv, db w !! conversation_id = Some conv →
       ∃ conv', db w' !! conversation_id = Some conv'
                ∧ Conversation.id conv' = Conversation.id conv
                ∧ Conversation.customer_id conv' = Conversation.customer_id conv
                ∧ Conversation.channel conv' = Conversation.channel conv
                ∧ Conversation.created_at conv' = Conversation.created_at conv
                ∧ Conversation.updated_at conv' = t_updated)
    ∧ background_tasks w' = background_tasks w
    ∧ _requests w' = _requests w.
Proof.
  unfold ContextManager.update. cbv [mbind M_bind get_db put_db emit].
  destruct (db w !! conversation_id) as [conv|] eqn:Hrow.
  - eexists. split; [reflexivity|]. cbn.
    split; [|split; [|split; [|split; reflexivity]]].
    + apply dom_insert_lookup_L. by exists conv.
    + intros id Hid. by rewrite lookup_insert_ne.
    + intros conv0 [= <-]. eexists. split; [apply lookup_insert_eq|]. cbn. repeat split.
  - eexists. split; [reflexivity|]. cbn.
    split; [reflexivity|]. split; [reflexivity|]. split; [discriminate|]. by split.
Qed.

Lemma py_tail_all {A} (n : nat) (l : list A) : (length l ≤ n)%nat → py_tail n l = l.
Proof.
  intros Hle. unfold py_tail.
  replace (length l - n)%nat with 0%nat by lia. apply drop_0.
Qed.

(** Trimming after every append keeps what trimming once at the end
    keeps. *)
Lemma py_tail_app_tail {A} (n : nat) (l x : list A) :
  py_tail n (py_tail n l ++ x) = py_tail n (l ++ x).
Proof.
  destruct (decide (length l ≤ n)%nat) as [Hle|Hgt].
  - rewrite (py_tail_all n l) by exact Hle. reflexivity.
  - unfold py_tail at 2. set (k := (length l - n)%nat).
    rewrite <- (take_drop k l) at 2. rewrite <- app_assoc.
    unfold py_tail. rewrite !length_app, length_drop, length_take.
    replace (length l - k + length x - n)%nat with (length x) by lia.
    replace (k `min` length l + (length l - k + length x) - n)%nat
      with (length (take k l) + length x)%nat
      by (rewrite length_take; lia).
    rewrite drop_app_add'; reflexivity.
Qed.

Lemma updated_context_sequences t1 t2 old rd :
  let c := ContextManager.updated_context t1 t2 old rd in
  ConvContext.history c
  = py_tail 20 (ContextManager.ctx_get old ConvContext.history [] ++ turn_entries t1 t2 rd)
  ∧ ConvContext.previous_intents c
    = py_tail 10 (ContextManager.ctx_get old ConvContext.previous_intents []
                  ++ [turn_intent rd])
  ∧ ConvContext.emotion_trend c
    = py_tail 10 (ContextManager.ctx_get old ConvContext.emotion_trend []
                  ++ [default "neutral" (ResponseData.dominant_emotion rd)]).
Proof.
  unfold ContextManager.updated_context, py_append, turn_entries, turn_intent. cbn.
  rewrite <- !app_assoc. repeat split.
Qed.

(** Running turns on a stored row never misses and leaves the context
    that the updates build one after the other. *)
Lemma run_turns_context cid turns :
  ∀ w conv,
    db w !! cid = Some conv →
    ∃ w' conv',
      run_turns cid turns w = Returned tt w'
      ∧ db w' !! cid = Some conv'
      ∧ Conversation.context conv' = context_after (Conversation.context conv) turns.
Proof.
  induction turns as [|t turns IH]; intros w conv Hhit.
  - exists w, conv. repeat split. exact Hhit.
  - destruct (update_hit (turn_t_customer t) (turn_t_assistant t) (turn_t_updated t)
                cid (turn_data t) w conv Hhit)
      as (conv1 & w1 & Hrun & Hdb & Hctx & _).
    assert (Hhit1 : db w1 !! cid = Some conv1) by (rewrite Hdb; apply lookup_insert_eq).
    destruct (IH w1 conv1 Hhit1) as (w' & conv' & Hrun' & Hdb' & Hfinal).
    exists w', conv'. split; [|split; [exact Hdb'|]].
    + cbn [run_turns]. erewrite bind_returned by exact Hrun. exact Hrun'.
    + rewrite Hfinal, Hctx. reflexivity.
Qed.

Lemma context_after_snoc old turns t :
  context_after old (turns ++ [t])
  = Some (ContextManager.updated_context (turn_t_customer t) (turn_t_assistant t)
            (context_after old turns) (turn_data t)).
Proof. unfold context_after. rewrite fold_left_app. reflexivity. Qed.

Lemma transcript_snoc turns t :
  transcript (turns ++ [t])
  = (transcript turns
     ++ turn_entries (turn_t_customer t) (turn_t_assistant t) (turn_data t))%list.
Proof.
  unfold transcript. rewrite map_app, concat_app. cbn. reflexivity.
Qed.

(** What the stored context holds after a non-empty sequence of turns. *)
Lemma context_after_turns old turns :
  turns ≠ [] →
  ∃ c, context_after old turns = Some c
       ∧ ConvContext.turn_count c
         = ContextManager.ctx_get old ConvContext.turn_count 0 + len turns
       ∧ ConvContext.history c
         = py_tail 20 (ContextManager.ctx_get old ConvContext.history [] ++ transcript turns)
       ∧ ConvContext.previous_intents c
         = py_tail 10 (ContextManager.ctx_get old ConvContext.previous_intents []
                       ++ map (fun t => turn_intent (turn_data t)) turns)
       ∧ ConvContext.emotion_trend c
         = py_tail 10 (ContextManager.ctx_get old ConvContext.emotion_trend []
                       ++ map (fun t => default "neutral"
                                          (ResponseData.dominant_emotion (turn_data t)))
                            turns).
Proof.
  induction turns as [|t turns IH] using rev_ind; [done|]. intros _.
  rewrite context_after_snoc. eexists. split; [reflexivity|].
  destruct (updated_context_counters (turn_t_customer t) (turn_t_assistant t)
              (context_after old turns) (turn_data t)) as (Hcount & _).
  destruct (updated_context_sequences (turn_t_customer t) (turn_t_assistant t)
              (context_after old turns) (turn_data t)) as (Hh & Hi & He).
  rewrite Hcount, Hh, Hi, He. clear Hcount Hh Hi He.
  rewrite transcript_snoc, !map_app. cbn [map].
  unfold len. rewrite length_app. cbn [length].
  destruct turns as [|t0 turns0].
  - cbn. rewrite ?app_nil_r. repeat split; lia.
  - destruct IH as (c & -> & Hc & Hh & Hi & He); [done|].
    cbn [ContextManager.ctx_get]. rewrite Hc, Hh, Hi, He.
    rewrite !py_tail_app_tail, !app_assoc. repeat split; unfold len; lia.
Qed.

(** X4. Every [update] on a stored conversation counts one turn: after a
    sequence of updates, none of which misses, [turn_count] is the count
    before plus the number of updates. *)
Theorem turn_count_counts_updates
    (conversation_id : string) (turns : list Turn) (w : World) (conv : Conversation.t) :
  db w !! conversation_id = Some conv →
  ∃ w' conv',
    run_turns conversation_id turns w = Returned tt w'
    ∧ db w' !! conversation_id = Some conv'
    ∧ ContextManager.ctx_get (Conversation.context conv') ConvContext.turn_count 0
      = ContextManager.ctx_get (Conversation.context conv) ConvContext.turn_count 0
        + len turns.
Proof.
  intros Hrow.
  destruct (run_turns_context conversation_id turns w conv Hrow)
    as (w' & conv' & Hrun & Hrow' & Hctx).
  exists w', conv'. split; [exact Hrun|]. split; [exact Hrow'|].
  rewrite Hctx. destruct turns as [|t turns].
  - unfold context_after, len. cbn [fold_left length]. lia.
  - destruct (context_after_turns (Conversation.context conv) (t :: turns))
      as (c & -> & Hc & _); [done|]. exact Hc.
Qed.

Lemma turn_count_counts_updates_witness :
  ∃ w' conv',
    run_turns "conv-1" sample_turns sample_world = Returned tt w'
    ∧ db w' !! "conv-1" = Some conv'
    ∧ ContextManager.ctx_get (Conversation.context conv') ConvContext.turn_count 0
      = 0 + 4.
Proof.
  exact (turn_count_counts_updates "conv-1" sample_turns sample_world
           sample_conversation eq_refl).
Defined.

(** X5. Trimming at every update loses nothing that trimming once would
    keep: after a non-empty sequence of updates the stored history is the
    last 20 entries of the old history followed by the whole transcript
    of the turns, and the intent and emotion trends are the last 10
    labels of the old trends followed by the turns' labels. *)
Theorem stored_sequences_are_tails_of_the_transcript
    (conversation_id : string) (turns : list Turn) (w : World) (conv : Conversation.t) :
  db w !! conversation_id = Some conv →
  turns ≠ [] →
  let old := Conversation.context conv in
  ∃ w' conv' c',
    run_turns conversation_id turns w = Returned tt w'
    ∧ db w' !! conversation_id = Some conv'
    ∧ Conversation.context conv' = Some c'
    ∧ ConvContext.history c'
      = py_tail 20 (ContextManager.ctx_get old ConvContext.history [] ++ transcript turns)
    ∧ ConvContext.previous_intents c'
      = py_tail 10 (ContextManager.ctx_get old ConvContext.previous_intents []
                    ++ map (fun t => turn_intent (turn_data t)) turns)
    ∧ ConvContext.emotion_trend c'
      = py_tail 10 (ContextManager.ctx_get old ConvContext.emotion_trend []
                    ++ map (fun t => default "neutral"
                                       (ResponseData.dominant_emotion (turn_data t)))
                         turns).
Proof.
  intros Hrow Hturns old.
  destruct (run_turns_context conversation_id turns w conv Hrow)
    as (w' & conv' & Hrun & Hrow' & Hctx).
  destruct (context_after_turns old turns Hturns) as (c & Hc & _ & Hh & Hi & He).
  exists w', conv', c. split; [exact Hrun|]. split; [exact Hrow'|].
  split; [by rewrite Hctx|]. by repeat split.
Qed.

Lemma stored_sequences_are_tails_of_the_transcript_witness :
  ∃ w' conv' c',
    run_turns "conv-1" sample_turns sample_world = Returned tt w'
    ∧ db w' !! "conv-1" = Some conv'
    ∧ Conversation.context conv' = Some c'
    ∧ ConvContext.history c' = py_tail 20 ([] ++ transcript sample_turns)
    ∧ ConvContext.previous_intents c'
      = py_tail 10 ([] ++ ["unknown"; "unclear"; "billing"; "unresolved"]).
Proof.
  destruct (stored_sequences_are_tails_of_the_transcript "conv-1" sample_turns
              sample_world sample_conversation eq_refl)
    as (w' & conv' & c' & H1 & H2 & H3 & H4 & H5 & _); [discriminate|].
  exists w', conv', c'.
  split; [exact H1|]. split; [exact H2|]. split; [exact H3|].
  split; [exact H4|exact H5].
Defined.

(** X6. A second [get_or_create] for a non-empty identifier is a read:
    whatever customer and channel it is given, it returns the snapshot
    the first call returned and leaves the table as the first call left
    it. *)
Theorem get_or_create_twice_reads_the_same_snapshot
    (uuid1 now1 uuid2 now2 conversation_id : string)
    (customer1 channel1 customer2 channel2 : string) (w : World) :
  truthy conversation_id = true →
  ∃ snap w1 w2,
    ContextManager.get_or_create uuid1 now1 (Some conversation_id) customer1 channel1 w
    = Returned snap w1
    ∧ ContextManager.get_or_create uuid2 now2 (Some conversation_id) customer2 channel2 w1
      = Returned snap w2
    ∧ db w2 = db w1.
Proof.
  intros Hcid. unfold ContextManager.get_or_create.
  cbv [mbind M_bind get_db put_db emit mret M_ret raise]. rewrite Hcid.
  destruct (db w !! conversation_id) as [conv|] eqn:Hrow.
  - eexists; eexists; eexists. split; [reflexivity|]. cbn. rewrite Hrow.
    split; reflexivity.
  - eexists; eexists; eexists. split; [reflexivity|]. cbn. rewrite lookup_insert_eq.
    split; reflexivity.
Qed.

Lemma get_or_create_twice_reads_the_same_snapshot_witness :
  ∃ snap w1 w2,
    ContextManager.get_or_create "uuid-1" "2026-01-01T00:00:00+00:00"
      (Some "conv-1") "CUST-001" "chat" empty_world = Returned snap w1
    ∧ ContextManager.get_or_create "uuid-2" "2026-01-02T00:00:00+00:00"
        (Some "conv-1") "CUST-002" "email" w1 = Returned snap w2
    ∧ db w2 = db w1.
Proof.
  exact (get_or_create_twice_reads_the_same_snapshot
           "uuid-1" "2026-01-01T00:00:00+00:00" "uuid-2" "2026-01-02T00:00:00+00:00"
           "conv-1" "CUST-001" "chat" "CUST-002" "email" empty_world eq_refl).
Defined.

(** ** The rate limiter, beyond admission *)

Lemma client_log_insert_eq w table ip log :
  client_log (with_requests w (<[ip := log]> table)) ip = log.
Proof. unfold client_log. cbn. by rewrite lookup_insert_eq. Qed.

Lemma client_log_insert_ne w table ip other log :
  other ≠ ip →
  client_log (with_requests w (<[ip := log]> table)) other = default [] (table !! other).
Proof. intros Hne. unfold client_log. cbn. by rewrite lookup_insert_ne. Qed.

(** X7. Clients are limited one by one: whatever another client has on
    record, a request is rejected or handed downstream as its own
    client's record alone decides, and the other client's record is left
    as it was. *)
Theorem rate_limiter_isolates_clients
    (self : RateLimitMiddleware.t) (now : float) (request : HTTPRequest.t)
    (call_next : HTTPRequest.t → M HTTPResponse.t)
    (other : string) (other_log : list float) (w : World) :
  other ≠ client_ip request →
  let recent := in_trailing_window self now (client_log w (client_ip request)) in
  let w2 := with_requests w (<[other := other_log]> (_requests w)) in
  ((RateLimitMiddleware.max_requests self ≤ len recent)%Z →
   ∃ w', RateLimitMiddleware.dispatch self now request call_next w2
         = Returned RateLimitMiddleware.rate_limited w'
         ∧ client_log w' other = other_log
         ∧ client_log w' (client_ip request) = recent)
  ∧ ((len recent < RateLimitMiddleware.max_requests self)%Z →
     ∃ w', RateLimitMiddleware.dispatch self now request call_next w2
           = call_next request w'
           ∧ client_log w' other = other_log
           ∧ client_log w' (client_ip request) = (recent ++ [now])%list).
Proof.
  intros Hne recent w2.
  assert (Hsame : client_log w2 (client_ip request) = client_log w (client_ip request)).
  { unfold w2. rewrite client_log_insert_ne by congruence. reflexivity. }
  split; intros Hcmp.
  - eexists. split.
    + apply dispatch_rejects. rewrite Hsame. exact Hcmp.
    + rewrite Hsame. fold recent. split.
      * unfold client_log. cbn. rewrite lookup_insert_ne by congruence.
        by rewrite lookup_insert_eq.
      * unfold client_log. cbn. by rewrite lookup_insert_eq.
  - eexists. split.
    + apply dispatch_admits. rewrite Hsame. exact Hcmp.
    + rewrite Hsame. fold recent. split.
      * unfold client_log. cbn. rewrite lookup_insert_ne by congruence.
        by rewrite lookup_insert_eq.
      * unfold client_log. cbn. by rewrite lookup_insert_eq.
Qed.

Lemma rate_limiter_isolates_clients_witness :
  ∃ w', RateLimitMiddleware.dispatch sample_limits 130%float other_http_request sample_app
          (with_requests empty_world (<["10.0.0.7" := sample_burst]> (_requests empty_world)))
        = sample_app other_http_request w'
        ∧ client_log w' "10.0.0.7" = sample_burst
        ∧ client_log w' (client_ip other_http_request) = ([] ++ [130%float])%list.
Proof.
  apply (proj2 (rate_limiter_isolates_clients sample_limits 130%float other_http_request
                  sample_app "10.0.0.7" sample_burst empty_world ltac:(discriminate))).
  reflexivity.
Defined.

Lemma dispatch_within_ceiling self now request call_next w :
  downstream call_next →
  within_ceiling self w →
  ∃ response w',
    RateLimitMiddleware.dispatch self now request call_next w = Returned response w'
    ∧ within_ceiling self w'.
Proof.
  intros Hdown Hw.
  pose proof (Hw (client_ip request)) as Hip.
  remember (client_log w (client_ip request)) as log eqn:Hlog.
  remember (in_trailing_window self now log) as recent eqn:Hrec.
  rewrite <- ?Hlog in Hip.
  assert (Hrecent : (len recent ≤ len log)%Z).
  { subst recent. unfold len, in_trailing_window.
    pose proof (List.filter_length_le
                  (elapsed_below (RateLimitMiddleware.window_seconds self) now) log). lia. }
  destruct (Z.le_gt_cases (RateLimitMiddleware.max_requests self) (len recent))
    as [Hfull|Hroom].
  - rewrite dispatch_rejects by (rewrite <- Hlog, <- Hrec; exact Hfull).
    eexists; eexists. split; [reflexivity|].
    rewrite <- Hlog, <- Hrec.
    intros ip'. destruct (decide (ip' = client_ip request)) as [->|Hne].
    + unfold client_log, logged, with_requests. cbn [_requests].
      rewrite lookup_insert_eq. cbn [default id]. lia.
    + unfold client_log, logged, with_requests. cbn [_requests].
      rewrite lookup_insert_ne by congruence. apply Hw.
  - rewrite dispatch_admits by (rewrite <- Hlog, <- Hrec; exact Hroom).
    rewrite <- Hlog, <- Hrec.
    match goal with
    | |- context [call_next request ?w1] =>
        destruct (Hdown request w1) as (r & w' & Hcall & _ & Htable)
    end.
    exists r, w'. split; [exact Hcall|].
    intros ip'. unfold client_log. rewrite Htable.
    unfold with_requests. cbn [_requests].
    destruct (decide (ip' = client_ip request)) as [->|Hne].
    + rewrite lookup_insert_eq. cbn [default id].
      unfold len in *. rewrite length_app. cbn [length]. lia.
    + rewrite lookup_insert_ne by congruence. apply Hw.
Qed.

(** X8. The limiter's memory is bounded per client: served through a
    downstream that leaves the table alone, no sequence of requests,
    from whatever clients and at whatever times, leaves any client with
    more timestamps on record than the ceiling; every request is
    answered. *)
Theorem rate_limiter_log_stays_within_ceiling
    (self : RateLimitMiddleware.t) (call_next : HTTPRequest.t → M HTTPResponse.t)
    (arrivals : list (float * HTTPRequest.t)) (w : World) :
  downstream call_next →
  within_ceiling self w →
  ∃ responses w',
    serve self call_next arrivals w = Returned responses w'
    ∧ length responses = length arrivals
    ∧ within_ceiling self w'.
Proof.
  intros Hdown. revert w.
  induction arrivals as [|[now request] arrivals IH]; intros w Hw.
  - exists [], w. by repeat split.
  - destruct (dispatch_within_ceiling self now request call_next w Hdown Hw)
      as (r & w1 & Hr & Hw1).
    destruct (IH w1 Hw1) as (rs & w' & Hrs & Hlen & Hw').
    exists (r :: rs), w'. split; [|split; [cbn; by rewrite Hlen|exact Hw']].
    cbn [serve]. erewrite bind_returned by exact Hr. cbv beta.
    erewrite bind_returned by exact Hrs. reflexivity.
Qed.

Lemma within_ceiling_empty self : within_ceiling self empty_world.
Proof.
  intros ip. unfold client_log, len. cbn [_requests empty_world].
  rewrite lookup_empty. cbn [default id length]. lia.
Qed.

Lemma rate_limiter_log_stays_within_ceiling_witness :
  ∃ responses w',
    serve sample_limits sample_app sample_arrivals empty_world = Returned responses w'
    ∧ length responses = length sample_arrivals
    ∧ within_ceiling sample_limits w'.
Proof.
  exact (rate_limiter_log_stays_within_ceiling sample_limits sample_app sample_arrivals
           empty_world sample_app_downstream (within_ceiling_empty sample_limits)).
Defined.

(** ** The pipeline, step by step *)

Lemma bind_inv {A B} (m : M A) (k : A → M B) (w : World) (b : B) (w' : World) :
  mbind k m w = Returned b w' →
  ∃ a w1, m w = Returned a w1 ∧ k a w1 = Returned b w'.
Proof.
  cbv [mbind M_bind]. destruct (m w) as [a w1|e w1]; [|discriminate]. eauto.
Qed.

(** [aggregate_outputs] returns in the world it was called in, with one
    more log entry. *)
Lemma aggregate_outputs_world `{PyFormat} cfg now interaction_id customer_id
    channel language customer_message context ocs kfo eia pir fan w response w' :
  aggregate_outputs cfg now interaction_id customer_id channel language
    customer_message context ocs kfo eia pir fan w = Returned response w' →
  db w' = db w ∧ background_tasks w' = background_tasks w ∧ _requests w' = _requests w
  ∧ OrchestratorResponse.language response = language
  ∧ OrchestratorResponse.response_text response
    = match ocs with Some o => OCSOutput.response_text o | None => "" end
  ∧ OrchestratorResponse.intent response
    = match ocs with Some o => OCSOutput.intent o | None => "unknown" end
  ∧ OrchestratorResponse.dominant_emotion response
    = match eia with Some e => EIAOutput.dominant_emotion e | None => "neutral" end
  ∧ OrchestratorResponse.proactive_alerts response
    = match pir with Some p => PIROutput.proactive_alerts p | None => [] end
  ∧ AgentLogs.pir (OrchestratorResponse.agent_logs response)
    = match pir with
      | Some p => PIROutput.model_dump p
      | None => JDict [("status", JStr "skipped")]
      end
  ∧ OrchestratorResponse.escalation_flag response
    = fst (_check_escalation cfg ocs eia pir context)
  ∧ OrchestratorResponse.escalation_reason response
    = snd (_check_escalation cfg ocs eia pir context).
Proof.
  unfold aggregate_outputs.
  destruct (_check_escalation cfg ocs eia pir context) as [flag why].
  cbv [mbind M_bind emit mret M_ret]. intros [= <- <-]. cbn.
  destruct ocs; repeat split.
Qed.

(** The tail of [run_pipeline] after the response is assembled: the
    update, the escalation log entry, the scheduling of the feedback
    task and the final log entry. *)
Lemma pipeline_tail_inv (response : OrchestratorResponse.t) (upd : M unit)
    (interaction_id : string) (fan_input : FANInput.t) (w6 : World)
    (result : OrchestratorResponse.t) (w' : World) :
  (upd;;
   (if OrchestratorResponse.escalation_flag response
    then emit "info" "escalation_triggered"
           [("interaction_id", JStr interaction_id);
            ("reason", JOpt JStr (OrchestratorResponse.escalation_reason response))]
    else mret tt);;
   add_task fan_input;;
   emit "info" "pipeline_completed"
     [("interaction_id", JStr interaction_id);
      ("escalation", JBool (OrchestratorResponse.escalation_flag response))];;
   mret response) w6 = Returned result w' →
  result = response
  ∧ ∃ w7, upd w6 = Returned tt w7
          ∧ db w' = db w7
          ∧ background_tasks w' = (background_tasks w7 ++ [fan_input])%list.
Proof.
  intros Hrun.
  apply bind_inv in Hrun as ([] & w7 & Hupd & Hrun).
  apply bind_inv in Hrun as ([] & w8 & Hesc & Hrun).
  apply bind_inv in Hrun as ([] & w9 & Htask & Hrun).
  apply bind_inv in Hrun as ([] & w10 & Hlog & Hrun).
  injection Hrun as <- <-. split; [reflexivity|]. exists w7. split; [exact Hupd|].
  injection Hlog as <-. injection Htask as <-.
  destruct (OrchestratorResponse.escalation_flag response); injection Hesc as <-;
    split; reflexivity.
Qed.

(** X9. Without an account identifier (none, or an empty one) the anomaly
    scanner is not run at all: the pipeline does the same with any
    scanner in its place, and a returned response carries no alert and
    the "skipped" marker for that role. *)
Theorem pipeline_skips_the_scan_without_account `{PyFormat}
    (cfg : EscalationConfig.t)
    (OCS : BaseAgent OCSInput.t OCSOutput.t) (KFO : BaseAgent KFOInput.t KFOOutput.t)
    (EIA : BaseAgent EIAInput.t EIAOutput.t) (PIR PIR' : BaseAgent PIRInput.t PIROutput.t)
    (draws : Draws) (request : CustomerRequest.t) (w : World) :
  CustomerRequest.account_id request = None
  ∨ CustomerRequest.account_id request = Some "" →
  run_pipeline cfg OCS KFO EIA PIR draws request w
  = run_pipeline cfg OCS KFO EIA PIR' draws request w
  ∧ ∀ response w',
      run_pipeline cfg OCS KFO EIA PIR draws request w = Returned response w' →
      OrchestratorResponse.proactive_alerts response = []
      ∧ AgentLogs.pir (OrchestratorResponse.agent_logs response)
        = JDict [("status", JStr "skipped")].
Proof.
  intros Hacc.
  assert (Hskip : ∀ P : BaseAgent PIRInput.t PIROutput.t,
    match CustomerRequest.account_id request with
    | Some account_id =>
        if truthy account_id
        then safe_process P
               {| PIRInput.interaction_id := uuid_interaction draws;
                  PIRInput.account_id := account_id;
                  PIRInput.account_data :=
                    default (JDict []) (CustomerRequest.account_data request);
                  PIRInput.usage_logs := default [] (CustomerRequest.usage_logs request) |}
        else mret None
    | None => mret None
    end = mret None).
  { intros P. destruct Hacc as [-> | ->]; reflexivity. }
  unfold run_pipeline. cbv zeta. rewrite !Hskip. split; [reflexivity|].
  intros response w' Hrun.
  apply bind_inv in Hrun as ([] & w0 & _ & Hrun).
  apply bind_inv in Hrun as (context & w1 & _ & Hrun).
  apply bind_inv in Hrun as (ocs & w2 & _ & Hrun).
  apply bind_inv in Hrun as (kfo & w3 & _ & Hrun).
  apply bind_inv in Hrun as (eia & w4 & _ & Hrun).
  apply bind_inv in Hrun as (pir & w5 & Hpir & Hrun).
  injection Hpir as <- <-.
  apply bind_inv in Hrun as (resp & w6 & Hagg & Hrun).
  apply pipeline_tail_inv in Hrun as (-> & _).
  apply aggregate_outputs_world in Hagg
    as (_ & _ & _ & _ & _ & _ & _ & Halerts & Hlog & _).
  by split.
Qed.

Lemma pipeline_skips_the_scan_without_account_witness :
  run_pipeline (fmt := sample_format) EscalationConfig.empty
    (failing_agent "OCS" provider_down) (failing_agent "KFO" provider_down)
    (failing_agent "EIA" provider_down) alarming_agent
    sample_draws sample_followup empty_world
  = run_pipeline (fmt := sample_format) EscalationConfig.empty
      (failing_agent "OCS" provider_down) (failing_agent "KFO" provider_down)
      (failing_agent "EIA" provider_down) (failing_agent "PIR" provider_down)
      sample_draws sample_followup empty_world.
Proof.
  apply (proj1 (@pipeline_skips_the_scan_without_account sample_format
                  EscalationConfig.empty
                  (failing_agent "OCS" provider_down) (failing_agent "KFO" provider_down)
                  (failing_agent "EIA" provider_down) alarming_agent
                  (failing_agent "PIR" provider_down)
                  sample_draws sample_followup empty_world (or_introl eq_refl))).
Defined.

Lemma safe_process_store {In Out} `{BaseModel In}
    (self : BaseAgent In Out) (x : In) (w : World) o w' :
  leaves_store self →
  safe_process self x w = Returned o w' →
  db w' = db w ∧ background_tasks w' = background_tasks w.
Proof.
  intros Hstore. rewrite safe_process_cases. cbv zeta.
  match goal with
  | |- context [process self x ?w0] =>
      destruct (Hstore x w0) as (Hdb & Htasks);
      destruct (process self x w0) as [r w1|e w1]
  end.
  - intros [= <- <-]. cbn in *. by split.
  - destruct (isinstance_Exception e); [|discriminate].
    intros [= <- <-]. cbn in *. by split.
Qed.

(** What a returned run of the pipeline has done, with agents that leave
    the store alone: the snapshot it loaded, the outcomes it gathered,
    the response it assembled from them and the row it wrote. *)
Lemma run_pipeline_inv `{PyFormat}
    (cfg : EscalationConfig.t)
    (OCS : BaseAgent OCSInput.t OCSOutput.t) (KFO : BaseAgent KFOInput.t KFOOutput.t)
    (EIA : BaseAgent EIAInput.t EIAOutput.t) (PIR : BaseAgent PIRInput.t PIROutput.t)
    (draws : Draws) (request : CustomerRequest.t) (w : World)
    (response : OrchestratorResponse.t) (w' : World) :
  keyed (db w) →
  leaves_store OCS → leaves_store KFO → leaves_store EIA → leaves_store PIR →
  run_pipeline cfg OCS KFO EIA PIR draws request w = Returned response w' →
  ∃ (snap : Context.t) (conv' : Conversation.t) (c' : ConvContext.t) (task : FANInput.t)
    (ocs : option OCSOutput.t) (eia : option EIAOutput.t) (pir : option PIROutput.t),
    db w' !! Context.conversation_id snap = Some conv'
    ∧ (∀ r, ocs = Some r → ∃ x w0 w1, process OCS x w0 = Returned r w1)
    ∧ (∀ r, eia = Some r → ∃ x w0 w1, process EIA x w0 = Returned r w1)
    ∧ (∀ r, pir = Some r → ∃ x w0 w1, process PIR x w0 = Returned r w1)
    ∧ OrchestratorResponse.intent response
      = match ocs with Some o => OCSOutput.intent o | None => "unknown" end
    ∧ OrchestratorResponse.escalation_flag response
      = fst (_check_escalation cfg ocs eia pir snap)
    ∧ OrchestratorResponse.escalation_reason response
      = snd (_check_escalation cfg ocs eia pir snap)
    ∧ (∀ cid conv, CustomerRequest.conversation_id request = Some cid →
                   truthy cid = true → db w !! cid = Some conv →
                   snapshot_matches snap conv)
    ∧ (∀ cid, CustomerRequest.conversation_id request = Some cid →
              truthy cid = true → Context.conversation_id snap = cid)
    ∧ Conversation.is_escalated conv' = OrchestratorResponse.escalation_flag response
    ∧ Conversation.language conv'
      = SupportedLanguage_value (OrchestratorResponse.language response)
    ∧ Conversation.context conv' = Some c'
    ∧ ConvContext.turn_count c' = Context.turn_count snap + 1
    ∧ ConvContext.unresolved_turns c'
      = (if bool_decide (OrchestratorResponse.intent response
                         ∈ ["unknown"; "unclear"; "unresolved"])
         then Context.unresolved_turns snap + 1 else 0)
    ∧ [ {| HistoryEntry.role := "customer";
           HistoryEntry.text := CustomerRequest.customer_message request;
           HistoryEntry.timestamp := now_customer draws |};
        {| HistoryEntry.role := "assistant";
           HistoryEntry.text := OrchestratorResponse.response_text response;
           HistoryEntry.timestamp := now_assistant draws |} ]
        `suffix_of` ConvContext.history c'
    ∧ [OrchestratorResponse.intent response] `suffix_of` ConvContext.previous_intents c'
    ∧ [OrchestratorResponse.dominant_emotion response]
        `suffix_of` ConvContext.emotion_trend c'
    ∧ background_tasks w' = (background_tasks w ++ [task])%list
    ∧ FANInput.interaction_id task = uuid_interaction draws.
Proof.
  intros Hkeyed Hocs Hkfo Heia Hpir Hrun.
  unfold run_pipeline in Hrun. cbv zeta in Hrun.
  apply bind_inv in Hrun as ([] & w0 & Hw0 & Hrun). injection Hw0 as <-.
  apply bind_inv in Hrun as (snap & w1 & Hget & Hrun).
  apply bind_inv in Hrun as (ocs & w2 & Hrun2 & Hrun).
  assert (Hval2 : ∀ r, ocs = Some r → ∃ x w0 w1, process OCS x w0 = Returned r w1).
  { intros r ->. rewrite safe_process_cases in Hrun2. cbv zeta in Hrun2.
    match type of Hrun2 with
    | context [process OCS ?x ?w0] =>
        destruct (process OCS x w0) as [r0 w1'|e0 w1'] eqn:Hp
    end.
    - injection Hrun2 as -> _. eauto.
    - destruct (isinstance_Exception e0); discriminate. }
  apply bind_inv in Hrun as (kfo & w3 & Hrun3 & Hrun).
  apply bind_inv in Hrun as (eia & w4 & Hrun4 & Hrun).
  assert (Hval4 : ∀ r, eia = Some r → ∃ x w0 w1, process EIA x w0 = Returned r w1).
  { intros r ->. rewrite safe_process_cases in Hrun4. cbv zeta in Hrun4.
    match type of Hrun4 with
    | context [process EIA ?x ?w0] =>
        destruct (process EIA x w0) as [r0 w1'|e0 w1'] eqn:Hp
    end.
    - injection Hrun4 as -> _. eauto.
    - destruct (isinstance_Exception e0); discriminate. }
  apply bind_inv in Hrun as (pir & w5 & Hrun5 & Hrun).
  assert (Hval5 : ∀ r, pir = Some r → ∃ x w0 w1, process PIR x w0 = Returned r w1).
  { intros r ->.
    destruct (CustomerRequest.account_id request) as [a|];
      [destruct (truthy a)|]; try discriminate.
    rewrite safe_process_cases in Hrun5. cbv zeta in Hrun5.
    match type of Hrun5 with
    | context [process PIR ?x ?w0] =>
        destruct (process PIR x w0) as [r0 w1'|e0 w1'] eqn:Hp
    end.
    - injection Hrun5 as -> _. eauto.
    - destruct (isinstance_Exception e0); discriminate. }
  apply bind_inv in Hrun as (resp & w6 & Hagg & Hrun).
  apply pipeline_tail_inv in Hrun as (-> & w7 & Hupd & Hdb' & Htasks').
  pose proof Hget as Hget0.
  eapply get_or_create_names_stored_row in Hget0
    as (conv & Hrow & Hsnap & Hkeyed1 & Htasks1); [|exact Hkeyed].
  cbn [background_tasks] in Htasks1.
  apply (safe_process_store OCS) in Hrun2 as (Hdb2 & Htasks2); [|exact Hocs].
  apply (safe_process_store KFO) in Hrun3 as (Hdb3 & Htasks3); [|exact Hkfo].
  apply (safe_process_store EIA) in Hrun4 as (Hdb4 & Htasks4); [|exact Heia].
  assert (Hstore5 : db w5 = db w4 ∧ background_tasks w5 = background_tasks w4).
  { destruct (CustomerRequest.account_id request) as [a|];
      [destruct (truthy a)|].
    - by apply (safe_process_store PIR) in Hrun5.
    - injection Hrun5 as <- <-. by split.
    - injection Hrun5 as <- <-. by split. }
  destruct Hstore5 as (Hdb5 & Htasks5).
  apply aggregate_outputs_world in Hagg
    as (Hdb6 & Htasks6 & _ & _ & _ & Hintent & _ & _ & _ & Hflag & Hwhy).
  assert (Hrow6 : db w6 !! Context.conversation_id snap = Some conv)
    by (rewrite Hdb6, Hdb5, Hdb4, Hdb3, Hdb2; exact Hrow).
  match type of Hupd with
  | ContextManager.update ?t1 ?t2 ?t3 ?cid ?rd _ = _ =>
      destruct (update_hit t1 t2 t3 cid rd w6 conv Hrow6)
        as (conv' & w7' & Hupd' & Hdb7 & Hctx & _ & _ & _ & Hlang & Hesc & Htasks7 & _);
      destruct (updated_context_counters t1 t2 (Conversation.context conv) rd)
        as (Hcount & Hunres);
      destruct (updated_context_sequences t1 t2 (Conversation.context conv) rd)
        as (Hh & Hi & He)
  end.
  rewrite Hupd in Hupd'. injection Hupd' as <-.
  pose proof Hsnap as (_ & _ & _ & _ & _ & _ & _ & _ & Sturn & Sunres).
  assert (Hgiven : ∀ cid, CustomerRequest.conversation_id request = Some cid →
            truthy cid = true →
            Context.conversation_id snap = cid
            ∧ ∀ c0, db w !! cid = Some c0 → snapshot_matches snap c0).
  { intros cid Hcid Htruthy.
    destruct (get_or_create_snapshot (uuid_conversation draws) (now_created draws) cid
                (CustomerRequest.customer_id request)
                (ChannelType_value (CustomerRequest.channel request))
                (logged w "info" "pipeline_started"
                   [("interaction_id", JStr (uuid_interaction draws));
                    ("customer_id", JStr (CustomerRequest.customer_id request));
                    ("channel", JStr (ChannelType_value (CustomerRequest.channel request)))])
                Htruthy)
      as (snap2 & w1' & conv1 & Hget2 & Hrow2 & Hsnap2 & Hsame & _).
    rewrite Hcid in Hget. unfold logged in Hget2. unfold py_append in Hget.
    rewrite Hget in Hget2. injection Hget2 as <- <-.
    split.
    - destruct Hsnap2 as (-> & _). by apply Hkeyed1.
    - intros c0 Hc0. by rewrite <- (Hsame c0 Hc0). }
  eexists snap, conv', _, _, ocs, eia, pir.
  split; [rewrite Hdb', Hdb7; apply lookup_insert_eq|].
  split; [exact Hval2|]. split; [exact Hval4|]. split; [exact Hval5|].
  split; [exact Hintent|]. split; [exact Hflag|]. split; [exact Hwhy|].
  split; [intros cid c0 Hcid Htruthy Hc0; by apply (Hgiven cid Hcid Htruthy)|].
  split; [intros cid Hcid Htruthy; by apply (Hgiven cid Hcid Htruthy)|].
  split; [exact Hesc|]. split; [exact Hlang|]. split; [exact Hctx|].
  split; [rewrite Hcount, Sturn; reflexivity|].
  split; [rewrite Hunres, Sunres; reflexivity|].
  split; [rewrite Hh; by apply py_tail_keeps_new; cbn; lia|].
  split; [rewrite Hi; by apply py_tail_keeps_new; cbn; lia|].
  split; [rewrite He; by apply py_tail_keeps_new; cbn; lia|].
  split.
  { rewrite Htasks', Htasks7, Htasks6, Htasks5, Htasks4, Htasks3, Htasks2, Htasks1.
    reflexivity. }
  reflexivity.
Qed.


Lemma failing_agent_leaves_store {In Out} (name : string) (exc : PyExc) :
  leaves_store (@failing_agent In Out name exc).
Proof. intros x w. by split. Qed.


(** The pipeline returns once the conversation context has been loaded,
    with agents that raise only [Exception]s. *)
Lemma run_pipeline_total `{PyFormat} cfg
    (OCS : BaseAgent OCSInput.t OCSOutput.t) (KFO : BaseAgent KFOInput.t KFOOutput.t)
    (EIA : BaseAgent EIAInput.t EIAOutput.t) (PIR : BaseAgent PIRInput.t PIROutput.t)
    (draws : Draws) (request : CustomerRequest.t) (w : World) snap w1 :
  raises_only_Exception OCS → raises_only_Exception KFO →
  raises_only_Exception EIA → raises_only_Exception PIR →
  ContextManager.get_or_create (uuid_conversation draws) (now_created draws)
    (CustomerRequest.conversation_id request) (CustomerRequest.customer_id request)
    (ChannelType_value (CustomerRequest.channel request))
    (logged w "info" "pipeline_started"
       [("interaction_id", JStr (uuid_interaction draws));
        ("customer_id", JStr (CustomerRequest.customer_id request));
        ("channel", JStr (ChannelType_value (CustomerRequest.channel request)))])
  = Returned snap w1 →
  ∃ response w', run_pipeline cfg OCS KFO EIA PIR draws request w = Returned response w'.
Proof.
  intros Hocs Hkfo Heia Hpir Hctx.
  unfold run_pipeline. cbv zeta.
  step_pure. step_with Hctx.
  match goal with
  | |- context [safe_process OCS ?x] =>
      destruct (safe_process_outcome OCS x w1 Hocs) as (ocs & w2 & Hrun2 & _)
  end.
  step_with Hrun2.
  match goal with
  | |- context [safe_process KFO ?x] =>
      destruct (safe_process_outcome KFO x w2 Hkfo) as (kfo & w3 & Hrun3 & _)
  end.
  step_with Hrun3.
  match goal with
  | |- context [safe_process EIA ?x] =>
      destruct (safe_process_outcome EIA x w3 Heia) as (eia & w4 & Hrun4 & _)
  end.
  step_with Hrun4.
  assert (Hstep4 : ∃ pir w5,
    match CustomerRequest.account_id request with
    | Some account_id =>
        if truthy account_id
        then safe_process PIR
               {| PIRInput.interaction_id := uuid_interaction draws;
                  PIRInput.account_id := account_id;
                  PIRInput.account_data :=
                    default (JDict []) (CustomerRequest.account_data request);
                  PIRInput.usage_logs := default [] (CustomerRequest.usage_logs request) |}
        else mret None
    | None => mret None
    end w4 = Returned pir w5).
  { destruct (CustomerRequest.account_id request) as [account_id|];
      [destruct (truthy account_id)|].
    - match goal with
      | |- context [safe_process PIR ?x] =>
          destruct (safe_process_outcome PIR x w4 Hpir) as (pir & w5 & Hrun5 & _)
      end.
      by exists pir, w5.
    - by exists None, w4.
    - by exists None, w4. }
  destruct Hstep4 as (pir & w5 & Hrun5).
  step_with Hrun5.
  match goal with
  | |- context [aggregate_outputs ?c ?n ?i ?cu ?ch ?l ?m ?ctx ?o ?k ?e ?p ?f] =>
      destruct (aggregate_outputs_fields c n i cu ch l m ctx o k e p f w5)
        as (response & w6 & Hagg & _)
  end.
  step_with Hagg.
  match goal with
  | |- context [ContextManager.update ?a ?b ?c ?d ?e] =>
      destruct (update_returns a b c d e w6) as (w7 & Hupd)
  end.
  step_with Hupd.
  destruct (OrchestratorResponse.escalation_flag response);
    step_pure; step_pure; step_pure; eexists; eexists; reflexivity.
Qed.

(** X11. With every provider down, a turn on a stored conversation still
    returns; it resolves to intent "unknown", it escalates exactly when
    the unresolved turns already on record reach the maximum (3 turns
    unless configured), and it leaves one more unresolved turn on
    record. *)
Theorem turns_with_every_provider_down `{PyFormat}
    (cfg : EscalationConfig.t)
    (OCS : BaseAgent OCSInput.t OCSOutput.t) (KFO : BaseAgent KFOInput.t KFOOutput.t)
    (EIA : BaseAgent EIAInput.t EIAOutput.t) (PIR : BaseAgent PIRInput.t PIROutput.t)
    (draws : Draws) (request : CustomerRequest.t) (w : World)
    (cid : string) (conv : Conversation.t) :
  always_fails OCS → always_fails KFO → always_fails EIA → always_fails PIR →
  leaves_store OCS → leaves_store KFO → leaves_store EIA → leaves_store PIR →
  keyed (db w) →
  CustomerRequest.conversation_id request = Some cid →
  truthy cid = true →
  db w !! cid = Some conv →
  let before :=
    ContextManager.ctx_get (Conversation.context conv) ConvContext.unresolved_turns 0 in
  ∃ response w' conv',
    run_pipeline cfg OCS KFO EIA PIR draws request w = Returned response w'
    ∧ OrchestratorResponse.intent response = "unknown"
    ∧ OrchestratorResponse.escalation_flag response = (policy_maximum cfg <=? before)%Z
    ∧ db w' !! cid = Some conv'
    ∧ Conversation.is_escalated conv' = (policy_maximum cfg <=? before)%Z
    ∧ ContextManager.ctx_get (Conversation.context conv') ConvContext.unresolved_turns 0
      = before + 1.
Proof.
  intros Focs Fkfo Feia Fpir Socs Skfo Seia Spir Hkeyed Hcid Htruthy Hrow before.
  destruct (get_or_create_snapshot (uuid_conversation draws) (now_created draws) cid
              (CustomerRequest.customer_id request)
              (ChannelType_value (CustomerRequest.channel request))
              (logged w "info" "pipeline_started"
                 [("interaction_id", JStr (uuid_interaction draws));
                  ("customer_id", JStr (CustomerRequest.customer_id request));
                  ("channel", JStr (ChannelType_value (CustomerRequest.channel request)))])
              Htruthy)
    as (snap0 & w1 & conv1 & Hget & _).
  rewrite <- Hcid in Hget.
  destruct (run_pipeline_total cfg OCS KFO EIA PIR draws request w snap0 w1
              (always_fails_only_Exception _ Focs) (always_fails_only_Exception _ Fkfo)
              (always_fails_only_Exception _ Feia) (always_fails_only_Exception _ Fpir)
              Hget)
    as (response & w' & Hrun).
  destruct (run_pipeline_inv cfg OCS KFO EIA PIR draws request w response w'
              Hkeyed Socs Skfo Seia Spir Hrun)
    as (snap & conv' & c' & task & ocs & eia & pir & Hrow' & V1 & V3 & V4 & Hintent
        & Hflag & _ & Hmatch & Hid & Hesc & _ & Hctx & _ & Hunres & _).
  assert (ocs = None) as ->.
  { destruct ocs as [r|]; [|reflexivity].
    destruct (V1 r eq_refl) as (x & w0 & w1' & Hp).
    by destruct (always_fails_never_returns OCS x w0 r w1' Focs). }
  assert (eia = None) as ->.
  { destruct eia as [r|]; [|reflexivity].
    destruct (V3 r eq_refl) as (x & w0 & w1' & Hp).
    by destruct (always_fails_never_returns EIA x w0 r w1' Feia). }
  assert (pir = None) as ->.
  { destruct pir as [r|]; [|reflexivity].
    destruct (V4 r eq_refl) as (x & w0 & w1' & Hp).
    by destruct (always_fails_never_returns PIR x w0 r w1' Fpir). }
  destruct (Hmatch cid conv Hcid Htruthy Hrow)
    as (_ & _ & _ & _ & _ & _ & _ & _ & _ & Sunres).
  rewrite (Hid cid Hcid Htruthy) in Hrow'.
  assert (Hgate : fst (_check_escalation cfg None None None snap)
                  = (policy_maximum cfg <=? before)%Z).
  { rewrite check_escalation_gate. cbn [fst evaluation_order existsb fires orb].
    rewrite Sunres. apply orb_false_r. }
  exists response, w', conv'.
  split; [exact Hrun|]. split; [exact Hintent|].
  split; [by rewrite Hflag|]. split; [exact Hrow'|].
  split; [by rewrite Hesc, Hflag|].
  rewrite Hctx. cbn [ContextManager.ctx_get]. rewrite Hunres, Hintent, Sunres.
  reflexivity.
Qed.

Lemma keyed_sample_world : keyed (db sample_world).
Proof.
  intros k conv Hk.
  change (db sample_world) with (<["conv-1" := sample_conversation]> (∅ : gmap string Conversation.t)) in Hk.
  apply lookup_insert_Some in Hk as [[<- <-]|[_ Hk]]; [reflexivity|].
  by rewrite lookup_empty in Hk.
Qed.

Lemma turns_with_every_provider_down_witness :
  ∃ response w' conv',
    run_pipeline (fmt := sample_format) EscalationConfig.empty
      (failing_agent "OCS" provider_down) (failing_agent "KFO" provider_down)
      (failing_agent "EIA" provider_down) (failing_agent "PIR" provider_down)
      sample_draws sample_followup sample_world = Returned response w'
    ∧ OrchestratorResponse.intent response = "unknown"
    ∧ OrchestratorResponse.escalation_flag response = false
    ∧ db w' !! "conv-1" = Some conv'
    ∧ Conversation.is_escalated conv' = false
    ∧ ContextManager.ctx_get (Conversation.context conv') ConvContext.unresolved_turns 0
      = 0 + 1.
Proof.
  exact (@turns_with_every_provider_down sample_format EscalationConfig.empty
           (failing_agent "OCS" provider_down) (failing_agent "KFO" provider_down)
           (failing_agent "EIA" provider_down) (failing_agent "PIR" provider_down)
           sample_draws sample_followup sample_world "conv-1" sample_conversation
           (failing_agent_always_fails "OCS" provider_down eq_refl)
           (failing_agent_always_fails "KFO" provider_down eq_refl)
           (failing_agent_always_fails "EIA" provider_down eq_refl)
           (failing_agent_always_fails "PIR" provider_down eq_refl)
           (failing_agent_leaves_store _ _) (failing_agent_leaves_store _ _)
           (failing_agent_leaves_store _ _) (failing_agent_leaves_store _ _)
           keyed_sample_world eq_refl eq_refl eq_refl).
Defined.

(** ** The order of floats *)

Ltac rank_cases :=
  repeat match goal with
    | s : bool |- _ => destruct s
    end;
  cbn;
  repeat match goal with
    | |- context [Pos.compare_cont Eq ?a ?b] =>
        change (Pos.compare_cont Eq a b) with (Pos.compare a b);
        destruct (Pos.compare_spec a b)
    | |- context [Z.compare ?a ?b] => destruct (Z.compare_spec a b)
    end;
  cbn.

Ltac rank_fwd :=
  first
    [ discriminate
    | intros _; eexists; eexists;
      split; [reflexivity|split; [reflexivity|
        unfold lex_le, lex_lt; first [left; cbn; lia | right; subst; reflexivity | cbn; lia]]] ].

Ltac rank_bwd :=
  first
    [ reflexivity
    | intros (ra & rb & Ha & Hb & Hlt);
      first
        [ discriminate
        | injection Ha as <-; injection Hb as <-;
          unfold lex_le, lex_lt in Hlt; cbn in Hlt;
          first [ lia
                | destruct Hlt as [Hlt|Heq]; [lia|injection Heq; intros; subst; lia]
                | destruct Hlt as [Hlt|Heq]; [lia|discriminate] ] ] ].

Lemma SFltb_rank a b :
  SFltb a b = true ↔ ∃ ra rb, rank a = Some ra ∧ rank b = Some rb ∧ lex_lt ra rb.
Proof.
  unfold SFltb.
  destruct a as [sa|sa| |sa ma ea], b as [sb|sb| |sb mb eb]; rank_cases;
    (split; [rank_fwd | rank_bwd]).
Qed.

Lemma SFleb_rank a b :
  SFleb a b = true ↔ ∃ ra rb, rank a = Some ra ∧ rank b = Some rb ∧ lex_le ra rb.
Proof.
  unfold SFleb.
  destruct a as [sa|sa| |sa ma ea], b as [sb|sb| |sb mb eb]; rank_cases;
    (split; [rank_fwd | rank_bwd]).
Qed.

Lemma lex_lt_le_trans a b c : lex_lt a b → lex_le b c → lex_lt a c.
Proof.
  destruct a as [[x1 y1] z1], b as [[x2 y2] z2], c as [[x3 y3] z3].
  unfold lex_le, lex_lt. intros H1 [H2|[= -> -> ->]]; lia.
Qed.

Lemma lex_le_trans a b c : lex_le a b → lex_le b c → lex_le a c.
Proof.
  destruct a as [[x1 y1] z1], b as [[x2 y2] z2], c as [[x3 y3] z3].
  unfold lex_le, lex_lt. intros [H1|[= -> -> ->]] [H2|[= -> -> ->]];
    first [left; lia | right; reflexivity].
Qed.

Lemma lex_lt_irrefl a : ¬ lex_lt a a.
Proof. destruct a as [[x y] z]. unfold lex_lt. lia. Qed.

Lemma lex_total a b : lex_lt a b ∨ lex_le b a.
Proof.
  destruct a as [[x1 y1] z1], b as [[x2 y2] z2]. unfold lex_le, lex_lt.
  destruct (Z.lt_total x1 x2) as [?|[->|?]]; [lia| |lia].
  destruct (Z.lt_total y1 y2) as [?|[->|?]]; [lia| |lia].
  destruct (Z.lt_total z1 z2) as [?|[->|?]]; [lia| |lia].
  right. by right.
Qed.

Lemma ltb_rank x y :
  PrimFloat.ltb x y = true
  ↔ ∃ rx ry, rank (Prim2SF x) = Some rx ∧ rank (Prim2SF y) = Some ry ∧ lex_lt rx ry.
Proof. rewrite ltb_spec. apply SFltb_rank. Qed.

Lemma leb_rank x y :
  PrimFloat.leb x y = true
  ↔ ∃ rx ry, rank (Prim2SF x) = Some rx ∧ rank (Prim2SF y) = Some ry ∧ lex_le rx ry.
Proof. rewrite leb_spec. apply SFleb_rank. Qed.

(** With [c' <= c] and [c <= x], [x < c'] is false. *)
Lemma below_excluded c' c x :
  PrimFloat.leb c' c = true → PrimFloat.leb c x = true → PrimFloat.ltb x c' = false.
Proof.
  intros H1 H2. apply not_true_is_false. intros H3.
  apply leb_rank in H1 as (r1 & r2 & E1 & E2 & L1).
  apply leb_rank in H2 as (r2' & r3 & E2' & E3 & L2).
  apply ltb_rank in H3 as (r3' & r1' & E3' & E1' & L3).
  rewrite E2 in E2'. injection E2' as <-.
  rewrite E3 in E3'. injection E3' as <-.
  rewrite E1 in E1'. injection E1' as <-.
  apply (lex_lt_irrefl r3). eapply lex_lt_le_trans; [exact L3|].
  eapply lex_le_trans; eassumption.
Qed.

(** With [x < c] and [c <= c'], [c' <= x] is false. *)
Lemma above_excluded c c' x :
  PrimFloat.ltb x c = true → PrimFloat.leb c c' = true → PrimFloat.leb c' x = false.
Proof.
  intros H1 H2. apply not_true_is_false. intros H3.
  pose proof (below_excluded c c' x H2 H3). congruence.
Qed.

(** Two numbers compare one way or the other. *)
Lemma ltb_or_leb x c :
  is_number x → is_number c → PrimFloat.ltb x c = true ∨ PrimFloat.leb c x = true.
Proof.
  intros (rx & Ex) (rc & Ec). destruct (lex_total rx rc) as [Hlt|Hle].
  - left. apply ltb_rank. eauto.
  - right. apply leb_rank. eauto.
Qed.

Lemma ltb_is_number x c : PrimFloat.ltb x c = true → is_number x.
Proof. intros H. apply ltb_rank in H as (rx & _ & Ex & _). by exists rx. Qed.

Lemma leb_is_number c x : PrimFloat.leb c x = true → is_number x.
Proof. intros H. apply leb_rank in H as (_ & rx & _ & Ex & _). by exists rx. Qed.

Lemma neg_infinity_below x : is_number x → PrimFloat.leb neg_infinity x = true.
Proof.
  intros (rx & Ex). apply leb_rank. exists (-2, 0, 0)%Z, rx.
  split; [reflexivity|]. split; [exact Ex|].
  destruct (Prim2SF x) as [b|b| |b m e]; try discriminate; cbn in Ex;
    repeat match goal with b : bool |- _ => destruct b end;
    injection Ex as <-; unfold lex_le, lex_lt;
    first [left; lia | right; reflexivity].
Qed.

Lemma below_infinity x : is_number x → PrimFloat.ltb x infinity = true ∨ x = infinity.
Proof.
  intros Hx.
  destruct (ltb_or_leb x infinity Hx) as [Hlt|Hle]; [by exists (2, 0, 0)%Z|by left|].
  right. apply leb_rank in Hle as (r1 & rx & E1 & Ex & Hle).
  injection E1 as <-.
  rewrite <- (SF2Prim_Prim2SF x).
  destruct (Prim2SF x) as [b|b| |b m e]; try discriminate; cbn in Ex;
    repeat match goal with b : bool |- _ => destruct b end;
    injection Ex as <-; unfold lex_le, lex_lt in Hle;
    first [reflexivity | destruct Hle as [?|[=]]; lia].
Qed.

(** ** Bands *)

(** A band that the earlier bands end below is reached by every value in
    it. *)
Lemma band_loop_hit {A} (before : list (float * float * A)) low high value after dflt x :
  Forall (fun band => PrimFloat.leb (snd (fst band)) low = true) before →
  PrimFloat.leb low x = true → PrimFloat.ltb x high = true →
  band_loop (before ++ (low, high, value) :: after) dflt x = value.
Proof.
  intros Hbefore Hlow Hhigh.
  induction Hbefore as [|[[l h] v] before Hh _ IH]; cbn.
  - by rewrite Hlow, Hhigh.
  - cbn in Hh. rewrite (below_excluded h low x Hh Hlow), andb_false_r. exact IH.
Qed.

Lemma leb_trans a b c :
  PrimFloat.leb a b = true → PrimFloat.leb b c = true → PrimFloat.leb a c = true.
Proof.
  intros H1 H2.
  apply leb_rank in H1 as (r1 & r2 & E1 & E2 & L1).
  apply leb_rank in H2 as (r2' & r3 & E2' & E3 & L2).
  rewrite E2 in E2'. injection E2' as <-.
  apply leb_rank. exists r1, r3. repeat split; try assumption.
  eapply lex_le_trans; eassumption.
Qed.

Lemma ltb_leb_trans a b c :
  PrimFloat.ltb a b = true → PrimFloat.leb b c = true → PrimFloat.ltb a c = true.
Proof.
  intros H1 H2.
  apply ltb_rank in H1 as (r1 & r2 & E1 & E2 & L1).
  apply leb_rank in H2 as (r2' & r3 & E2' & E3 & L2).
  rewrite E2 in E2'. injection E2' as <-.
  apply ltb_rank. exists r1, r3. repeat split; try assumption.
  eapply lex_lt_le_trans; eassumption.
Qed.

Lemma band_loop_inv {A} (table : list (float * float * A)) dflt x :
  (∃ low high, In (low, high, band_loop table dflt x) table
               ∧ PrimFloat.leb low x = true ∧ PrimFloat.ltb x high = true)
  ∨ (band_loop table dflt x = dflt
     ∧ Forall (fun band => PrimFloat.leb (fst (fst band)) x && PrimFloat.ltb x (snd (fst band)) = false)
         table).
Proof.
  induction table as [|[[low high] value] rest IH]; cbn.
  - right. split; [reflexivity|constructor].
  - destruct (PrimFloat.leb low x && PrimFloat.ltb x high) eqn:Hband.
    + apply andb_true_iff in Hband as [Hlow Hhigh]. left. exists low, high. auto.
    + destruct IH as [(l & h & Hin & Hl & Hh)|[Hd Hall]].
      * left. exists l, h. auto.
      * right. split; [exact Hd|]. constructor; [exact Hband|exact Hall].
Qed.

(** A value that misses a band it is not below is at or above the band's
    end. *)
Lemma band_missed low high x :
  PrimFloat.leb low x = true → is_number high →
  PrimFloat.leb low x && PrimFloat.ltb x high = false →
  PrimFloat.leb high x = true.
Proof.
  intros Hlow Hhigh Hmiss. rewrite Hlow in Hmiss. cbn in Hmiss.
  destruct (ltb_or_leb x high) as [H|H]; [by eapply leb_is_number|exact Hhigh| |exact H].
  congruence.
Qed.

Ltac number := eexists; vm_compute; reflexivity.

Lemma severity_hits (s : float) :
  (PrimFloat.ltb s (-2.0) = true → _determine_severity s = CRITICAL)
  ∧ (PrimFloat.leb (-2.0) s = true → PrimFloat.ltb s (-1.0) = true →
     _determine_severity s = HIGH)
  ∧ (PrimFloat.leb (-1.0) s = true → PrimFloat.ltb s (-0.5) = true →
     _determine_severity s = MEDIUM).
Proof.
  split_and!.
  - intros H.
    apply (band_loop_hit [] _ _ _ (tl _SEVERITY_MAP) _ s); [constructor| |exact H].
    apply neg_infinity_below. by eapply ltb_is_number.
  - intros H1 H2.
    apply (band_loop_hit (firstn 1 _SEVERITY_MAP) _ _ _ (skipn 2 _SEVERITY_MAP) _ s);
      [repeat constructor|exact H1|exact H2].
  - intros H1 H2.
    apply (band_loop_hit (firstn 2 _SEVERITY_MAP) _ _ _ (skipn 3 _SEVERITY_MAP) _ s);
      [repeat constructor|exact H1|exact H2].
Qed.

Lemma severity_cases (s : float) :
  PrimFloat.ltb s (-2.0) = true
  ∨ (PrimFloat.leb (-2.0) s = true ∧ PrimFloat.ltb s (-1.0) = true)
  ∨ (PrimFloat.leb (-1.0) s = true ∧ PrimFloat.ltb s (-0.5) = true)
  ∨ (PrimFloat.ltb s (-0.5) = false ∧ _determine_severity s = LOW).
Proof.
  destruct (band_loop_inv _SEVERITY_MAP LOW s)
    as [(low & high & Hin & Hlow & Hhigh)|[Hd Hall]].
  - fold (_determine_severity s) in Hin.
    destruct Hin as [E|[E|[E|[E|[]]]]]; injection E as <- <- E.
    + by left.
    + right. left. by split.
    + right. right. left. by split.
    + right. right. right. split; [|by symmetry].
      exact (below_excluded (-0.5)%float (-0.5)%float s eq_refl Hlow).
  - fold (_determine_severity s) in Hd.
    right. right. right. split; [|exact Hd].
    apply not_true_is_false. intros Hlt.
    apply Forall_cons in Hall as [H1 Hall]. apply Forall_cons in Hall as [H2 Hall].
    apply Forall_cons in Hall as [H3 _]. cbn [fst snd] in H1, H2, H3.
    apply band_missed in H1; [|apply neg_infinity_below; by eapply ltb_is_number|number].
    apply band_missed in H2; [|exact H1|number].
    apply band_missed in H3; [|exact H2|number].
    pose proof (below_excluded (-0.5)%float (-0.5)%float s eq_refl H3).
    congruence.
Qed.

(** X12. The severity of an anomaly score: critical exactly below -2.0,
    high exactly in [-2.0, -1.0), medium exactly in [-1.0, -0.5), and low
    for every other score, which covers the scores from -0.5 up, plus
    infinity, and a score that is not a number. *)
Theorem severity_bands (s : float) :
  (_determine_severity s = CRITICAL ↔ PrimFloat.ltb s (-2.0) = true)
  ∧ (_determine_severity s = HIGH
     ↔ PrimFloat.leb (-2.0) s = true ∧ PrimFloat.ltb s (-1.0) = true)
  ∧ (_determine_severity s = MEDIUM
     ↔ PrimFloat.leb (-1.0) s = true ∧ PrimFloat.ltb s (-0.5) = true)
  ∧ (_determine_severity s = LOW ↔ PrimFloat.ltb s (-0.5) = false).
Proof.
  destruct (severity_hits s) as (Hc & Hh & Hm).
  pose proof (severity_cases s) as Hcases.
  split_and!; split.
  1, 3, 5:
    intros H;
    destruct Hcases as [H1|[[H1 H2]|[[H1 H2]|[_ Hd]]]];
    first [ assumption
          | split; assumption
          | rewrite Hd in H; discriminate H
          | rewrite (Hc H1) in H; discriminate H
          | rewrite (Hh H1 H2) in H; discriminate H
          | rewrite (Hm H1 H2) in H; discriminate H ].
  - exact Hc.
  - intros [? ?]. by apply Hh.
  - intros [? ?]. by apply Hm.
  - intros H.
    destruct Hcases as [H1|[[H1 H2]|[[H1 H2]|[Hout _]]]];
    first [ exact Hout
          | rewrite (Hc H1) in H; discriminate H
          | rewrite (Hh H1 H2) in H; discriminate H
          | rewrite (Hm H1 H2) in H; discriminate H ].
  - intros H.
    destruct Hcases as [H1|[[_ H1]|[[_ H1]|[_ Hd]]]]; [| | |exact Hd]; exfalso.
    + pose proof (ltb_leb_trans s _ (-0.5)%float H1 eq_refl). congruence.
    + pose proof (ltb_leb_trans s _ (-0.5)%float H1 eq_refl). congruence.
    + congruence.
Qed.

Lemma is_critical_build_alert now anomaly account_id :
  is_critical (build_alert now anomaly account_id)
  = PrimFloat.ltb (default 0.0%float (Anomaly.anomaly_score anomaly)) (-2.0).
Proof.
  unfold is_critical, build_alert.
  destruct (pattern_loop _ _ _ _) as [alert_type recommended_action].
  cbn [ProactiveAlert.severity].
  set (s := default 0.0%float (Anomaly.anomaly_score anomaly)).
  destruct (severity_hits s) as (Hc & Hh & Hm).
  destruct (severity_cases s) as [H1|[[H1 H2]|[[H1 H2]|[H1 Hd]]]].
  - by rewrite (Hc H1), H1.
  - rewrite (Hh H1 H2), (below_excluded (-2.0)%float (-2.0)%float s eq_refl H1).
    reflexivity.
  - rewrite (Hm H1 H2), (below_excluded (-2.0)%float (-1.0)%float s eq_refl H1).
    reflexivity.
  - rewrite Hd. cbn. symmetry. apply not_true_is_false. intros H.
    pose proof (ltb_leb_trans s _ (-0.5)%float H eq_refl). congruence.
Qed.

(** ** The tone of a reply *)

Lemma tone_cases (s : float) :
  (PrimFloat.leb (-1.0) s = true ∧ PrimFloat.ltb s (-0.65) = true)
  ∨ (PrimFloat.leb (-0.65) s = true ∧ PrimFloat.ltb s (-0.3) = true)
  ∨ (PrimFloat.leb (-0.3) s = true ∧ PrimFloat.ltb s 0.0 = true)
  ∨ (PrimFloat.leb 0.0 s = true ∧ PrimFloat.ltb s 0.3 = true)
  ∨ (PrimFloat.leb 0.3 s = true ∧ PrimFloat.ltb s 0.65 = true)
  ∨ (PrimFloat.leb 0.65 s = true ∧ PrimFloat.ltb s 1.0 = true)
  ∨ ((PrimFloat.leb (-1.0) s = false ∨ PrimFloat.ltb s 1.0 = false)
     ∧ _get_tone_recommendation s = "neutral and professional").
Proof.
  destruct (band_loop_inv _TONE_MAP "neutral and professional" s)
    as [(low & high & Hin & Hlow & Hhigh)|[Hd Hall]].
  - destruct Hin as [E|[E|[E|[E|[E|[E|[]]]]]]]; injection E as <- <- _; tauto.
  - fold (_get_tone_recommendation s) in Hd.
    do 6 right. split; [|exact Hd].
    destruct (PrimFloat.leb (-1.0) s) eqn:H0; [right|by left].
    apply Forall_cons in Hall as [H1 Hall]. apply Forall_cons in Hall as [H2 Hall].
    apply Forall_cons in Hall as [H3 Hall]. apply Forall_cons in Hall as [H4 Hall].
    apply Forall_cons in Hall as [H5 Hall]. apply Forall_cons in Hall as [H6 _].
    cbn [fst snd] in H1, H2, H3, H4, H5, H6.
    apply band_missed in H1; [|exact H0|number].
    apply band_missed in H2; [|exact H1|number].
    apply band_missed in H3; [|exact H2|number].
    apply band_missed in H4; [|exact H3|number].
    apply band_missed in H5; [|exact H4|number].
    apply band_missed in H6; [|exact H5|number].
    exact (below_excluded 1.0%float 1.0%float s eq_refl H6).
Qed.

Lemma tone_hits (s : float) :
  (PrimFloat.leb (-1.0) s = true → PrimFloat.ltb s (-0.65) = true →
   _get_tone_recommendation s = "highly empathetic and apologetic")
  ∧ (PrimFloat.leb (-0.65) s = true → PrimFloat.ltb s (-0.3) = true →
     _get_tone_recommendation s = "empathetic and understanding")
  ∧ (PrimFloat.leb (-0.3) s = true → PrimFloat.ltb s 0.0 = true →
     _get_tone_recommendation s = "warm and supportive")
  ∧ (PrimFloat.leb 0.0 s = true → PrimFloat.ltb s 0.3 = true →
     _get_tone_recommendation s = "neutral and professional")
  ∧ (PrimFloat.leb 0.3 s = true → PrimFloat.ltb s 0.65 = true →
     _get_tone_recommendation s = "friendly and positive")
  ∧ (PrimFloat.leb 0.65 s = true → PrimFloat.ltb s 1.0 = true →
     _get_tone_recommendation s = "enthusiastic and celebratory").
Proof.
  repeat split; intros Hlow Hhigh.
  - apply (band_loop_hit [] _ _ _ (tl _TONE_MAP) _ s); [constructor|exact Hlow|exact Hhigh].
  - apply (band_loop_hit (firstn 1 _TONE_MAP) _ _ _ (skipn 2 _TONE_MAP) _ s);
      [repeat constructor|exact Hlow|exact Hhigh].
  - apply (band_loop_hit (firstn 2 _TONE_MAP) _ _ _ (skipn 3 _TONE_MAP) _ s);
      [repeat constructor|exact Hlow|exact Hhigh].
  - apply (band_loop_hit (firstn 3 _TONE_MAP) _ _ _ (skipn 4 _TONE_MAP) _ s);
      [repeat constructor|exact Hlow|exact Hhigh].
  - apply (band_loop_hit (firstn 4 _TONE_MAP) _ _ _ (skipn 5 _TONE_MAP) _ s);
      [repeat constructor|exact Hlow|exact Hhigh].
  - apply (band_loop_hit (firstn 5 _TONE_MAP) _ _ _ (skipn 6 _TONE_MAP) _ s);
      [repeat constructor|exact Hlow|exact Hhigh].
Qed.

Ltac tone_other Hhit :=
  match goal with
  | H : _get_tone_recommendation ?s = _, Hl : PrimFloat.leb _ ?s = true,
    Hh : PrimFloat.ltb ?s _ = true |- _ =>
      rewrite (Hhit Hl Hh) in H; discriminate H
  end.

(** X13. The tone recommended for a sentiment score: each of the five
    tones other than the neutral one is recommended exactly on its band,
    and the neutral one exactly on [0.0, 0.3) and on every score outside
    [-1.0, 1.0), which covers the score 1.0 itself and a score that is not
    a number. *)
Theorem tone_bands (s : float) :
  (_get_tone_recommendation s = "highly empathetic and apologetic"
   ↔ PrimFloat.leb (-1.0) s = true ∧ PrimFloat.ltb s (-0.65) = true)
  ∧ (_get_tone_recommendation s = "empathetic and understanding"
     ↔ PrimFloat.leb (-0.65) s = true ∧ PrimFloat.ltb s (-0.3) = true)
  ∧ (_get_tone_recommendation s = "warm and supportive"
     ↔ PrimFloat.leb (-0.3) s = true ∧ PrimFloat.ltb s 0.0 = true)
  ∧ (_get_tone_recommendation s = "friendly and positive"
     ↔ PrimFloat.leb 0.3 s = true ∧ PrimFloat.ltb s 0.65 = true)
  ∧ (_get_tone_recommendation s = "enthusiastic and celebratory"
     ↔ PrimFloat.leb 0.65 s = true ∧ PrimFloat.ltb s 1.0 = true)
  ∧ (_get_tone_recommendation s = "neutral and professional"
     ↔ (PrimFloat.leb 0.0 s = true ∧ PrimFloat.ltb s 0.3 = true)
       ∨ PrimFloat.leb (-1.0) s = false ∨ PrimFloat.ltb s 1.0 = false).
Proof.
  destruct (tone_hits s) as (T1 & T2 & T3 & T4 & T5 & T6).
  pose proof (tone_cases s) as Hcases.
  split_and!; split.
  1, 3, 5, 7, 9:
    intros H;
    destruct Hcases as [[Hl Hh]|[[Hl Hh]|[[Hl Hh]|[[Hl Hh]|[[Hl Hh]|[[Hl Hh]|[_ Hd]]]]]]];
    first [ split; assumption
          | rewrite Hd in H; discriminate H
          | rewrite (T1 Hl Hh) in H; discriminate H
          | rewrite (T2 Hl Hh) in H; discriminate H
          | rewrite (T3 Hl Hh) in H; discriminate H
          | rewrite (T4 Hl Hh) in H; discriminate H
          | rewrite (T5 Hl Hh) in H; discriminate H
          | rewrite (T6 Hl Hh) in H; discriminate H ].
  1-5: intros [Hl Hh]; auto.
  - intros H.
    destruct Hcases as [[Hl Hh]|[[Hl Hh]|[[Hl Hh]|[[Hl Hh]|[[Hl Hh]|[[Hl Hh]|[Hout _]]]]]]];
    first [ left; split; assumption
          | right; exact Hout
          | rewrite (T1 Hl Hh) in H; discriminate H
          | rewrite (T2 Hl Hh) in H; discriminate H
          | rewrite (T3 Hl Hh) in H; discriminate H
          | rewrite (T5 Hl Hh) in H; discriminate H
          | rewrite (T6 Hl Hh) in H; discriminate H ].
  - intros [[Hl Hh]|Hout]; [by apply T4|].
    destruct Hcases as [[Hl Hh]|[[Hl Hh]|[[Hl Hh]|[[Hl Hh]|[[Hl Hh]|[[Hl Hh]|[_ Hd]]]]]]];
      try exact Hd; try (by apply T4);
      exfalso;
      (assert (H1 : PrimFloat.leb (-1.0) s = true)
         by (refine (leb_trans (-1.0)%float _ s _ Hl); reflexivity));
      (assert (H2 : PrimFloat.ltb s 1.0 = true)
         by (refine (ltb_leb_trans s _ 1.0%float Hh _); reflexivity));
      destruct Hout; congruence.
Qed.

(** ** Alerts *)

Lemma build_alerts_loop_imap clock i anomalies account_id alerts :
  build_alerts_loop clock i anomalies account_id alerts
  = (alerts ++ imap (fun j a => build_alert (clock (i + j)%nat) a account_id) anomalies)%list.
Proof.
  revert i alerts. induction anomalies as [|a anomalies IH]; intros i alerts; cbn.
  - by rewrite app_nil_r.
  - rewrite IH. unfold py_append. rewrite <- app_assoc. cbn.
    rewrite Nat.add_0_r. do 2 f_equal. apply imap_ext. intros j b _. cbn.
    by rewrite Nat.add_succ_r.
Qed.

Lemma build_alerts_imap clock anomalies account_id :
  build_alerts clock anomalies account_id
  = imap (fun i a => build_alert (clock i) a account_id) anomalies.
Proof. unfold build_alerts. by rewrite build_alerts_loop_imap. Qed.

(** X14. [build_alerts] returns one alert per anomaly, in the order of the
    anomalies: the alert at a position is the one built from the anomaly at
    that position, stamped with the clock reading of that iteration. *)
Theorem build_alerts_one_alert_per_anomaly clock anomalies account_id :
  length (build_alerts clock anomalies account_id) = length anomalies
  ∧ ∀ i : nat,
      build_alerts clock anomalies account_id !! i
      = (fun a => build_alert (clock i) a account_id) <$> anomalies !! i.
Proof.
  rewrite build_alerts_imap. split; [apply length_imap|].
  intros i. apply list_lookup_imap.
Qed.

(** X15. The type of an alert follows the first known field, in the order
    error_count, login_failures, latency_ms, api_calls, that is a key of
    the anomaly's data, whatever other keys are there; it is
    general_anomaly exactly when none of the four is a key. *)
Theorem alert_type_follows_field_priority now anomaly account_id :
  let data := default ∅ (Anomaly.data anomaly) in
  let alert := build_alert now anomaly account_id in
  (ProactiveAlert.alert_type alert = "high_error_rate"
   ↔ is_Some (data !! "error_count"))
  ∧ (ProactiveAlert.alert_type alert = "suspicious_login_activity"
     ↔ data !! "error_count" = None ∧ is_Some (data !! "login_failures"))
  ∧ (ProactiveAlert.alert_type alert = "performance_degradation"
     ↔ data !! "error_count" = None ∧ data !! "login_failures" = None
       ∧ is_Some (data !! "latency_ms"))
  ∧ (ProactiveAlert.alert_type alert = "unusual_usage_pattern"
     ↔ data !! "error_count" = None ∧ data !! "login_failures" = None
       ∧ data !! "latency_ms" = None ∧ is_Some (data !! "api_calls"))
  ∧ (ProactiveAlert.alert_type alert = "general_anomaly"
     ↔ data !! "error_count" = None ∧ data !! "login_failures" = None
       ∧ data !! "latency_ms" = None ∧ data !! "api_calls" = None).
Proof.
  intros data alert. subst alert. unfold build_alert. fold data.
  unfold _ALERT_PATTERNS, pattern_loop, key_in.
  destruct (data !! "error_count") as [v1|] eqn:E1;
    [|destruct (data !! "login_failures") as [v2|] eqn:E2;
      [|destruct (data !! "latency_ms") as [v3|] eqn:E3;
        [|destruct (data !! "api_calls") as [v4|] eqn:E4]]];
    cbn [ProactiveAlert.alert_type];
    split_and!; split;
    first [ discriminate
          | intros _; split_and?; solve [reflexivity | eexists; reflexivity]
          | intros Hdata;
            repeat match type of Hdata with
              | _ ∧ _ => let Hhead := fresh "Hhead" in destruct Hdata as [Hhead Hdata]
              end;
            first [ discriminate
                  | destruct Hdata as [x Hx]; discriminate Hx ] ].
Qed.


(** ** Alerts and the gate *)

Lemma find_imap_first {A B} (p : B → bool) (f : nat → A → B) pre a post :
  (∀ i b, In b pre → p (f i b) = false) → p (f (length pre) a) = true →
  List.find p (imap f (pre ++ a :: post)) = Some (f (length pre) a).
Proof.
  revert f. induction pre as [|b pre IH]; intros f Hpre Ha; cbn.
  - cbn in Ha. by rewrite Ha.
  - rewrite (Hpre 0%nat b) by (by left).
    apply (IH (f ∘ S)); [|exact Ha].
    intros i c Hc. apply Hpre. by right.
Qed.

Lemma find_imap_none {A B} (p : B → bool) (f : nat → A → B) l :
  (∀ i b, In b l → p (f i b) = false) → List.find p (imap f l) = None.
Proof.
  revert f. induction l as [|b l IH]; intros f Hl; cbn; [reflexivity|].
  rewrite (Hl 0%nat b) by (by left).
  apply (IH (f ∘ S)). intros i c Hc. apply Hl. by right.
Qed.

(** X16. When the scan finds an anomaly scored below -2.0, the gate
    escalates whatever the other agents returned, and its reasons hold the
    critical-alert text naming the alert type of the first such anomaly. *)
Theorem critical_anomaly_escalates `{PyFormat} cfg clock pre a post account_id ocs eia ctx :
  Forall (fun b => PrimFloat.ltb (default 0.0%float (Anomaly.anomaly_score b)) (-2.0) = false)
    pre →
  PrimFloat.ltb (default 0.0%float (Anomaly.anomaly_score a)) (-2.0) = true →
  let pir :=
    Some {| PIROutput.proactive_alerts := build_alerts clock (pre ++ a :: post) account_id |} in
  _check_escalation cfg ocs eia pir ctx
  = (true, Some (py_join " | " (escalation_reasons cfg ocs eia pir ctx)))
  ∧ In ("Critical proactive alert: "
        +:+ ProactiveAlert.alert_type (build_alert (clock (length pre)) a account_id) +:+ ".")
       (escalation_reasons cfg ocs eia pir ctx).
Proof.
  intros Hpre Ha pir.
  assert (Hfind : List.find is_critical (build_alerts clock (pre ++ a :: post) account_id)
                  = Some (build_alert (clock (length pre)) a account_id)).
  { rewrite build_alerts_imap.
    apply (find_imap_first is_critical (fun i b => build_alert (clock i) b account_id)).
    - intros i b Hb. rewrite is_critical_build_alert.
      exact (proj1 (Stdlib.Lists.List.Forall_forall _ _) Hpre b Hb).
    - by rewrite is_critical_build_alert. }
  assert (Hfires : fires cfg ocs eia pir ctx CriticalAlert = true).
  { cbn. by rewrite existsb_find, Hfind. }
  split.
  - rewrite check_escalation_gate, escalation_reasons_fired.
    by rewrite (fires_in_order cfg ocs eia pir ctx CriticalAlert Hfires).
  - rewrite escalation_reasons_fired. unfold fired_reasons.
    replace ("Critical proactive alert: "
             +:+ ProactiveAlert.alert_type (build_alert (clock (length pre)) a account_id)
             +:+ ".")
      with (reason cfg eia pir ctx CriticalAlert) by (cbn; by rewrite Hfind).
    apply in_map, filter_In. split; [|exact Hfires].
    unfold evaluation_order. cbn. tauto.
Qed.

Lemma critical_anomaly_escalates_witness :
  let pir :=
    Some {| PIROutput.proactive_alerts := build_alerts (fun _ => "2024-01-01T00:00:00Z")
                                            sample_anomalies "acct-7" |} in
  _check_escalation (fmt := sample_format) EscalationConfig.empty None None pir
    (sample_zero_context "u1")
  = (true, Some (py_join " | "
                   (escalation_reasons (fmt := sample_format) EscalationConfig.empty None None
                      pir (sample_zero_context "u1"))))
  ∧ In "Critical proactive alert: suspicious_login_activity."
       (escalation_reasons (fmt := sample_format) EscalationConfig.empty None None pir
          (sample_zero_context "u1")).
Proof.
  refine (@critical_anomaly_escalates sample_format EscalationConfig.empty
            (fun _ => "2024-01-01T00:00:00Z") [] _ _ "acct-7" None None
            (sample_zero_context "u1") _ _).
  - constructor.
  - reflexivity.
Defined.

(** X17. When no anomaly of the scan is scored below -2.0, the gate decides
    as if the scan had been skipped: same flag, same reason. *)
Theorem scan_without_critical_anomaly_leaves_the_gate `{PyFormat}
    cfg clock anomalies account_id ocs eia ctx :
  Forall (fun b => PrimFloat.ltb (default 0.0%float (Anomaly.anomaly_score b)) (-2.0) = false)
    anomalies →
  _check_escalation cfg ocs eia
    (Some {| PIROutput.proactive_alerts := build_alerts clock anomalies account_id |}) ctx
  = _check_escalation cfg ocs eia None ctx.
Proof.
  intros Hall.
  assert (Hfind : List.find is_critical (build_alerts clock anomalies account_id) = None).
  { rewrite build_alerts_imap.
    apply (find_imap_none is_critical (fun i b => build_alert (clock i) b account_id)).
    intros i b Hb. rewrite is_critical_build_alert.
    exact (proj1 (Stdlib.Lists.List.Forall_forall _ _) Hall b Hb). }
  unfold _check_escalation, escalation_reasons. cbv zeta.
  cbn [PIROutput.proactive_alerts].
  by rewrite alert_loop_find, Hfind, app_nil_r.
Qed.

Lemma scan_without_critical_anomaly_leaves_the_gate_witness :
  _check_escalation (fmt := sample_format) EscalationConfig.empty None None
    (Some {| PIROutput.proactive_alerts :=
               build_alerts (fun _ => "2024-01-01T00:00:00Z") (tl sample_anomalies) "acct-7" |})
    (sample_zero_context "u1")
  = _check_escalation (fmt := sample_format) EscalationConfig.empty None None None
      (sample_zero_context "u1").
Proof.
  apply (@scan_without_critical_anomaly_leaves_the_gate sample_format).
  repeat constructor.
Defined.

(** ** The rule-based intents *)

Lemma keyword_loop_some keywords text :
  keyword_loop keywords text = true ↔ some_occurs keywords text.
Proof.
  unfold some_occurs. induction keywords as [|kw keywords IH]; cbn.
  - split; [discriminate|]. intros (kw & [] & _).
  - destruct (contains kw text) eqn:Hkw.
    + split; [|reflexivity]. intros _. exists kw. split; [by left|exact Hkw].
    + rewrite IH. split.
      * intros (kw' & Hin & Hocc). exists kw'. split; [by right|exact Hocc].
      * intros (kw' & [<-|Hin] & Hocc); [congruence|]. by exists kw'.
Qed.

Lemma keyword_loop_none keywords text :
  keyword_loop keywords text = false ↔ none_occurs keywords text.
Proof.
  unfold none_occurs. induction keywords as [|kw keywords IH]; cbn.
  - split; [intros _ kw []|reflexivity].
  - destruct (contains kw text) eqn:Hkw.
    + split; [discriminate|]. intros Hnone. rewrite <- Hkw. apply Hnone. by left.
    + rewrite IH. split.
      * intros Hnone kw' [<-|Hin]; [exact Hkw|by apply Hnone].
      * intros Hnone kw' Hin. apply Hnone. by right.
Qed.

Lemma rules_loop_hit before intent keywords after text :
  Forall (fun rule => none_occurs (snd rule) text) before →
  some_occurs keywords text →
  rules_loop (before ++ (intent, keywords) :: after) text = (intent, 0.6%float).
Proof.
  intros Hbefore Hsome. induction Hbefore as [|[i kws] before Hnone _ IH]; cbn.
  - apply keyword_loop_some in Hsome. by rewrite Hsome.
  - cbn in Hnone. apply keyword_loop_none in Hnone. by rewrite Hnone.
Qed.

Lemma rules_loop_inv table text :
  (∃ before intent keywords after,
      table = (before ++ (intent, keywords) :: after)%list
      ∧ Forall (fun rule => none_occurs (snd rule) text) before
      ∧ some_occurs keywords text
      ∧ rules_loop table text = (intent, 0.6%float))
  ∨ (Forall (fun rule => none_occurs (snd rule) text) table
     ∧ rules_loop table text = ("general_inquiry", 0.3%float)).
Proof.
  induction table as [|[intent keywords] table IH]; cbn.
  - right. split; [constructor|reflexivity].
  - destruct (keyword_loop keywords text) eqn:Hkw.
    + left. exists [], intent, keywords, table.
      split; [reflexivity|]. split; [constructor|].
      split; [by apply keyword_loop_some|reflexivity].
    + apply keyword_loop_none in Hkw.
      destruct IH as [(before & i & kws & after & -> & Hbefore & Hsome & Hres)|[Hall Hres]].
      * left. exists ((intent, keywords) :: before), i, kws, after.
        split; [reflexivity|]. split; [by constructor|]. by split.
      * right. split; [by constructor|exact Hres].
Qed.

(** A table whose keys are distinct splits around a key in one way. *)
Lemma split_at_key {V} (b1 b2 : list (string * V)) k v1 v2 a1 a2 :
  NoDup (map fst (b1 ++ (k, v1) :: a1)) →
  (b1 ++ (k, v1) :: a1 = b2 ++ (k, v2) :: a2)%list →
  b1 = b2 ∧ v1 = v2 ∧ a1 = a2.
Proof.
  revert b2. induction b1 as [|[k1 x1] b1 IH]; intros [|[k2 x2] b2] Hnd Heq; cbn in *.
  - injection Heq as <- <-. by repeat split.
  - injection Heq as <- <- ->. apply NoDup_cons in Hnd as [Hk _].
    exfalso. apply Hk. rewrite map_app. cbn. apply elem_of_app. right. by left.
  - injection Heq as -> -> <-. apply NoDup_cons in Hnd as [Hk _].
    exfalso. apply Hk. rewrite map_app. cbn. apply elem_of_app. right. by left.
  - injection Heq as <- <- Heq. apply NoDup_cons in Hnd as [_ Hnd].
    destruct (IH b2 Hnd Heq) as (-> & -> & ->). by repeat split.
Qed.

Lemma rules_keys_distinct : NoDup (map fst rules).
Proof. apply (bool_decide_unpack _). vm_compute. exact I. Qed.

Lemma float_06_03 : 0.6%float ≠ 0.3%float.
Proof.
  intros H. apply (f_equal (fun x => PrimFloat.eqb x 0.3)) in H.
  vm_compute in H. discriminate H.
Qed.

(** X18. The keyword fallback answers with the first rule, in the order of
    the table, one of whose keywords occurs in the lower-cased text, with
    confidence 0.6, whatever later rules match; it answers general_inquiry
    with confidence 0.3 exactly when no keyword of the table occurs. *)
Theorem rule_based_intent_takes_the_first_matching_rule `{PyBuiltins} (text : string) :
  (∀ before intent keywords after,
     rules = (before ++ (intent, keywords) :: after)%list →
     (_rule_based_intent text = (intent, 0.6%float)
      ↔ Forall (fun rule => none_occurs (snd rule) (str_lower text)) before
        ∧ some_occurs keywords (str_lower text)))
  ∧ (_rule_based_intent text = ("general_inquiry", 0.3%float)
     ↔ Forall (fun rule => none_occurs (snd rule) (str_lower text)) rules).
Proof.
  unfold _rule_based_intent. cbv zeta. split.
  - intros before intent keywords after Hsplit. split.
    + intros Hres.
      destruct (rules_loop_inv rules (str_lower text))
        as [(b & i & kws & a & Hsplit' & Hb & Hsome & Hres')|[_ Hres']].
      * rewrite Hres in Hres'. apply (f_equal fst) in Hres'. cbn in Hres'. subst i.
        pose proof rules_keys_distinct as Hnd. rewrite Hsplit in Hnd.
        rewrite Hsplit in Hsplit'.
        destruct (split_at_key _ _ _ _ _ _ _ Hnd Hsplit') as (<- & <- & _).
        by split.
      * rewrite Hres in Hres'. apply (f_equal snd) in Hres'. cbn in Hres'.
        by apply float_06_03 in Hres'.
    + intros [Hb Hsome]. rewrite Hsplit. by apply rules_loop_hit.
  - split.
    + intros Hres.
      destruct (rules_loop_inv rules (str_lower text))
        as [(b & i & kws & a & _ & _ & _ & Hres')|[Hall _]]; [|exact Hall].
      rewrite Hres in Hres'. apply (f_equal snd) in Hres'. cbn in Hres'.
      symmetry in Hres'. by apply float_06_03 in Hres'.
    + intros Hall.
      destruct (rules_loop_inv rules (str_lower text))
        as [(b & i & kws & a & Hsplit & _ & Hsome & _)|[_ Hres]]; [|exact Hres].
      exfalso. rewrite Hsplit in Hall. apply Forall_app in Hall as [_ Hall].
      apply Forall_cons in Hall as [Hnone _]. cbn in Hnone.
      destruct Hsome as (kw & Hin & Hocc). rewrite (Hnone kw Hin) in Hocc. discriminate.
Qed.

(** ** The support agent *)

Lemma detect_language_en_or_ar `{PyBuiltins} detect text w lang w' :
  detect_language detect text w = Returned lang w' → lang = "en" ∨ lang = "ar".
Proof.
  unfold detect_language.
  destruct (negb (truthy text) || negb (truthy (str_strip text))).
  - intros [= <- _]. by left.
  - unfold try_except_LangDetectException.
    cbv [mbind M_bind]. destruct (detect text w) as [lang0 w0|e w0].
    + destruct (String.eqb lang0 "ar"); intros [= <- _]; [by right|by left].
    + destruct (exc_class e) as [name| | | |]; try discriminate.
      destruct (String.eqb name "LangDetectException"); [|discriminate].
      cbv [emit mret M_ret]. intros [= <- _]. by left.
Qed.

(** Every intent has a template in both languages, its own or the one of
    the unknown intent, and no template is empty. *)
Lemma templates_cover_both_languages (intent : string) :
  ∃ en ar,
    default (default [] (dict_get "unknown" _RESPONSE_TEMPLATES))
      (dict_get intent _RESPONSE_TEMPLATES) = [("en", en); ("ar", ar)]
    ∧ en ≠ "" ∧ ar ≠ "".
Proof.
  unfold _RESPONSE_TEMPLATES. cbn [dict_get].
  repeat match goal with
    | |- context [String.eqb intent ?k] => destruct (String.eqb intent k)
    end;
    cbn [default]; eexists; eexists; (split; [reflexivity|split; discriminate]).
Qed.

(** What a run of [OCSAgent.process] is made of. *)
Lemma OCSAgent_process_inv `{PyBuiltins} detect get_classifier data w o w' :
  OCSAgent_process detect get_classifier data w = Returned o w' →
  ∃ detected_lang language intent confidence w1 w2,
    detect_language detect (OCSInput.customer_message data) w = Returned detected_lang w1
    ∧ SupportedLanguage_value language = detected_lang
    ∧ classify_intent get_classifier (OCSInput.customer_message data) None w1
      = Returned (intent, confidence) w2
    ∧ OCSOutput.intent o = intent
    ∧ OCSOutput.language o = language
    ∧ OCSOutput.escalation_flag o = String.eqb intent "escalation_request"
    ∧ OCSOutput.suggested_faq_ids o = []
    ∧ OCSOutput.response_text o
      = (let templates :=
           default (default [] (dict_get "unknown" _RESPONSE_TEMPLATES))
             (dict_get intent _RESPONSE_TEMPLATES) in
         default (default "" (dict_get "en" templates)) (dict_get detected_lang templates))
    ∧ w' = logged w2 "info" "ocs_processed"
             [("agent", JStr "OCS");
              ("interaction_id", JStr (OCSInput.interaction_id data));
              ("intent", JStr intent);
              ("confidence", JFloat (round_n confidence 3));
              ("language", JStr detected_lang);
              ("escalation_flag", JBool (String.eqb intent "escalation_request"))].
Proof.
  unfold OCSAgent_process. intros Hrun.
  apply bind_inv in Hrun as (detected_lang & w1 & Hlang & Hrun).
  apply bind_inv in Hrun as (language & w1' & Hof & Hrun).
  apply bind_inv in Hrun as ([intent confidence] & w2 & Hintent & Hrun).
  apply bind_inv in Hrun as ([] & w3 & Hlog & Hrun).
  assert (w1' = w1 ∧ SupportedLanguage_value language = detected_lang) as [-> Hvalue].
  { unfold SupportedLanguage_of in Hof.
    destruct (String.eqb detected_lang "en") eqn:Hen.
    - apply String.eqb_eq in Hen. injection Hof as <- <-. by split.
    - destruct (String.eqb detected_lang "ar") eqn:Har; [|discriminate].
      apply String.eqb_eq in Har. injection Hof as <- <-. by split. }
  injection Hlog as <-. injection Hrun as <- <-.
  exists detected_lang, language, intent, confidence, w1, w2.
  by repeat split.
Qed.

(** X19. Whatever the detector and the classifier answer, a reply of the
    support agent is flagged for escalation exactly when its intent is
    escalation_request, its text is the template of that intent (of the
    unknown intent when the intent has none) in the language it reports,
    that text is not empty, and it suggests no article. *)
Theorem ocs_reply_follows_intent_and_language `{PyBuiltins}
    detect get_classifier data w o w' :
  OCSAgent_process detect get_classifier data w = Returned o w' →
  (OCSOutput.escalation_flag o = true ↔ OCSOutput.intent o = "escalation_request")
  ∧ dict_get (SupportedLanguage_value (OCSOutput.language o))
      (default (default [] (dict_get "unknown" _RESPONSE_TEMPLATES))
         (dict_get (OCSOutput.intent o) _RESPONSE_TEMPLATES))
    = Some (OCSOutput.response_text o)
  ∧ OCSOutput.response_text o ≠ ""
  ∧ OCSOutput.suggested_faq_ids o = [].
Proof.
  intros Hrun.
  apply OCSAgent_process_inv in Hrun
    as (lang & language & intent & confidence & w1 & w2
        & Hlang & Hvalue & _ & -> & -> & -> & -> & -> & _).
  apply detect_language_en_or_ar in Hlang.
  destruct (templates_cover_both_languages intent) as (en & ar & -> & Hen & Har).
  rewrite Hvalue. split_and!.
  - apply String.eqb_eq.
  - by destruct Hlang as [-> | ->].
  - by destruct Hlang as [-> | ->].
  - reflexivity.
Qed.

Lemma ocs_reply_follows_intent_and_language_witness :
  ∃ o,
    (OCSOutput.escalation_flag o = true ↔ OCSOutput.intent o = "escalation_request")
    ∧ dict_get (SupportedLanguage_value (OCSOutput.language o))
        (default (default [] (dict_get "unknown" _RESPONSE_TEMPLATES))
           (dict_get (OCSOutput.intent o) _RESPONSE_TEMPLATES))
      = Some (OCSOutput.response_text o)
    ∧ OCSOutput.response_text o ≠ ""
    ∧ OCSOutput.suggested_faq_ids o = [].
Proof.
  eexists.
  eapply (@ocs_reply_follows_intent_and_language sample_builtins sample_detect no_classifier
            (sample_ocs_input "I need a HUMAN now") empty_world).
  vm_compute. reflexivity.
Defined.

(** At the gate, a reply of the support agent adds the two reasons of an
    escalation request, or none. *)
Lemma ocs_reasons_prefix `{PyFormat} `{PyBuiltins}
    detect get_classifier data w o w' cfg eia pir ctx :
  OCSAgent_process detect get_classifier data w = Returned o w' →
  escalation_reasons cfg (Some o) eia pir ctx
  = ((if String.eqb (OCSOutput.intent o) "escalation_request"
      then ["Customer explicitly requested human agent.";
            "Intent classified as escalation_request."]
      else [])
     ++ escalation_reasons cfg None eia pir ctx)%list.
Proof.
  intros Hrun.
  apply OCSAgent_process_inv in Hrun
    as (lang & language & intent & confidence & w1 & w2
        & _ & _ & _ & Hintent & _ & Hflag & _).
  rewrite !escalation_reasons_fired. unfold fired_reasons, evaluation_order.
  cbn [List.filter fires]. rewrite Hflag, Hintent.
  destruct (String.eqb intent "escalation_request"); reflexivity.
Qed.

(** X20. At the gate, a reply of the support agent whose intent is
    escalation_request adds two reasons, the explicit request and the
    intent, ahead of all others, and the gate escalates; a reply with any
    other intent adds none, and the gate decides as it does without the
    support agent's reply. *)
Theorem ocs_escalation_request_gives_two_reasons `{PyFormat} `{PyBuiltins}
    detect get_classifier data w o w' cfg eia pir ctx :
  OCSAgent_process detect get_classifier data w = Returned o w' →
  escalation_reasons cfg (Some o) eia pir ctx
  = ((if String.eqb (OCSOutput.intent o) "escalation_request"
      then ["Customer explicitly requested human agent.";
            "Intent classified as escalation_request."]
      else [])
     ++ escalation_reasons cfg None eia pir ctx)%list
  ∧ (OCSOutput.intent o = "escalation_request" →
     fst (_check_escalation cfg (Some o) eia pir ctx) = true)
  ∧ (OCSOutput.intent o ≠ "escalation_request" →
     _check_escalation cfg (Some o) eia pir ctx = _check_escalation cfg None eia pir ctx).
Proof.
  intros Hrun.
  pose proof (ocs_reasons_prefix detect get_classifier data w o w' cfg eia pir ctx Hrun)
    as Hreasons.
  split; [exact Hreasons|]. split.
  - intros Hintent. unfold _check_escalation. rewrite Hreasons.
    apply String.eqb_eq in Hintent. rewrite Hintent. reflexivity.
  - intros Hintent. unfold _check_escalation. rewrite Hreasons.
    apply String.eqb_neq in Hintent. rewrite Hintent. reflexivity.
Qed.

Lemma ocs_escalation_request_gives_two_reasons_witness :
  ∃ o,
    escalation_reasons (fmt := sample_format) EscalationConfig.empty (Some o) None None
      (sample_zero_context "conv-1")
    = ["Customer explicitly requested human agent.";
       "Intent classified as escalation_request."]
    ∧ fst (_check_escalation (fmt := sample_format) EscalationConfig.empty (Some o) None None
             (sample_zero_context "conv-1")) = true.
Proof.
  assert (Hrun : ∃ o w',
    OCSAgent_process (builtins := sample_builtins) sample_detect no_classifier
      (sample_ocs_input "I need a HUMAN now") empty_world = Returned o w'
    ∧ OCSOutput.intent o = "escalation_request").
  { vm_compute. eexists; eexists; split; reflexivity. }
  destruct Hrun as (o & w' & Hrun & Hintent).
  destruct (@ocs_escalation_request_gives_two_reasons sample_format sample_builtins
              sample_detect no_classifier (sample_ocs_input "I need a HUMAN now")
              empty_world o w' EscalationConfig.empty None None
              (sample_zero_context "conv-1") Hrun)
    as (Hreasons & Hgate & _).
  exists o. split; [|exact (Hgate Hintent)].
  rewrite Hreasons. apply String.eqb_eq in Hintent. rewrite Hintent. reflexivity.
Defined.

(** X21. A message that is empty or blank gets the reply of the unknown
    intent in English, without escalation, and neither the detector nor
    the classifier is consulted. *)
Theorem blank_message_gets_the_unknown_reply `{PyBuiltins} detect get_classifier data w :
  truthy (OCSInput.customer_message data) = false
  ∨ truthy (str_strip (OCSInput.customer_message data)) = false →
  OCSAgent_process detect get_classifier data w
  = Returned
      {| OCSOutput.response_text :=
           "Thank you for your message. Could you please provide more details so I can assist you better?";
         OCSOutput.intent := "unknown";
         OCSOutput.suggested_faq_ids := [];
         OCSOutput.escalation_flag := false;
         OCSOutput.language := EN |}
      (logged w "info" "ocs_processed"
         [("agent", JStr "OCS");
          ("interaction_id", JStr (OCSInput.interaction_id data));
          ("intent", JStr "unknown");
          ("confidence", JFloat (round_n 0.0%float 3));
          ("language", JStr "en");
          ("escalation_flag", JBool false)]).
Proof.
  intros Hblank.
  assert (Htest : negb (truthy (OCSInput.customer_message data))
                  || negb (truthy (str_strip (OCSInput.customer_message data))) = true).
  { destruct Hblank as [-> | ->]; [reflexivity|apply orb_true_r]. }
  unfold OCSAgent_process, detect_language, classify_intent. rewrite Htest.
  reflexivity.
Qed.

Lemma blank_message_gets_the_unknown_reply_witness :
  returned (OCSAgent_process (builtins := sample_builtins) sample_detect no_classifier
              (sample_ocs_input "   ") empty_world)
  = Some {| OCSOutput.response_text :=
              "Thank you for your message. Could you please provide more details so I can assist you better?";
            OCSOutput.intent := "unknown";
            OCSOutput.suggested_faq_ids := [];
            OCSOutput.escalation_flag := false;
            OCSOutput.language := EN |}.
Proof.
  rewrite (@blank_message_gets_the_unknown_reply sample_builtins sample_detect no_classifier
             (sample_ocs_input "   ") empty_world); [reflexivity|].
  right. reflexivity.
Defined.

(** ** The escalation queue *)

Lemma escalate_all_runs calls queue w :
  ∃ answers w',
    escalate_all calls queue w = Returned (answers, (queue ++ map snd calls)%list) w'
    ∧ db w' = db w ∧ background_tasks w' = background_tasks w
    ∧ _requests w' = _requests w
    ∧ length answers = length calls
    ∧ ∀ (i : nat) answer, answers !! i = Some answer →
        Queued.position_in_queue answer = (len queue + Z.of_nat i + 1)%Z.
Proof.
  revert queue w. induction calls as [|[now payload] calls IH]; intros queue w.
  - exists [], w. cbn. rewrite app_nil_r. repeat split. intros i answer Hi.
    by rewrite lookup_nil in Hi.
  - destruct (IH (py_append queue payload)
                (logged w "info" "escalation_queued"
                   [("interaction_id", JStr (EscalationPayload.interaction_id payload));
                    ("reason", JStr (EscalationPayload.escalation_reason payload))]))
      as (answers & w' & Hrun & Hdb & Htasks & Hreq & Hlen & Hpos).
    eexists. exists w'. split.
    + cbn [escalate_all].
      erewrite bind_returned by (unfold escalate; cbv zeta; step_pure; reflexivity).
      cbv beta iota. step_with Hrun. cbv beta iota.
      unfold py_append. rewrite <- app_assoc. reflexivity.
    + split; [exact Hdb|]. split; [exact Htasks|]. split; [exact Hreq|].
      split; [cbn; by rewrite Hlen|].
      intros [|i] answer Hi; cbn in Hi.
      * injection Hi as <-. cbn. unfold py_append, len. rewrite length_app. cbn. lia.
      * rewrite (Hpos i answer Hi). unfold py_append, len. rewrite length_app. cbn. lia.
Qed.

(** X22. Escalations are only ever added to the queue: after any number of
    calls the queue is the former queue followed by the payloads in the
    order of the calls, the call of rank i (from 0) is told position
    (former length + i + 1), and the conversations, the scheduled tasks
    and the rate limiter's table are left as they were.  The queue view
    then reports the full length and shows the last ten payloads at
    most. *)
Theorem escalation_queue_only_grows calls queue w :
  ∃ answers w',
    escalate_all calls queue w = Returned (answers, (queue ++ map snd calls)%list) w'
    ∧ db w' = db w ∧ background_tasks w' = background_tasks w
    ∧ _requests w' = _requests w
    ∧ (∀ (i : nat) answer, answers !! i = Some answer →
         Queued.position_in_queue answer = (len queue + Z.of_nat i + 1)%Z)
    ∧ QueueStatus.queue_length (get_escalation_queue (queue ++ map snd calls))
      = (len queue + len calls)%Z
    ∧ length (QueueStatus.items (get_escalation_queue (queue ++ map snd calls)))
      = Nat.min 10 (length queue + length calls)
    ∧ QueueStatus.items (get_escalation_queue (queue ++ map snd calls))
      `suffix_of` map EscalationPayload.model_dump (queue ++ map snd calls).
Proof.
  destruct (escalate_all_runs calls queue w)
    as (answers & w' & Hrun & Hdb & Htasks & Hreq & _ & Hpos).
  exists answers, w'. split_and!; try assumption.
  - unfold get_escalation_queue, len. cbn [QueueStatus.queue_length].
    rewrite length_app, length_map. lia.
  - unfold get_escalation_queue, py_tail. cbn [QueueStatus.items].
    rewrite length_map, length_drop, length_app, length_map. lia.
  - unfold get_escalation_queue, py_tail. cbn [QueueStatus.items].
    exists (map EscalationPayload.model_dump
              (take (length (queue ++ map snd calls) - 10) (queue ++ map snd calls))).
    rewrite <- map_app. by rewrite take_drop.
Qed.

(** ** The knowledge agent *)






(** ** The support agent in the pipeline *)



